(** * wableys: the WhatsApp Baileys microservice (src/server.js)

    A shallow embedding of the session lifecycle manager and of the
    message relay of [server.js], with the properties the specification
    states about them.

    Conventions of the embedding.
    - A JavaScript string is a [string]; one [ascii] stands for one code
      unit.  An optional or nullable property is an [option]; a value is
      "truthy" when it is present and, for a string, not empty, for a
      number, not zero.
    - A [Map] keyed by agent id is a [gmap string _].
    - An [async] function is split at its [await]s: every piece between
      two awaits runs without interruption and is one function on the
      server state; what is still to run is a [Task] kept in the state.
    - The collaborators (transport, QR renderer, file system, HTTP
      endpoints) are not part of the repository.  Their answers are
      inputs of the pieces that wait for them; the file system is the map
      [authStore] from agent id to the stored credential blob, and
      removing a directory always succeeds.
    - The routes are taken after [authMiddleware], which is modelled on
      its own.  The routes that only read the maps ([/], [/health],
      [/status], [/send], [/chats], [/messages]) are functions of the
      server state and are not events of a run.
    - The objects carried by an event of the transport are values: the
      transport does not change them once it has emitted them. *)

From Stdlib Require Import ZArith String Ascii List Bool Lia.
From stdpp Require Import base gmap strings list pretty.

Local Open Scope string_scope.

(** ** JavaScript string helpers *)

Module Js.

(** [s.includes(sub)] *)
Fixpoint includes (sub s : string) : bool :=
  String.prefix sub s ||
  match s with
  | EmptyString => false
  | String _ s' => includes sub s'
  end.

(** [s.endsWith(suf)] *)
Definition endsWith (suf s : string) : bool :=
  let n := String.length s in
  let k := String.length suf in
  (k <=? n)%nat && String.eqb (substring (n - k) k s) suf.

(** [s.split(c)[0]]: the part of [s] before the first [c]. *)
Fixpoint split0 (c : ascii) (s : string) : string :=
  match s with
  | EmptyString => EmptyString
  | String x s' => if Ascii.eqb x c then EmptyString else String x (split0 c s')
  end.

(** What follows the first [c] in [s], when there is one. *)
Fixpoint after (c : ascii) (s : string) : option string :=
  match s with
  | EmptyString => None
  | String x s' => if Ascii.eqb x c then Some s' else after c s'
  end.

(** [s.split(c)[1]]: [undefined] when [s] holds no [c]. *)
Definition split1 (c : ascii) (s : string) : option string :=
  split0 c <$> after c s.

(** Truthiness of an optional string. *)
Definition truthy (o : option string) : bool :=
  match o with
  | Some s => negb (String.eqb s "")
  | None => false
  end.

(** [a || b] where [b] is a string. *)
Definition or_else (a : option string) (b : string) : string :=
  match a with
  | Some s => if String.eqb s "" then b else s
  | None => b
  end.

(** [a || b] where [b] may be [null] as well. *)
Definition or_opt (a b : option string) : option string :=
  if truthy a then a else b.

(** [s.substring(0, n)] *)
Definition substring0 (n : nat) (s : string) : string := substring 0 n s.

(** Truthiness of an optional object. *)
Definition present {A} (o : option A) : bool :=
  match o with Some _ => true | None => false end.

(** Truthiness of an optional boolean. *)
Definition truthy_bool (o : option bool) : bool :=
  match o with Some b => b | None => false end.

(** A value inside a template literal. *)
Definition render (o : option string) : string :=
  match o with Some s => s | None => "undefined" end.

End Js.

(** ** Constants of [server.js] *)

Definition MAX_CONCURRENT_SESSIONS : Z := 5.
Definition QR_TIMEOUT_MS : Z := 3 * 60 * 1000.
Definition CLEANUP_INTERVAL_MS : Z := 5 * 60 * 1000.
Definition MAX_RECONNECT_ATTEMPTS : Z := 5.

(** ** Helpers of [server.js] *)

(** [jidToPhone] *)
Definition jidToPhone (jid : option string) : string :=
  match jid with
  | None => ""
  | Some j => if String.eqb j "" then "" else Js.split0 ":" (Js.split0 "@" j)
  end.

(** ** The message relay ([messages.upsert]) *)

Module Relay.

(** The parts of a Baileys message the relay reads. *)
Record Media := { caption : option string; mimetype : option string }.
Record Audio := { ptt : option bool; audio_mimetype : option string; seconds : option Z }.
Record Sticker := { sticker_mimetype : option string }.

Inductive Message :=
  MkMessage (conversation : option string)
            (extendedTextMessage : option ExtendedText)
            (imageMessage videoMessage : option Media)
            (audioMessage : option Audio)
            (documentMessage : option Media)
            (stickerMessage : option Sticker)
with ExtendedText :=
  MkExtendedText (text : option string) (contextInfo : option ContextInfo)
with ContextInfo :=
  MkContextInfo (stanzaId participant : option string) (quotedMessage : option Message).

Definition conversation (m : Message) := let 'MkMessage c _ _ _ _ _ _ := m in c.
Definition extendedTextMessage (m : Message) := let 'MkMessage _ e _ _ _ _ _ := m in e.
Definition imageMessage (m : Message) := let 'MkMessage _ _ i _ _ _ _ := m in i.
Definition videoMessage (m : Message) := let 'MkMessage _ _ _ v _ _ _ := m in v.
Definition audioMessage (m : Message) := let 'MkMessage _ _ _ _ a _ _ := m in a.
Definition documentMessage (m : Message) := let 'MkMessage _ _ _ _ _ d _ := m in d.
Definition stickerMessage (m : Message) := let 'MkMessage _ _ _ _ _ _ s := m in s.
Definition text (e : ExtendedText) := let 'MkExtendedText t _ := e in t.
Definition contextInfo (e : ExtendedText) := let 'MkExtendedText _ c := e in c.
Definition stanzaId (c : ContextInfo) := let 'MkContextInfo i _ _ := c in i.
Definition participant_of (c : ContextInfo) := let 'MkContextInfo _ p _ := c in p.
Definition quotedMessage (c : ContextInfo) := let 'MkContextInfo _ _ q := c in q.

Record Key := {
  remoteJid : option string;
  fromMe : option bool;
  id : option string;
  key_participant : option string
}.

Record WAMessage := {
  key : Key;
  message : option Message;
  pushName : option string;
  messageTimestamp : Z
}.

(** An entry of [store.contacts]. *)
Record Contact := {
  contact_id : option string;
  name : option string;
  notify : option string;
  verifiedName : option string
}.

(** [resolveContactId]; [pushName] is only written to the log. *)
Definition resolveContactId (jid : string) (pushName : option string)
    (contacts : gmap string Contact) : string :=
  if negb (String.eqb jid "") && Js.includes "@lid" jid then
    match contacts !! jid with
    | Some c =>
        match contact_id c with
        | Some i =>
            if negb (String.eqb i "") && negb (Js.includes "@lid" i) then i else jid
        | None => jid
        end
    | None => jid
    end
  else jid.

(** [getContactName] *)
Definition getContactName (jid : string) (contacts : gmap string Contact)
    (pushName : option string) : string :=
  match contacts !! jid with
  | Some c =>
      Js.or_else (name c) (Js.or_else (notify c) (Js.or_else (verifiedName c)
        (Js.or_else pushName (jidToPhone (Some jid)))))
  | None => Js.or_else pushName (jidToPhone (Some jid))
  end.

(** [extractMessageText] *)
Definition extractMessageText (message : option Message) : string :=
  match message with
  | None => ""
  | Some m =>
      Js.or_else (conversation m)
     (Js.or_else (extendedTextMessage m ≫= text)
     (Js.or_else (imageMessage m ≫= caption)
     (Js.or_else (videoMessage m ≫= caption)
     (Js.or_else (documentMessage m ≫= caption) ""))))
  end.

Inductive MessageType := ty_text | ty_media | ty_voice | ty_sticker | ty_reply.
Inductive BaileysType := bt_image | bt_video | bt_ptt | bt_audio | bt_document | bt_sticker | bt_text.

Definition MessageType_eqb (a b : MessageType) : bool :=
  match a, b with
  | ty_text, ty_text | ty_media, ty_media | ty_voice, ty_voice
  | ty_sticker, ty_sticker | ty_reply, ty_reply => true
  | _, _ => false
  end.

(** [detectMessageType] *)
Definition detectMessageType (message : option Message) : MessageType * option BaileysType :=
  match message with
  | None => (ty_text, @None BaileysType)
  | Some m =>
      if Js.present (imageMessage m) then (ty_media, Some bt_image)
      else if Js.present (videoMessage m) then (ty_media, Some bt_video)
      else match audioMessage m with
      | Some a =>
          if Js.truthy_bool (ptt a) then (ty_voice, Some bt_ptt)
          else (ty_media, Some bt_audio)
      | None =>
          if Js.present (documentMessage m) then (ty_media, Some bt_document)
          else if Js.present (stickerMessage m) then (ty_sticker, Some bt_sticker)
          else if Js.present ((extendedTextMessage m ≫= contextInfo) ≫= quotedMessage)
               then (ty_reply, Some bt_text)
          else (ty_text, Some bt_text)
      end
  end.

(** [messageType === 'media' || messageType === 'voice' || messageType === 'sticker'] *)
Definition isMediaClass (t : MessageType) : bool :=
  MessageType_eqb t ty_media || MessageType_eqb t ty_voice || MessageType_eqb t ty_sticker.

(** [mediaTypeLabel[baileysType]] *)
Definition mediaTypeLabel (b : option BaileysType) : option string :=
  match b with
  | Some bt_image => Some "📷 Imagen"
  | Some bt_video => Some "🎥 Video"
  | Some bt_audio => Some "🎵 Audio"
  | Some bt_document => Some "📄 Documento"
  | _ => None
  end.

(** [s.replace(pat, '')]: the first occurrence of [pat] is removed. *)
Fixpoint remove_first (pat s : string) : string :=
  if String.prefix pat s then substring (String.length pat) (String.length s) s
  else match s with
       | EmptyString => EmptyString
       | String c s' => String c (remove_first pat s')
       end.

(** The normalized record posted to the webhook. *)
Record QuotedMessage := {
  q_id : option string;
  q_body : string;
  q_from : string
}.

Record Metadata := {
  md_timestamp : Z;
  md_from : string;
  md_participant : option string;
  md_source : string;
  md_from_me : bool;
  md_sender_name : option string;
  media_type : option BaileysType;
  media_url : option string;
  media_filename : option string;
  quoted_message : option QuotedMessage;
  voice_duration : option (option Z)
}.

Record WebhookBody := {
  agent_id : string;
  from : string;
  to : option string;
  wb_participant : option string;
  body : string;
  timestamp : Z;
  has_media : bool;
  contact_name : string;
  is_group : bool;
  sender_name : option string;
  from_me : bool;
  message_type : MessageType;
  message_metadata : Metadata
}.

(** What the collaborators answer while one message is relayed. *)
Inductive DownloadResult :=
| DlThrows                          (* [downloadMediaMessage] throws *)
| DlBuffer (buffer : option string) (* it returns; [None] is a falsy buffer *).

Inductive FetchResult :=
| FetchThrows                       (* [fetch] throws *)
| FetchResponse (ok : bool).        (* [response.ok] *)

Record Outcome := {
  download : DownloadResult;
  now : Z;                          (* [Date.now()] *)
  storage : FetchResult;
  webhook : FetchResult
}.

(** What the handler does that is visible outside it.  The [console.log]
    lines are left out; [console.error] is kept with its first argument. *)
Inductive Effect :=
| Download (msg : WAMessage)
| Upload (storageUrl mimeType : string)
| Webhook (payload : WebhookBody)
| ConsoleError (what : string).

Section Handler.

Variable WEBHOOK_URL : string.
Variable agentId : string.
Variable contacts : gmap string Contact.   (* [store.contacts] *)
Variable sock_user_id : option string.     (* [sock.user?.id] *)

Definition supabaseUrl : string :=
  remove_first "/functions/v1/webhook-whatsapp-personal" WEBHOOK_URL.

(** The [mimeType] of the media branch. *)
Definition mimeTypeOf (m : Message) : string :=
  Js.or_else (imageMessage m ≫= mimetype)
 (Js.or_else (videoMessage m ≫= mimetype)
 (Js.or_else (audioMessage m ≫= audio_mimetype)
 (Js.or_else (documentMessage m ≫= mimetype)
 (Js.or_else (stickerMessage m ≫= sticker_mimetype) "application/octet-stream")))).

Definition extensionOf (mimeType : string) : string :=
  Js.or_else (Js.split0 ";" <$> Js.split1 "/" mimeType) "bin".

Definition mediaFileNameOf (msg : WAMessage) (m : Message) (o : Outcome) : string :=
  "whatsapp-" ++ Js.render (id (key msg)) ++ "-" ++ pretty (now o) ++ "."
    ++ extensionOf (mimeTypeOf m).

(** The [try] block that downloads and uploads the payload: its effects
    and the values of [mediaUrl] and [mediaFileName] after it. *)
Definition downloadAndUpload (msg : WAMessage) (m : Message) (o : Outcome)
    : list Effect * option string * option string :=
  match download o with
  | DlThrows =>
      ([Download msg; ConsoleError "❌ Error downloading/uploading media:"], None, None)
  | DlBuffer None => ([Download msg], None, None)
  | DlBuffer (Some _) =>
      let mimeType := mimeTypeOf m in
      let mediaFileName := mediaFileNameOf msg m o in
      let storageUrl := supabaseUrl ++ "/storage/v1/object/whatsapp-media/" ++ mediaFileName in
      match storage o with
      | FetchThrows =>
          ([Download msg; Upload storageUrl mimeType;
            ConsoleError "❌ Error downloading/uploading media:"], None, Some mediaFileName)
      | FetchResponse true =>
          ([Download msg; Upload storageUrl mimeType],
           Some (supabaseUrl ++ "/storage/v1/object/public/whatsapp-media/" ++ mediaFileName),
           Some mediaFileName)
      | FetchResponse false =>
          ([Download msg; Upload storageUrl mimeType;
            ConsoleError "❌ Failed to upload media:"], None, Some mediaFileName)
      end
  end.

(** [participant]: the group member, in a group only. *)
Definition participantOf (msg : WAMessage) (remoteJid : string) : option string :=
  if Js.endsWith "@g.us" remoteJid
  then Js.or_opt (key_participant (key msg)) None
  else None.

(** [contactName] *)
Definition contactNameOf (msg : WAMessage) (remoteJid : string) : string :=
  if Js.endsWith "@g.us" remoteJid
  then Js.or_else (Some (getContactName remoteJid contacts None)) "Unknown Group"
  else getContactName (resolveContactId remoteJid (pushName msg) contacts) contacts (pushName msg).

(** [senderName] *)
Definition senderNameOf (msg : WAMessage) (remoteJid : string) : option string :=
  if Js.endsWith "@g.us" remoteJid then
    match participantOf msg remoteJid with
    | Some p =>
        if negb (Js.truthy_bool (fromMe (key msg)))
        then Some (getContactName p contacts (pushName msg))
        else None
    | None => None
    end
  else None.

(** [messageMetadata], as it stands when the webhook is called;
    [mediaUrl] and [mediaFileName] come out of the download block. *)
Definition metadataOf (msg : WAMessage) (remoteJid : string) (messageContent : Message)
    (mediaUrl mediaFileName : option string) : Metadata :=
  let '(messageType, baileysType) := detectMessageType (Some messageContent) in
  {| md_timestamp := messageTimestamp msg;
     md_from := resolveContactId remoteJid (pushName msg) contacts;
     md_participant := participantOf msg remoteJid;
     md_source := "whatsapp_personal";
     md_from_me := Js.truthy_bool (fromMe (key msg));
     md_sender_name :=
       if Js.truthy (senderNameOf msg remoteJid) then senderNameOf msg remoteJid else None;
     media_type := if isMediaClass messageType then baileysType else None;
     media_url :=
       if isMediaClass messageType && Js.truthy mediaUrl then mediaUrl else None;
     media_filename :=
       if isMediaClass messageType && Js.truthy mediaUrl then mediaFileName else None;
     quoted_message :=
       if MessageType_eqb messageType ty_reply then
         match extendedTextMessage messageContent ≫= contextInfo with
         | Some ci =>
             match quotedMessage ci with
             | Some q =>
                 Some {| q_id := Js.or_opt (stanzaId ci) None;
                         q_body := Js.substring0 100 (extractMessageText (Some q));
                         q_from := Js.or_else (participant_of ci) remoteJid |}
             | None => None
             end
         | None => None
         end
       else None;
     voice_duration :=
       if MessageType_eqb messageType ty_voice then
         Some (match audioMessage messageContent ≫= seconds with
               | Some n => if (n =? 0)%Z then None else Some n
               | None => None
               end)
       else None |}.

(** [messageBody] *)
Definition messageBodyOf (messageContent : Message) : string :=
  let '(messageType, baileysType) := detectMessageType (Some messageContent) in
  if MessageType_eqb messageType ty_voice then "🎤 Nota de voz"
  else if MessageType_eqb messageType ty_sticker then "🎨 Sticker"
  else if MessageType_eqb messageType ty_media then
    let caption := extractMessageText (Some messageContent) in
    let label := Js.or_else (mediaTypeLabel baileysType) "📎 Archivo multimedia" in
    if String.eqb caption "" then label else label ++ ": " ++ caption
  else extractMessageText (Some messageContent).

(** The JSON body of the webhook call. *)
Definition payloadOf (msg : WAMessage) (remoteJid : string) (messageContent : Message)
    (mediaUrl mediaFileName : option string) : WebhookBody :=
  {| agent_id := agentId;
     from := resolveContactId remoteJid (pushName msg) contacts;
     to := if Js.truthy_bool (fromMe (key msg)) then Some remoteJid else sock_user_id;
     wb_participant := participantOf msg remoteJid;
     body := messageBodyOf messageContent;
     timestamp := messageTimestamp msg;
     has_media := isMediaClass (detectMessageType (Some messageContent)).1;
     contact_name := contactNameOf msg remoteJid;
     is_group := Js.endsWith "@g.us" remoteJid;
     sender_name := senderNameOf msg remoteJid;
     from_me := Js.truthy_bool (fromMe (key msg));
     message_type := (detectMessageType (Some messageContent)).1;
     message_metadata := metadataOf msg remoteJid messageContent mediaUrl mediaFileName |}.

(** The media branch: the payload is fetched for a received message of
    the classes media, voice and sticker, and for no other. *)
Definition mediaBranch (msg : WAMessage) (messageContent : Message) (o : Outcome)
    : list Effect * option string * option string :=
  if isMediaClass (detectMessageType (Some messageContent)).1
     && negb (Js.truthy_bool (fromMe (key msg)))
  then downloadAndUpload msg messageContent o
  else ([], None, None).

(** What follows the webhook call. *)
Definition afterWebhook (o : Outcome) : list Effect :=
  match webhook o with
  | FetchThrows => [ConsoleError "Error processing message:"]
  | FetchResponse false => [ConsoleError "Webhook error:"]
  | FetchResponse true => []
  end.

(** The body of the [for] loop of [messages.upsert] for one message. *)
Definition relayMessage (msg : WAMessage) (o : Outcome) : list Effect :=
  match remoteJid (key msg) with
  | None => []
  | Some remoteJid =>
      if String.eqb remoteJid "" then []
      else if String.eqb remoteJid "status@broadcast" then []
      else
        match message msg with
        | None => []
        | Some messageContent =>
            let '(fx, mediaUrl, mediaFileName) := mediaBranch msg messageContent o in
            fx ++ [Webhook (payloadOf msg remoteJid messageContent mediaUrl mediaFileName)]
               ++ afterWebhook o
        end
  end.

(** The [messages.upsert] handler: only the batches of type [notify]
    are processed, one message after the other. *)
Definition messagesUpsert (type : string) (messages : list (WAMessage * Outcome))
    : list Effect :=
  if String.eqb type "notify"
  then flat_map (λ mo, relayMessage mo.1 mo.2) messages
  else [].

End Handler.

End Relay.

(** ** The session lifecycle manager *)

Module Lifecycle.

(** The values of [clientStates] and of [update.connection]. *)
Inductive ConnState := st_connecting | st_open | st_close.

#[global] Instance ConnState_eq_dec : EqDecision ConnState.
Proof. solve_decision. Defined.

(** The stored credential blob of an account. *)
Definition Creds := string.

(** A call of [resolve] or of [reject] on the promise of [initializeClient]. *)
Inductive Settlement :=
| Resolved
| Rejected (reason : string).

(** One call of [initializeClient] that reached [makeWASocket]: the socket
    and the variables its handlers close over. *)
Record Sock := {
  sock_agent : string;           (* [agentId] *)
  sock_isReconnect : bool;       (* [isReconnect] *)
  sock_auth : option Creds;      (* what [useMultiFileAuthState] found on disk *)
  sock_user : option string;     (* [sock.user?.id] *)
  qrResolved : bool;
  settled : list Settlement      (* calls of [resolve] / [reject], oldest first *)
}.

(** [lastDisconnect.error] *)
Record Boom := {
  output_statusCode : option Z;    (* [error.output.statusCode] *)
  statusCode : option Z;           (* [error.statusCode] *)
  message : option string;         (* [error.message] *)
  payload_message : option string  (* [error.output.payload.message] *)
}.

(** The argument of the [connection.update] handler. *)
Record Update := {
  connection : option ConnState;
  lastDisconnect : option Boom;    (* [lastDisconnect?.error] *)
  qr : option string
}.

(** The answers of the routes [/init] and [/disconnect/:agent_id]. *)
Inductive Response :=
| BadRequest                                          (* 400 *)
| Connected (phone_number : string)                   (* 200, already_connected *)
| LimitReached (active_clients max_clients : Z)       (* 503 *)
| Pairing (qr_code session_id : string) (timeout_seconds : Z)  (* 200 *)
| ServerError (error : string)                        (* 500 *)
| Disconnected.                                       (* 200, success *)

(** Calls that leave the process. *)
Inductive Effect :=
| Respond (r : Response)
| Logout (s : nat)                            (* [sock.logout()] *)
| EndSocket (s : nat)                         (* [sock.end()] *)
| SetTimeout (h : nat) (a : string) (ms : Z)  (* the QR timer *)
| ClearTimeout (h : nat)
| NotifyConnected (a phone_number : string).  (* POST whatsapp-personal-connect *)

(** Who awaits [destroyClient]. *)
Inductive Caller :=
| by_disconnect                 (* the route [/disconnect/:agent_id] *)
| by_init_replace               (* [/init], "Destroy existing non-connected client" *)
| by_init_error (error : string)(* [/init], the [catch (initError)] block *)
| by_timer                      (* the QR timer *)
| by_sweeper.                   (* the cleanup interval *)

(** Who awaits [initializeClient]. *)
Inductive Awaiter :=
| for_init                                 (* [/init] *)
| for_reconnect (s : nat) (reason : string).
    (* the close handler of socket [s]; [reason] is the text it rejects with *)

(** A suspended [async] function: the [await] it is parked on. *)
Inductive Task :=
| RenderQr (s : nat) (u : Update)          (* [await QRCode.toDataURL(qr)] *)
| NotifyOpen (s : nat)                     (* [await fetch(...)] of the open branch *)
| ReconnectDelay (s : nat) (delay : Z) (reason : string)
                                           (* [await new Promise(r => setTimeout(r, delay))] *)
| LoadAuth (w : Awaiter) (a : string) (isReconnect : bool)
    (* [initializeClient] at [await useMultiFileAuthState(authPath)] *)
| FetchVersion (w : Awaiter) (a : string) (isReconnect : bool) (state : option Creds)
    (* [initializeClient] at [await fetchLatestBaileysVersion()]; [state] is
       what [useMultiFileAuthState] has read *)
| AwaitSocket (w : Awaiter) (a : string) (s' : nat)
    (* [await initializeClient(...)], the promise of socket [s'] *)
| LogoutPending (c : Caller) (a : string) (s : nat)     (* [await clientData.sock.logout()] *)
| CleanupPause (c : Caller) (a : string).  (* the one second pause of [destroyClient] *)

(** The module-level maps, the credential directory, the sockets made so
    far, and the suspended functions. *)
Record Server := {
  clients : gmap string nat;            (* agentId -> { sock, store, saveCreds } *)
  qrCodes : gmap string string;
  qrTimeouts : gmap string nat;         (* agentId -> timeout handle *)
  clientStates : gmap string ConnState;
  reconnectAttempts : gmap string Z;
  authStore : gmap string Creds;        (* auth_sessions/<agentId> *)
  socks : list Sock;
  timerCount : nat;                     (* handles given out by [setTimeout] *)
  tasks : list Task;
  trace : list Effect
}.

(** The process starts with empty maps over whatever the credential
    directory holds. *)
Definition boot (disk : gmap string Creds) : Server := {|
  clients := ∅; qrCodes := ∅; qrTimeouts := ∅; clientStates := ∅;
  reconnectAttempts := ∅; authStore := disk; socks := []; timerCount := 0;
  tasks := []; trace := []
|}.

(** The first start, with an empty credential directory. *)
Definition initial : Server := boot ∅.

Definition with_clients (f : gmap string nat → gmap string nat) (σ : Server) : Server :=
  {| clients := f (clients σ); qrCodes := qrCodes σ; qrTimeouts := qrTimeouts σ;
     clientStates := clientStates σ; reconnectAttempts := reconnectAttempts σ;
     authStore := authStore σ; socks := socks σ; timerCount := timerCount σ;
     tasks := tasks σ; trace := trace σ |}.

Definition with_qrCodes (f : gmap string string → gmap string string) (σ : Server) : Server :=
  {| clients := clients σ; qrCodes := f (qrCodes σ); qrTimeouts := qrTimeouts σ;
     clientStates := clientStates σ; reconnectAttempts := reconnectAttempts σ;
     authStore := authStore σ; socks := socks σ; timerCount := timerCount σ;
     tasks := tasks σ; trace := trace σ |}.

Definition with_qrTimeouts (f : gmap string nat → gmap string nat) (σ : Server) : Server :=
  {| clients := clients σ; qrCodes := qrCodes σ; qrTimeouts := f (qrTimeouts σ);
     clientStates := clientStates σ; reconnectAttempts := reconnectAttempts σ;
     authStore := authStore σ; socks := socks σ; timerCount := timerCount σ;
     tasks := tasks σ; trace := trace σ |}.

Definition with_clientStates (f : gmap string ConnState → gmap string ConnState)
    (σ : Server) : Server :=
  {| clients := clients σ; qrCodes := qrCodes σ; qrTimeouts := qrTimeouts σ;
     clientStates := f (clientStates σ); reconnectAttempts := reconnectAttempts σ;
     authStore := authStore σ; socks := socks σ; timerCount := timerCount σ;
     tasks := tasks σ; trace := trace σ |}.

Definition with_reconnectAttempts (f : gmap string Z → gmap string Z) (σ : Server) : Server :=
  {| clients := clients σ; qrCodes := qrCodes σ; qrTimeouts := qrTimeouts σ;
     clientStates := clientStates σ; reconnectAttempts := f (reconnectAttempts σ);
     authStore := authStore σ; socks := socks σ; timerCount := timerCount σ;
     tasks := tasks σ; trace := trace σ |}.

Definition with_authStore (f : gmap string Creds → gmap string Creds) (σ : Server) : Server :=
  {| clients := clients σ; qrCodes := qrCodes σ; qrTimeouts := qrTimeouts σ;
     clientStates := clientStates σ; reconnectAttempts := reconnectAttempts σ;
     authStore := f (authStore σ); socks := socks σ; timerCount := timerCount σ;
     tasks := tasks σ; trace := trace σ |}.

Definition with_socks (f : list Sock → list Sock) (σ : Server) : Server :=
  {| clients := clients σ; qrCodes := qrCodes σ; qrTimeouts := qrTimeouts σ;
     clientStates := clientStates σ; reconnectAttempts := reconnectAttempts σ;
     authStore := authStore σ; socks := f (socks σ); timerCount := timerCount σ;
     tasks := tasks σ; trace := trace σ |}.

Definition with_timerCount (f : nat → nat) (σ : Server) : Server :=
  {| clients := clients σ; qrCodes := qrCodes σ; qrTimeouts := qrTimeouts σ;
     clientStates := clientStates σ; reconnectAttempts := reconnectAttempts σ;
     authStore := authStore σ; socks := socks σ; timerCount := f (timerCount σ);
     tasks := tasks σ; trace := trace σ |}.

Definition with_tasks (f : list Task → list Task) (σ : Server) : Server :=
  {| clients := clients σ; qrCodes := qrCodes σ; qrTimeouts := qrTimeouts σ;
     clientStates := clientStates σ; reconnectAttempts := reconnectAttempts σ;
     authStore := authStore σ; socks := socks σ; timerCount := timerCount σ;
     tasks := f (tasks σ); trace := trace σ |}.

Definition with_trace (f : list Effect → list Effect) (σ : Server) : Server :=
  {| clients := clients σ; qrCodes := qrCodes σ; qrTimeouts := qrTimeouts σ;
     clientStates := clientStates σ; reconnectAttempts := reconnectAttempts σ;
     authStore := authStore σ; socks := socks σ; timerCount := timerCount σ;
     tasks := tasks σ; trace := f (trace σ) |}.

(** A call that leaves the process is appended to the trace. *)
Definition emit (e : Effect) : Server → Server := with_trace (λ t, (t ++ [e])%list).

(** The function parks on an [await]. *)
Definition park (t : Task) : Server → Server := with_tasks (λ ts, (ts ++ [t])%list).

(** [res.json(...)] / [res.status(...).json(...)] *)
Definition respond (r : Response) : Server → Server := emit (Respond r).

(** [clearQrTimeout] *)
Definition clearQrTimeout (agentId : string) (σ : Server) : Server :=
  match qrTimeouts σ !! agentId with
  | Some timeout => with_qrTimeouts (delete agentId) (emit (ClearTimeout timeout) σ)
  | None => σ
  end.

(** [fsSync.existsSync(authPath)] followed by [fsSync.rmSync(authPath, ...)] *)
Definition removeAuth (agentId : string) : Server → Server :=
  with_authStore (delete agentId).

(** [countConnectedClients] *)
Definition countConnectedClients (σ : Server) : Z :=
  map_fold (λ agentId _ count,
              if bool_decide (clientStates σ !! agentId = Some st_open)
              then (count + 1)%Z else count)
           0%Z (clients σ).

(** [if (!qrResolved) { qrResolved = true; resolve(...) }], and the same
    with [reject]: the guarded settlement of the promise of socket [s]. *)
Definition settle (s : nat) (v : Settlement) (σ : Server) : Server :=
  match socks σ !! s with
  | Some k =>
      if qrResolved k then σ
      else with_socks
             <[s := {| sock_agent := sock_agent k; sock_isReconnect := sock_isReconnect k;
                       sock_auth := sock_auth k; sock_user := sock_user k;
                       qrResolved := true; settled := (settled k ++ [v])%list |}]> σ
  | None => σ
  end.

(** [a || b] on optional numbers. *)
Definition or_num (a b : option Z) : option Z :=
  match a with
  | Some n => if (n =? 0)%Z then b else a
  | None => b
  end.

(** [error?.output?.statusCode || error?.statusCode] *)
Definition statusCodeOf (u : Update) : option Z :=
  match lastDisconnect u with
  | Some error => or_num (output_statusCode error) (statusCode error)
  | None => None
  end.

(** [error?.message || error?.output?.payload?.message || 'Unknown'] *)
Definition errorMessageOf (u : Update) : string :=
  match lastDisconnect u with
  | Some error => Js.or_else (message error) (Js.or_else (payload_message error) "Unknown")
  | None => "Unknown"
  end.

(** The text of [new Error(`Connection closed: ${statusCode} - ${errorMessage}`)] *)
Definition closeReason (u : Update) : string :=
  "Connection closed: " ++ Js.render (pretty <$> statusCodeOf u) ++ " - " ++ errorMessageOf u.

(** [(reconnectAttempts.get(agentId) || 0) + 1] *)
Definition nextAttempt (agentId : string) (σ : Server) : Z :=
  (default 0 (or_num (reconnectAttempts σ !! agentId) (Some 0)) + 1)%Z.

(** [Math.min(attempts * 2000, 10000)] *)
Definition reconnectDelay (attempts : Z) : Z := Z.min (attempts * 2000) 10000.

(** The first lines of [initializeClient]: the stored credentials are
    removed on a fresh init, never on a reconnect. *)
Definition initializeClient_begin (agentId : string) (isReconnect : bool) (σ : Server) : Server :=
  if negb isReconnect && negb (Js.present (clients σ !! agentId))
  then removeAuth agentId σ
  else σ.

(** The executor of the promise of [initializeClient]: [makeWASocket] is
    called with the credentials read before, the handlers are
    registered, and the caller waits for the promise. *)
Definition initializeClient_socket (w : Awaiter) (agentId : string) (isReconnect : bool)
    (state : option Creds) (σ : Server) : Server :=
  let s := length (socks σ) in
  let k := {| sock_agent := agentId; sock_isReconnect := isReconnect;
              sock_auth := state; sock_user := None;
              qrResolved := false; settled := [] |} in
  park (AwaitSocket w agentId s) (with_socks (λ l, (l ++ [k])%list) σ).

(** [destroyClient] after the logout: the credentials and the entries of
    three maps go, then the function pauses for one second. *)
Definition destroyClient_cleanup (c : Caller) (agentId : string) (σ : Server) : Server :=
  park (CleanupPause c agentId)
    (with_clientStates (delete agentId)
      (with_qrCodes (delete agentId)
        (with_clients (delete agentId)
          (removeAuth agentId σ)))).

(** [destroyClient] up to its first [await]. *)
Definition destroyClient_begin (c : Caller) (agentId : string) (σ : Server) : Server :=
  let σ := clearQrTimeout agentId σ in
  match clients σ !! agentId with
  | Some s => park (LogoutPending c agentId s) (emit (Logout s) σ)
  | None => destroyClient_cleanup c agentId σ
  end.

(** [destroyClient] has returned to its caller. *)
Definition destroyClient_end (c : Caller) (agentId : string) (σ : Server) : Server :=
  match c with
  | by_disconnect => respond Disconnected σ
  | by_init_replace =>
      park (LoadAuth for_init agentId false) (initializeClient_begin agentId false σ)
  | by_init_error error => respond (ServerError error) σ
  | by_timer | by_sweeper => σ
  end.

(** The route [POST /init], up to its first [await]. *)
Definition post_init (agent_id : option string) (σ : Server) : Server :=
  if negb (Js.truthy agent_id) then respond BadRequest σ
  else
    let agent_id := default "" agent_id in
    let existingClient := clients σ !! agent_id in
    let alreadyOpen :=
      match existingClient with
      | Some s =>
          if bool_decide (clientStates σ !! agent_id = Some st_open)
          then Some (jidToPhone (Some (Js.or_else (socks σ !! s ≫= sock_user) "")))
          else None
      | None => None
      end in
    match alreadyOpen with
    | Some phoneNumber => respond (Connected phoneNumber) σ
    | None =>
        let activeCount := countConnectedClients σ in
        if (MAX_CONCURRENT_SESSIONS <=? activeCount)%Z && negb (Js.present existingClient)
        then respond (LimitReached activeCount MAX_CONCURRENT_SESSIONS) σ
        else if Js.present existingClient
        then destroyClient_begin by_init_replace agent_id σ
        else park (LoadAuth for_init agent_id false)
                  (initializeClient_begin agent_id false σ)
    end.

(** The route [POST /init] after [await initializeClient(agent_id)]. *)
Definition post_init_settled (agent_id : string) (s : nat) (v : Settlement) (σ : Server)
    : Server :=
  match v with
  | Resolved =>
      let σ := with_clientStates <[agent_id := st_connecting]>
                 (with_clients <[agent_id := s]> σ) in
      let qrCode := qrCodes σ !! agent_id in
      if negb (Js.truthy qrCode)
         && bool_decide (clientStates σ !! agent_id = Some st_open)
      then respond (Connected (jidToPhone (Some (Js.or_else (socks σ !! s ≫= sock_user) "")))) σ
      else if negb (Js.truthy qrCode)
      then destroyClient_begin
             (by_init_error "QR code not generated after initialization") agent_id σ
      else respond (Pairing (default "" qrCode) agent_id (QR_TIMEOUT_MS / 1000)) σ
  | Rejected error => destroyClient_begin (by_init_error error) agent_id σ
  end.

Section Transport.

(** [DisconnectReason.loggedOut], a constant of the transport library. *)
Variable loggedOut : Z.

(** [statusCode !== DisconnectReason.loggedOut] *)
Definition shouldReconnect (u : Update) : bool :=
  negb (bool_decide (statusCodeOf u = Some loggedOut)).

(** The close branch of the [connection.update] handler, up to its first
    [await] (the reconnect delay) or, on the other branches, to its end. *)
Definition on_close (s : nat) (agentId : string) (u : Update) (σ : Server) : Server :=
  let σ := with_clientStates <[agentId := st_close]> σ in
  if shouldReconnect u then
    let attempts := nextAttempt agentId σ in
    let σ := with_reconnectAttempts <[agentId := attempts]> σ in
    if (attempts <=? MAX_RECONNECT_ATTEMPTS)%Z then
      park (ReconnectDelay s (reconnectDelay attempts) (closeReason u)) σ
    else
      settle s (Rejected (closeReason u))
        (with_clientStates (delete agentId)
          (with_qrCodes (delete agentId)
            (with_clients (delete agentId)
              (with_reconnectAttempts (delete agentId) σ))))
  else
    settle s (Rejected (closeReason u))
      (removeAuth agentId
        (with_reconnectAttempts (delete agentId)
          (with_clientStates (delete agentId)
            (with_qrCodes (delete agentId)
              (with_clients (delete agentId)
                (clearQrTimeout agentId σ)))))).

(** The open branch of the handler, up to the notification of the edge
    function. *)
Definition on_open (s : nat) (agentId : string) (σ : Server) : Server :=
  let σ := with_reconnectAttempts (delete agentId)
             (with_clientStates <[agentId := st_open]>
               (clearQrTimeout agentId σ)) in
  let phoneNumber := jidToPhone (Some (Js.or_else (socks σ !! s ≫= sock_user) "")) in
  park (NotifyOpen s) (emit (NotifyConnected agentId phoneNumber) σ).

(** The handler after its [if (qr) { ... }] block. *)
Definition after_qr (s : nat) (agentId : string) (u : Update) (σ : Server) : Server :=
  match connection u with
  | Some st_open => on_open s agentId σ
  | Some st_close => on_close s agentId u σ
  | _ => σ
  end.

(** The [if (qr)] block once [QRCode.toDataURL] has answered with
    [qrImage], or thrown ([None]). *)
Definition qr_rendered (s : nat) (agentId : string) (qrImage : option string) (σ : Server)
    : Server :=
  match qrImage with
  | Some qrImage =>
      let σ := clearQrTimeout agentId (with_qrCodes <[agentId := qrImage]> σ) in
      let timeout := timerCount σ in
      let σ := with_qrTimeouts <[agentId := timeout]>
                 (emit (SetTimeout timeout agentId QR_TIMEOUT_MS)
                   (with_timerCount S σ)) in
      settle s Resolved σ
  | None => settle s (Rejected "Error generating QR") σ
  end.

(** The [connection.update] handler of socket [s], up to its first [await]. *)
Definition connection_update (s : nat) (u : Update) (σ : Server) : Server :=
  match socks σ !! s with
  | Some k =>
      if Js.truthy (qr u) then park (RenderQr s u) σ
      else after_qr s (sock_agent k) u σ
  | None => σ
  end.

(** The close handler of socket [s] after [await initializeClient(agentId, true)]:
    [result] is the new socket, or [None] when the call was rejected. *)
Definition reconnect_settled (s : nat) (reason : string) (agentId : string)
    (result : option nat) (σ : Server) : Server :=
  let σ :=
    match result with
    | Some reconnected => with_clients <[agentId := reconnected]> σ
    | None => with_clientStates (delete agentId) (with_clients (delete agentId) σ)
    end in
  settle s (Rejected reason) σ.

(** [initializeClient] has settled for its caller. *)
Definition initialize_settled (w : Awaiter) (agentId : string) (s' : nat) (v : Settlement)
    (σ : Server) : Server :=
  match w with
  | for_init => post_init_settled agentId s' v σ
  | for_reconnect s reason =>
      reconnect_settled s reason agentId
        (match v with Resolved => Some s' | Rejected _ => None end) σ
  end.

(** A suspended function continues.  [answer] is what it was waiting
    for: [Some x] when the awaited call returned ([x] is read by
    [RenderQr] only), [None] when it threw.  A failed version lookup is
    caught inside [initializeClient] and changes the version number only. *)
Definition continue (t : Task) (answer : option string) (σ : Server) : option Server :=
  match t with
  | RenderQr s u =>
      k ← socks σ !! s;
      Some (after_qr s (sock_agent k) u (qr_rendered s (sock_agent k) answer σ))
  | NotifyOpen s =>
      k ← socks σ !! s;
      Some (settle s Resolved (with_qrCodes (delete (sock_agent k)) σ))
  | ReconnectDelay s _ reason =>
      k ← socks σ !! s;
      Some (park (LoadAuth (for_reconnect s reason) (sock_agent k) true)
              (initializeClient_begin (sock_agent k) true σ))
  | LoadAuth w a isReconnect =>
      match answer with
      | Some _ => Some (park (FetchVersion w a isReconnect (authStore σ !! a)) σ)
      | None =>
          Some (initialize_settled w a 0 (Rejected "useMultiFileAuthState failed") σ)
      end
  | FetchVersion w a isReconnect state =>
      Some (initializeClient_socket w a isReconnect state σ)
  | AwaitSocket w a s' =>
      k ← socks σ !! s';
      v ← head (settled k);
      Some (initialize_settled w a s' v σ)
  | LogoutPending c a s =>
      Some (destroyClient_cleanup c a
              (match answer with Some _ => σ | None => emit (EndSocket s) σ end))
  | CleanupPause c a => Some (destroyClient_end c a σ)
  end.

(** What happens to the server, one uninterrupted piece at a time. *)
Inductive Event :=
| PostInit (agent_id : option string)       (* an authorised [POST /init] *)
| PostDisconnect (agent_id : string)        (* an authorised [POST /disconnect/:agent_id] *)
| ConnectionUpdate (s : nat) (u : Update)   (* socket [s] emits [connection.update] *)
| CredsUpdate (s : nat) (c : Creds)         (* socket [s] emits [creds.update] *)
| UserKnown (s : nat) (jid : string)        (* the transport fills [sock.user] *)
| QrTimeout (agentId : string)              (* the timer kept in [qrTimeouts] fires *)
| Sweep (agentId : string)                  (* the cleanup interval visits [agentId] *)
| Resume (i : nat) (answer : option string). (* the [i]-th suspended function continues *)

Definition exec (e : Event) (σ : Server) : Server :=
  match e with
  | PostInit agent_id => post_init agent_id σ
  | PostDisconnect agent_id => destroyClient_begin by_disconnect agent_id σ
  | ConnectionUpdate s u => connection_update s u σ
  | CredsUpdate s c =>
      match socks σ !! s with
      | Some k => with_authStore <[sock_agent k := c]> σ
      | None => σ
      end
  | UserKnown s jid =>
      match socks σ !! s with
      | Some k =>
          with_socks
            <[s := {| sock_agent := sock_agent k; sock_isReconnect := sock_isReconnect k;
                      sock_auth := sock_auth k; sock_user := Some jid;
                      qrResolved := qrResolved k; settled := settled k |}]> σ
      | None => σ
      end
  | QrTimeout agentId =>
      match qrTimeouts σ !! agentId with
      | Some _ => destroyClient_begin by_timer agentId σ
      | None => σ
      end
  | Sweep agentId =>
      match clients σ !! agentId with
      | Some _ =>
          let state := clientStates σ !! agentId in
          if negb (bool_decide (state = Some st_open))
             && negb (bool_decide (state = Some st_connecting))
          then destroyClient_begin by_sweeper agentId σ
          else σ
      | None => σ
      end
  | Resume i answer =>
      match tasks σ !! i with
      | Some t => default σ (continue t answer (with_tasks (delete i) σ))
      | None => σ
      end
  end.

(** A run of the server. *)
Definition run (es : list Event) (σ : Server) : Server :=
  fold_left (λ σ e, exec e σ) es σ.

(** An event can happen in a state: a socket that emits exists, a timer
    that fires is armed, a function that continues is suspended and what
    it waits for is there.  [exec] leaves the state as it is otherwise. *)
Definition enabled (e : Event) (σ : Server) : bool :=
  match e with
  | PostInit _ | PostDisconnect _ => true
  | ConnectionUpdate s _ | CredsUpdate s _ | UserKnown s _ => Js.present (socks σ !! s)
  | QrTimeout agentId => Js.present (qrTimeouts σ !! agentId)
  | Sweep agentId => Js.present (clients σ !! agentId)
  | Resume i answer =>
      match tasks σ !! i with
      | Some t => Js.present (continue t answer (with_tasks (delete i) σ))
      | None => false
      end
  end.

(** Every event of the run can happen when its turn comes. *)
Fixpoint feasible (es : list Event) (σ : Server) : bool :=
  match es with
  | [] => true
  | e :: es => enabled e σ && feasible es (exec e σ)
  end.



End Transport.

(** *** Invariants of the server state *)


(** The promise of a socket has been settled at most once, and not at
    all while [qrResolved] is false. *)
Definition settled_once (k : Sock) : Prop :=
  (length (settled k) ≤ 1)%nat ∧ (qrResolved k = false → settled k = []).

Definition promises_single_fire (σ : Server) : Prop :=
  Forall settled_once (socks σ).

End Lifecycle.

(** ** Concrete messages and server states used below *)

Module Examples.

Import Relay.

Definition noMedia : option Media := None.

(** A text that quotes an earlier message of 120 characters. *)
Definition longText : string :=
  "0123456789012345678901234567890123456789012345678901234567890123456789012345678901234567890123456789ABCDEFGHIJKLMNOPQRST".

Definition quoted : Message :=
  MkMessage (Some longText) None None None None None None.

Definition replyContent : Message :=
  MkMessage None
    (Some (MkExtendedText (Some "ok")
             (Some (MkContextInfo (Some "3EB0") (Some "5491122@s.whatsapp.net") (Some quoted)))))
    None None None None None.


(** A received picture. *)
Definition imageContent : Message :=
  MkMessage None None
    (Some {| caption := Some "hola"; mimetype := Some "image/jpeg" |})
    None None None None.

Definition imageMessageIn : WAMessage :=
  {| key := {| remoteJid := Some "5491100@s.whatsapp.net"; fromMe := None;
               id := Some "MSG2"; key_participant := None |};
     message := Some imageContent; pushName := Some "Ana"; messageTimestamp := 1700000001 |}.

Definition uploaded : Outcome :=
  {| download := DlBuffer (Some "bytes"); now := 1700000001234;
     storage := FetchResponse true; webhook := FetchResponse true |}.

Definition uploadRefused : Outcome :=
  {| download := DlBuffer (Some "bytes"); now := 1700000001234;
     storage := FetchResponse false; webhook := FetchResponse true |}.

Definition noBuffer : Outcome :=
  {| download := DlBuffer None; now := 1700000001234;
     storage := FetchResponse true; webhook := FetchResponse true |}.

Definition webhookUrl : string :=
  "https://example.supabase.co/functions/v1/webhook-whatsapp-personal".

(** The transport constant [DisconnectReason.loggedOut]. *)
Definition loggedOut : Z := 401.

Import Lifecycle.

Definition qrUpdate (ref : string) : Update :=
  {| connection := None; lastDisconnect := None; qr := Some ref |}.

Definition closeUpdate (code : Z) (text : string) : Update :=
  {| connection := Some st_close;
     lastDisconnect := Some {| output_statusCode := Some code; statusCode := None;
                               message := Some text; payload_message := None |};
     qr := None |}.

Definition openUpdate : Update :=
  {| connection := Some st_open; lastDisconnect := None; qr := None |}.

(** [/init] for a new account up to its answer, on a server with
    nothing pending and [s] sockets made so far: the credentials are
    looked up, the version is fetched, the socket is made, the transport
    sends a pairing code, the image is rendered, the request is
    answered. *)
Definition socket_of (a : string) : list Event :=
  [PostInit (Some a); Resume 0 (Some ""); Resume 0 (Some "")].

Definition code_of (s : nat) : list Event :=
  [ConnectionUpdate s (qrUpdate "2@ref1"); Resume 1 (Some "data:image/png;base64,AAA")].

Definition pairing_of (a : string) (s : nat) : list Event :=
  socket_of a ++ code_of s ++ [Resume 0 (Some "")].

(** The code is scanned: the transport saves the credentials and asks
    for a restart, and the reconnect makes a socket with the saved
    credentials. *)
Definition restart_of (s : nat) : list Event :=
  [CredsUpdate s "creds-1";
   ConnectionUpdate s (closeUpdate 515 "Stream Errored (restart required)");
   Resume 0 (Some ""); Resume 0 (Some ""); Resume 0 (Some "")].

(** That socket opens. *)
Definition restart_after_scan_of (s : nat) : list Event :=
  restart_of s ++
  [UserKnown (S s) "5491100:7@s.whatsapp.net"; ConnectionUpdate (S s) openUpdate;
   Resume 1 (Some ""); Resume 0 (Some "")].

Definition pairing : list Event := pairing_of "acct1" 0.
Definition restart_after_scan : list Event := restart_after_scan_of 0.

(** The first socket of the account, before any event of the transport. *)
Definition awaiting_code : Server := run loggedOut (socket_of "acct1") initial.

(** The pairing image is stored and the promise resolved; [/init] has
    not continued yet. *)
Definition code_shown : Server :=
  run loggedOut (socket_of "acct1" ++ code_of 0) initial.

(** The reconnect after the scan has made its socket, which has not
    opened yet. *)
Definition reconnecting : Server := run loggedOut (pairing ++ restart_of 0) initial.

(** One account, paired and open. *)
Definition paired : Server := run loggedOut (pairing ++ restart_after_scan) initial.

(** Five accounts, paired and open. *)
Definition full : Server :=
  run loggedOut
    (pairing_of "acct2" 2 ++ restart_after_scan_of 2 ++
     pairing_of "acct3" 4 ++ restart_after_scan_of 4 ++
     pairing_of "acct4" 6 ++ restart_after_scan_of 6 ++
     pairing_of "acct5" 8 ++ restart_after_scan_of 8) paired.

(** The connection of socket [s] is lost and a reconnect makes the next
    socket; [n] handlers are already waiting for a reconnect. *)
Definition connection_lost (s n : nat) : list Event :=
  [ConnectionUpdate s (closeUpdate 408 "Connection was lost");
   Resume n (Some ""); Resume n (Some ""); Resume n (Some "")].

(** Five reconnects that are lost in turn; then the sixth loss, and the
    waiting handlers returning one after the other. *)
Definition five_drops : list Event :=
  connection_lost 1 0 ++ connection_lost 2 1 ++ connection_lost 3 2 ++
  connection_lost 4 3 ++ connection_lost 5 4.

Definition six_drops : list Event :=
  five_drops ++
  [ConnectionUpdate 6 (closeUpdate 408 "Connection was lost");
   Resume 4 (Some ""); Resume 3 (Some ""); Resume 2 (Some "");
   Resume 1 (Some ""); Resume 0 (Some "")].

(** The account with its five reconnect attempts used. *)
Definition last_attempt : Server := run loggedOut five_drops paired.

(** The account after its reconnect attempts are used up. *)
Definition exhausted : Server := run loggedOut six_drops paired.

(** A new [/init] for the account, up to the socket of the new session. *)
Definition reinit : list Event :=
  [PostInit (Some "acct1"); Resume 0 (Some ""); Resume 0 (Some "")].

(** The transport of socket 7 opens with no pairing code before, and the
    [/init] request runs to its answer. *)
Definition opens_unpaired : list Event :=
  [UserKnown 7 "5491100:7@s.whatsapp.net"; ConnectionUpdate 7 openUpdate;
   Resume 1 (Some ""); Resume 0 (Some ""); Resume 0 (Some ""); Resume 0 (Some "")].

(** A pairing that is never completed: the connection is lost once, the
    reconnect shows a second code, and the QR timer fires. *)
Definition pairing_expires : list Event :=
  pairing ++
  [ConnectionUpdate 0 (closeUpdate 408 "QR refs attempts ended");
   Resume 0 (Some ""); Resume 0 (Some ""); Resume 0 (Some "");
   ConnectionUpdate 1 (qrUpdate "2@ref2"); Resume 1 (Some "data:image/png;base64,BBB");
   Resume 0 (Some "");
   QrTimeout "acct1"; Resume 0 (Some ""); Resume 0 (Some "")].

End Examples.

(** ** More JavaScript helpers *)

Module Text.

(** A decimal digit: the class [\d]. *)
Definition isDigit (c : ascii) : bool :=
  (48 <=? nat_of_ascii c)%nat && (nat_of_ascii c <=? 57)%nat.

(** [s.replace(/\D/g, '')]: every code unit that is no digit is dropped. *)
Fixpoint digits (s : string) : string :=
  match s with
  | EmptyString => EmptyString
  | String c s' => if isDigit c then String c (digits s') else digits s'
  end.

(** [s.replace(pat, rep)] for a string [pat] and a [rep] without [$]:
    the first occurrence of [pat] is replaced. *)
Fixpoint replace (pat rep s : string) : string :=
  if String.prefix pat s
  then rep ++ substring (String.length pat) (String.length s) s
  else match s with
       | EmptyString => EmptyString
       | String c s' => String c (replace pat rep s')
       end.

(** [l.slice(start)]: [None] is [NaN], a negative [start] counts from
    the end. *)
Definition slice {A} (start : option Z) (l : list A) : list A :=
  match start with
  | None => l
  | Some k =>
      if (k <? 0)%Z then drop (length l - Z.to_nat (- k)) l
      else drop (Z.to_nat k) l
  end.

(** A code unit occurs in a string. *)
Fixpoint has (c : ascii) (s : string) : bool :=
  match s with
  | EmptyString => false
  | String x s' => Ascii.eqb x c || has c s'
  end.

End Text.

(** ** Configuration and the authorization middleware *)

Module Config.

(** [process.env.WEBHOOK_URL || '...'] and the like: an unset or empty
    variable gives the default. *)
Definition WEBHOOK_URL (env : option string) : string :=
  Js.or_else env
    "https://wmzbqsegsyagcjgxefqs.supabase.co/functions/v1/webhook-whatsapp-personal".

Definition MICROSERVICE_SECRET (env : option string) : string :=
  Js.or_else env "your-secret-key-here".

(** What a middleware does with a request: it answers 401, or it calls
    [next()]. *)
Inductive Verdict := Unauthorized | Next.

(** [authMiddleware]; [authorization] is [req.headers.authorization]. *)
Definition authMiddleware (secret : string) (authorization : option string) : Verdict :=
  if negb (Js.truthy authorization)
     || negb (bool_decide (authorization = Some ("Bearer " ++ secret)))
  then Unauthorized
  else Next.

End Config.

(** ** The contact store of a socket *)

Module Store.

Import Relay.

(** An element of a [contacts.update] batch, a partial contact: [None]
    is a property the object does not have, [Some v] a property whose
    value is [v]. *)
Record ContactPatch := {
  patch_id : option (option string);
  patch_name : option (option string);
  patch_notify : option (option string);
  patch_verifiedName : option (option string)
}.

(** The property key a value stands for in [store.contacts[...]]; a
    missing id stands for [undefined]. *)
Definition keyOf (i : option string) : string := Js.render i.

(** [Object.assign(target, u)], on the properties the server reads. *)
Definition assign (target : Contact) (u : ContactPatch) : Contact :=
  {| contact_id := default (contact_id target) (patch_id u);
     name := default (name target) (patch_name u);
     notify := default (notify target) (patch_notify u);
     verifiedName := default (verifiedName target) (patch_verifiedName u) |}.

(** The handler of [contacts.upsert]. *)
Definition contacts_upsert (cs : list Contact) (contacts : gmap string Contact)
    : gmap string Contact :=
  fold_left (λ st c, <[keyOf (contact_id c) := c]> st) cs contacts.

(** The handler of [contacts.update]: only a contact that is stored is
    changed. *)
Definition contacts_update (us : list ContactPatch) (contacts : gmap string Contact)
    : gmap string Contact :=
  fold_left (λ st u,
               let k := keyOf (mjoin (patch_id u)) in
               match st !! k with
               | Some c => <[k := assign c u]> st
               | None => st
               end) us contacts.

(** Every contact is stored under the key its own id stands for. *)
Definition keyed (contacts : gmap string Contact) : Prop :=
  ∀ k c, contacts !! k = Some c → keyOf (contact_id c) = k.

(** A chat of [store.chats], a message list of [store.messages]. *)
Record Chat := {
  chat_id : string;
  chat_name : option string;
  subject : option string;
  conversationTimestamp : option Z;
  unreadCount : option Z
}.

Record MessageList := { array : option (list WAMessage) }.

(** The properties of [store] the server reads; [chats] and [messages]
    are [None] on an object that has no such property. *)
Record T := {
  contacts : gmap string Contact;
  chats : option (list Chat);              (* [store.chats.all()] *)
  messages : option (gmap string MessageList)
}.

(** [const store = { contacts: {} }] *)
Definition create : T := {| contacts := ∅; chats := None; messages := None |}.

(** What a socket emits about contacts. *)
Inductive StoreEvent :=
| ContactsUpsert (cs : list Contact)
| ContactsUpdate (us : list ContactPatch).

Definition on_event (store : T) (e : StoreEvent) : T :=
  {| contacts := match e with
                 | ContactsUpsert cs => contacts_upsert cs (contacts store)
                 | ContactsUpdate us => contacts_update us (contacts store)
                 end;
     chats := chats store;
     messages := messages store |}.

(** The store of a socket after the events [evs], oldest first. *)
Definition after (evs : list StoreEvent) : T := fold_left on_event evs create.

End Store.

(** ** Batches of messages *)

Module Batch.

Import Relay.

(** The message passes the filters at the head of the loop of
    [messages.upsert]. *)
Definition relayable (msg : WAMessage) : bool :=
  match remoteJid (key msg) with
  | Some rj =>
      negb (String.eqb rj "") && negb (String.eqb rj "status@broadcast")
      && Js.present (message msg)
  | None => false
  end.

Definition isWebhook (e : Effect) : bool :=
  match e with Webhook _ => true | _ => false end.

End Batch.

(** ** The routes that read the maps *)

Module Routes.

Import Relay Lifecycle.

(** [GET /] *)
Record RootInfo := {
  root_status : string;
  root_version : string;
  root_engine : string;
  root_activeClients : nat;
  root_maxClients : Z;
  root_qrTimeoutSeconds : Z
}.

Definition get_root (σ : Server) : RootInfo :=
  {| root_status := "WhatsApp Baileys service running";
     root_version := "2.0.0";
     root_engine := "baileys";
     root_activeClients := size (clients σ);
     root_maxClients := MAX_CONCURRENT_SESSIONS;
     root_qrTimeoutSeconds := (QR_TIMEOUT_MS / 1000)%Z |}.

(** [GET /health]; [now] is [new Date().toISOString()]. *)
Record HealthInfo := {
  health_status : string;
  health_engine : string;
  activeClients : nat;
  maxClients : Z;
  pendingQRs : nat;
  health_timestamp : string
}.

Definition get_health (now : string) (σ : Server) : HealthInfo :=
  {| health_status := "ok";
     health_engine := "baileys";
     activeClients := size (clients σ);
     maxClients := MAX_CONCURRENT_SESSIONS;
     pendingQRs := size (qrCodes σ);
     health_timestamp := now |}.

(** The text of a value of [clientStates]. *)
Definition stateName (c : ConnState) : string :=
  match c with
  | st_connecting => "connecting"
  | st_open => "open"
  | st_close => "close"
  end.

(** [GET /status/:agent_id] *)
Inductive StatusReply :=
| StatusNone                                  (* { connected: false } *)
| StatusConnected (phone_number : string)     (* connected: true, state: 'CONNECTED' *)
| StatusOther (state : string) (qr_code : option string).
                                              (* connected: false, state, qr_code *)

Definition get_status (agent_id : string) (σ : Server) : StatusReply :=
  match clients σ !! agent_id with
  | None => StatusNone
  | Some s =>
      let currentState := clientStates σ !! agent_id in
      if bool_decide (currentState = Some st_open)
      then StatusConnected (jidToPhone (Some (Js.or_else (socks σ !! s ≫= sock_user) "")))
      else StatusOther (Js.or_else (stateName <$> currentState) "unknown")
                       (Js.or_opt (qrCodes σ !! agent_id) None)
  end.

(** What a [catch] block of a route receives. *)
Inductive Thrown :=
| Failure (message : string)          (* an error thrown by a collaborator *)
| UndefinedRead (property : string).  (* a TypeError: [property] is read on [undefined] *)

(** The recipient of [/send]. *)
Definition formatNumber (to : string) : string :=
  if negb (Js.includes "@g.us" to) && negb (Js.includes "@c.us" to)
  then Text.digits to ++ "@s.whatsapp.net"
  else if Js.includes "@c.us" to
  then Text.replace "@c.us" "@s.whatsapp.net" to
  else to.

Inductive SendReply :=
| SendMissing                             (* 400, a field is missing *)
| SendNoClient                            (* 404 *)
| SendNotOpen                             (* 400, 'Client not connected' *)
| SendDone (message_id : option string)   (* 200 *)
| SendFailed (e : Thrown).                (* 500 *)

(** [clientData.sock.sendMessage(formattedNumber, { text: content })] on
    socket [via]. *)
Record SendCall := { via : nat; recipient : string; content_text : string }.

(** [POST /send] up to its [await]: an answer, or the call it waits for. *)
Definition post_send (agent_id to content : option string) (σ : Server)
    : SendReply + SendCall :=
  if negb (Js.truthy agent_id) || negb (Js.truthy to) || negb (Js.truthy content)
  then inl SendMissing
  else
    match clients σ !! default "" agent_id with
    | None => inl SendNoClient
    | Some s =>
        if negb (bool_decide (clientStates σ !! default "" agent_id = Some st_open))
        then inl SendNotOpen
        else inr {| via := s; recipient := formatNumber (default "" to);
                    content_text := default "" content |}
    end.

(** What [sendMessage] answers: it throws, or it returns [undefined]
    ([None]) or a message with the id [result.key.id]. *)
Inductive SendResult :=
| SendThrows (message : string)
| SendReturns (result : option (option string)).

(** [POST /send] after its [await]. *)
Definition post_send_settled (r : SendResult) : SendReply :=
  match r with
  | SendThrows m => SendFailed (Failure m)
  | SendReturns None => SendFailed (UndefinedRead "key")
  | SendReturns (Some message_id) => SendDone message_id
  end.

(** [GET /chats/:agent_id]; [store] is [clientData.store]. *)
Record ChatEntry := {
  entry_id : string;
  entry_name : string;
  isGroup : bool;
  lastMessageTime : option Z;
  entry_unreadCount : Z
}.

Definition chatEntry (chat : Store.Chat) : ChatEntry :=
  {| entry_id := Store.chat_id chat;
     entry_name := Js.or_else (Store.chat_name chat)
                     (Js.or_else (Store.subject chat) (jidToPhone (Some (Store.chat_id chat))));
     isGroup := Js.endsWith "@g.us" (Store.chat_id chat);
     lastMessageTime := Store.conversationTimestamp chat;
     entry_unreadCount := default 0%Z (or_num (Store.unreadCount chat) (Some 0%Z)) |}.

Inductive ChatsReply :=
| ChatsNotConnected                  (* 404 *)
| ChatsList (chats : list ChatEntry) (* 200 *)
| ChatsFailed (e : Thrown).          (* 500 *)

(** [!clientData || clientStates.get(agent_id) !== 'open'] *)
Definition notConnected (agent_id : string) (σ : Server) : bool :=
  negb (Js.present (clients σ !! agent_id))
  || negb (bool_decide (clientStates σ !! agent_id = Some st_open)).

Definition get_chats (agent_id : string) (store : Store.T) (σ : Server) : ChatsReply :=
  if notConnected agent_id σ then ChatsNotConnected
  else
    match Store.chats store with
    | None => ChatsFailed (UndefinedRead "all")
    | Some chats => ChatsList (map chatEntry chats)
    end.

(** [GET /messages/:agent_id/:chat_id] *)
Record MessageEntry := {
  entry_message_id : option string;
  entry_body : string;
  entry_timestamp : Z;
  entry_fromMe : bool;
  hasMedia : bool;
  entry_from : option string;
  entry_to : option string
}.

Definition messageEntry (msg : WAMessage) : MessageEntry :=
  {| entry_message_id := id (key msg);
     entry_body := extractMessageText (Relay.message msg);
     entry_timestamp := messageTimestamp msg;
     entry_fromMe := Js.truthy_bool (fromMe (key msg));
     hasMedia := Js.present (Relay.message msg ≫= imageMessage)
                 || Js.present (Relay.message msg ≫= videoMessage)
                 || Js.present (Relay.message msg ≫= audioMessage)
                 || Js.present (Relay.message msg ≫= documentMessage);
     entry_from := remoteJid (key msg);
     entry_to := if Js.truthy_bool (fromMe (key msg)) then remoteJid (key msg) else None |}.

Inductive MessagesReply :=
| MessagesNotConnected                      (* 404 *)
| MessagesList (messages : list MessageEntry) (* 200 *)
| MessagesFailed (e : Thrown).              (* 500 *)

Section Messages.

(** The builtin [parseInt]; [None] is [NaN]. *)
Variable parseInt : string → option Z.

(** [limit] is [req.query.limit], [None] when the query has none. *)
Definition get_messages (agent_id chat_id : string) (limit : option string)
    (store : Store.T) (σ : Server) : MessagesReply :=
  if notConnected agent_id σ then MessagesNotConnected
  else
    match Store.messages store with
    | None => MessagesFailed (UndefinedRead chat_id)
    | Some ms =>
        let n := match limit with
                 | None => Some 100%Z
                 | Some l => parseInt l
                 end in
        let messages :=
          default [] (Text.slice (Z.opp <$> n) <$> (ms !! chat_id ≫= Store.array)) in
        MessagesList (map messageEntry messages)
    end.

End Messages.

End Routes.

(** ** Accounts, timers and the cleanup interval *)

Module Accounts.

Import Lifecycle.


(** The account a suspended function works for. *)
Definition task_account (t : Task) (σ : Server) : option string :=
  match t with
  | RenderQr s _ | NotifyOpen s | ReconnectDelay s _ _ => sock_agent <$> socks σ !! s
  | LoadAuth _ a _ | FetchVersion _ a _ _ | AwaitSocket _ a _
  | LogoutPending _ a _ | CleanupPause _ a => Some a
  end.

(** The account an event is about. *)
Definition subject (e : Event) (σ : Server) : option string :=
  match e with
  | PostInit agent_id => agent_id
  | PostDisconnect a | QrTimeout a | Sweep a => Some a
  | ConnectionUpdate s _ | CredsUpdate s _ | UserKnown s _ => sock_agent <$> socks σ !! s
  | Resume i _ => tasks σ !! i ≫= λ t, task_account t σ
  end.

(** The timer [h] has been set and not cleared since. *)
Definition pending (h : nat) (t : list Effect) : bool :=
  fold_left (λ b e,
               match e with
               | SetTimeout h' _ _ => if (h' =? h)%nat then true else b
               | ClearTimeout h' => if (h' =? h)%nat then false else b
               | _ => b
               end) t false.

(** An effect that sets and clears no timer. *)
Definition quiet (e : Effect) : Prop :=
  match e with SetTimeout _ _ _ | ClearTimeout _ => False | _ => True end.

(** The timers that are running are the ones [qrTimeouts] records, one
    for an account at most. *)
Definition timers_recorded (σ : Server) : Prop :=
  (∀ h, pending h (trace σ) = true ↔ ∃ a, qrTimeouts σ !! a = Some h) ∧
  (∀ h, pending h (trace σ) = true → (h < timerCount σ)%nat) ∧
  (∀ a b h, qrTimeouts σ !! a = Some h → qrTimeouts σ !! b = Some h → a = b).

Section Transport.

Variable loggedOut : Z.



End Transport.

End Accounts.

(** ** More concrete values used below *)

Module Samples.

Import Relay.

(** A contact announced under its phone JID, and one without any name. *)
Definition ana : Contact :=
  {| contact_id := Some "5491100@s.whatsapp.net"; name := Some "Ana";
     notify := Some "ana!"; verifiedName := None |}.

Definition nameless : Contact :=
  {| contact_id := Some "5491100@s.whatsapp.net"; name := Some "";
     notify := None; verifiedName := None |}.



(** The LID of a contact announced by the socket. *)
Definition lidContact : Contact :=
  {| contact_id := Some "77@lid"; name := Some "Ana"; notify := None; verifiedName := None |}.

Definition textContent : Message :=
  MkMessage (Some "hola") None None None None None None.

Definition voiceContent : Message :=
  MkMessage (Some "ignored") None None None
    (Some {| ptt := Some true; audio_mimetype := Some "audio/ogg; codecs=opus";
             seconds := Some 7%Z |})
    None None.

Definition stickerContent : Message :=
  MkMessage None None None None None None (Some {| sticker_mimetype := Some "image/webp" |}).

(** A picture the account sent itself. *)
Definition imageMessageOut : WAMessage :=
  {| key := {| remoteJid := Some "5491100@s.whatsapp.net"; fromMe := Some true;
               id := Some "MSG3"; key_participant := None |};
     message := Some Examples.imageContent; pushName := None;
     messageTimestamp := 1700000002 |}.

(** A text received in a group. *)
Definition groupMessage : WAMessage :=
  {| key := {| remoteJid := Some "120363@g.us"; fromMe := Some false;
               id := Some "MSG4"; key_participant := Some "5491122@s.whatsapp.net" |};
     message := Some textContent; pushName := Some "Beto";
     messageTimestamp := 1700000003 |}.

(** A status broadcast, and a protocol message without content. *)
Definition statusMessage : WAMessage :=
  {| key := {| remoteJid := Some "status@broadcast"; fromMe := Some false;
               id := Some "MSG5"; key_participant := None |};
     message := Some textContent; pushName := None; messageTimestamp := 1700000004 |}.

Definition protocolMessage : WAMessage :=
  {| key := {| remoteJid := Some "5491100@s.whatsapp.net"; fromMe := Some false;
               id := Some "MSG6"; key_participant := None |};
     message := None; pushName := None; messageTimestamp := 1700000005 |}.

Definition batch : list (WAMessage * Outcome) :=
  [(Examples.imageMessageIn, Examples.uploadRefused); (statusMessage, Examples.uploaded);
   (groupMessage, Examples.uploaded); (protocolMessage, Examples.uploaded)].

Import Lifecycle.


(** The first account shows its pairing code and [/init] has answered. *)
Definition answered : Server := run Examples.loggedOut Examples.pairing initial.

(** The code shown by socket [s] is scanned: the credentials are saved,
    the transport asks for a restart, the reconnect makes the socket
    [s'], and that socket opens. *)
Definition scan_of (s s' : nat) : list Event :=
  [CredsUpdate s "creds-1";
   ConnectionUpdate s (Examples.closeUpdate 515 "Stream Errored (restart required)");
   Resume 0 (Some ""); Resume 0 (Some ""); Resume 0 (Some "");
   UserKnown s' "5491100:7@s.whatsapp.net"; ConnectionUpdate s' Examples.openUpdate;
   Resume 1 (Some ""); Resume 0 (Some "")].

(** Six accounts ask for a pairing code before any of them is open, and
    then scan their codes one after the other. *)
Definition six_sessions : list Event :=
  Examples.pairing_of "acct1" 0 ++ Examples.pairing_of "acct2" 1 ++
  Examples.pairing_of "acct3" 2 ++ Examples.pairing_of "acct4" 3 ++
  Examples.pairing_of "acct5" 4 ++ Examples.pairing_of "acct6" 5 ++
  scan_of 0 6 ++ scan_of 1 7 ++ scan_of 2 8 ++ scan_of 3 9 ++ scan_of 4 10 ++ scan_of 5 11.

(** The connection of the open account is lost for a reason that allows
    a reconnect. *)
Definition lost : Update := Examples.closeUpdate 408 "Connection was lost".

End Samples.

(** * Properties of the message relay *)

Module RelayFacts.

Import Relay.

Lemma substring0_length (n : nat) (s : string) :
  (String.length (Js.substring0 n s) ≤ n)%nat.
Proof.
  unfold Js.substring0. revert s.
  induction n as [|n IH]; intros [|c s]; simpl; try lia.
  specialize (IH s). lia.
Qed.


Lemma substring0_short (n : nat) (s : string) :
  (String.length s ≤ n)%nat → Js.substring0 n s = s.
Proof.
  unfold Js.substring0. revert s.
  induction n as [|n IH]; intros [|c s]; simpl; intros H; try reflexivity; try lia.
  rewrite IH by lia. reflexivity.
Qed.


Section Handler.

Variable WEBHOOK_URL : string.
Variable agentId : string.
Variable contacts : gmap string Contact.
Variable sock_user_id : option string.

Local Abbreviation relay := (relayMessage WEBHOOK_URL agentId contacts sock_user_id).
Local Abbreviation payload_of := (payloadOf agentId contacts sock_user_id).

(** The download block never calls the webhook. *)
Lemma mediaBranch_no_webhook msg m o p :
  ¬ In (Webhook p) (mediaBranch WEBHOOK_URL msg m o).1.1.
Proof.
  unfold mediaBranch, downloadAndUpload.
  destruct (_ && _); simpl; [|tauto].
  destruct (download o) as [|[b|]]; simpl; try (intuition discriminate).
  destruct (storage o) as [|[|]]; simpl; intuition discriminate.
Qed.

Lemma afterWebhook_only_errors o e :
  In e (afterWebhook o) → ∃ w, e = ConsoleError w.
Proof.
  unfold afterWebhook. destruct (webhook o) as [|[|]]; simpl; intros H;
    intuition eauto.
Qed.

(** A message that passes the filters is relayed: the webhook is called
    once, with the record built from the message and from what the
    download block left in [mediaUrl] and [mediaFileName]. *)
Lemma relay_shape msg o rj mc :
  remoteJid (key msg) = Some rj → rj ≠ "" → rj ≠ "status@broadcast" →
  message msg = Some mc →
  relay msg o =
    ((mediaBranch WEBHOOK_URL msg mc o).1.1
       ++ [Webhook (payload_of msg rj mc (mediaBranch WEBHOOK_URL msg mc o).1.2
                                         (mediaBranch WEBHOOK_URL msg mc o).2)]
       ++ afterWebhook o)%list.
Proof.
  intros Hrj Hne Hst Hm. unfold relayMessage. rewrite Hrj, Hm.
  apply String.eqb_neq in Hne, Hst. rewrite Hne, Hst.
  destruct (mediaBranch WEBHOOK_URL msg mc o) as [[fx u] f]. reflexivity.
Qed.

Lemma relay_webhook_inv msg o p :
  In (Webhook p) (relay msg o) →
  ∃ rj mc, remoteJid (key msg) = Some rj ∧ message msg = Some mc ∧
    p = payload_of msg rj mc (mediaBranch WEBHOOK_URL msg mc o).1.2
                             (mediaBranch WEBHOOK_URL msg mc o).2.
Proof.
  unfold relayMessage.
  destruct (remoteJid (key msg)) as [rj|]; [|simpl; tauto].
  destruct (String.eqb rj ""); [simpl; tauto|].
  destruct (String.eqb rj "status@broadcast"); [simpl; tauto|].
  destruct (message msg) as [mc|]; [|simpl; tauto].
  pose proof (mediaBranch_no_webhook msg mc o p) as Hno.
  destruct (mediaBranch WEBHOOK_URL msg mc o) as [[fx u] f] eqn:E. simpl in *.
  rewrite in_app_iff. simpl. intros [H|[H|H]].
  - tauto.
  - inversion H; subst. exists rj, mc. rewrite E. auto.
  - apply afterWebhook_only_errors in H as [w Hw]. discriminate.
Qed.

(** A message is a reply only when its text carries a quoted message. *)
Lemma detect_reply mc :
  (detectMessageType (Some mc)).1 = ty_reply →
  ∃ ci q, extendedTextMessage mc ≫= contextInfo = Some ci ∧ quotedMessage ci = Some q.
Proof.
  unfold detectMessageType.
  destruct (imageMessage mc); simpl; [discriminate|].
  destruct (videoMessage mc); simpl; [discriminate|].
  destruct (audioMessage mc) as [a|]; simpl; [destruct (Js.truthy_bool (ptt a)); discriminate|].
  destruct (documentMessage mc); simpl; [discriminate|].
  destruct (stickerMessage mc); simpl; [discriminate|].
  destruct (extendedTextMessage mc ≫= contextInfo) as [ci|]; simpl; [|discriminate].
  destruct (quotedMessage ci) as [q|] eqn:Hq; simpl; [|discriminate].
  intros _. eauto.
Qed.


(** A message of the classes media, voice and sticker has a subtype. *)
Lemma detect_media_subtype mc :
  isMediaClass (detectMessageType (Some mc)).1 = true →
  is_Some (detectMessageType (Some mc)).2.
Proof.
  unfold detectMessageType.
  destruct (imageMessage mc); simpl; [eauto|].
  destruct (videoMessage mc); simpl; [eauto|].
  destruct (audioMessage mc) as [a|]; simpl; [destruct (Js.truthy_bool (ptt a)); eauto|].
  destruct (documentMessage mc); simpl; [eauto|].
  destruct (stickerMessage mc); simpl; [eauto|].
  destruct (Js.present _); simpl; discriminate.
Qed.

Lemma append_nonempty (a b : string) : b ≠ "" → a ++ b ≠ "".
Proof. destruct a; simpl; [tauto | discriminate]. Qed.

(** Only the download block downloads and uploads. *)
Lemma relay_transfer_inv msg o e :
  In e (relay msg o) →
  (∃ m, e = Download m) ∨ (∃ u t, e = Upload u t) →
  ∃ mc, message msg = Some mc ∧ In e (mediaBranch WEBHOOK_URL msg mc o).1.1.
Proof.
  unfold relayMessage.
  destruct (remoteJid (key msg)) as [rj|]; [|simpl; tauto].
  destruct (String.eqb rj ""); [simpl; tauto|].
  destruct (String.eqb rj "status@broadcast"); [simpl; tauto|].
  destruct (message msg) as [mc|]; [|simpl; tauto].
  destruct (mediaBranch WEBHOOK_URL msg mc o) as [[fx u] f] eqn:E.
  rewrite in_app_iff. simpl. intros [H|[H|H]] Hk.
  - exists mc. rewrite E. auto.
  - subst e. destruct Hk as [[m Hm]|(a & b & Hm)]; discriminate.
  - apply afterWebhook_only_errors in H as [w ->].
    destruct Hk as [[m Hm]|(a & b & Hm)]; discriminate.
Qed.

(** C8. The payload of a message is downloaded and uploaded only when
    the message is received (not self-sent) and of the classes media,
    voice or sticker.  For such a message that passes the filters of the
    handler: when the download throws, or the upload throws or is
    refused, the failure is written with [console.error], the webhook is
    still called, and the record carries the media subtype and no asset
    reference; when the upload succeeds, the record carries the media
    subtype and a non-empty asset reference.  A download that returns
    no buffer is no failure: nothing is uploaded or written, and the
    record is relayed without asset reference. *)
Theorem media_side_channel msg o :
  (∀ e, In e (relay msg o) →
        (∃ m, e = Download m) ∨ (∃ u t, e = Upload u t) →
        ∃ mc, message msg = Some mc ∧
              isMediaClass (detectMessageType (Some mc)).1 = true ∧
              Js.truthy_bool (fromMe (key msg)) = false) ∧
  (∀ rj mc,
     remoteJid (key msg) = Some rj → rj ≠ "" → rj ≠ "status@broadcast" →
     message msg = Some mc →
     isMediaClass (detectMessageType (Some mc)).1 = true →
     Js.truthy_bool (fromMe (key msg)) = false →
     (download o = DlThrows ∨
      (∃ b, download o = DlBuffer (Some b)) ∧ storage o ≠ FetchResponse true →
      (In (ConsoleError "❌ Error downloading/uploading media:") (relay msg o) ∨
       In (ConsoleError "❌ Failed to upload media:") (relay msg o)) ∧
      ∃ p, In (Webhook p) (relay msg o) ∧
           is_Some (media_type (message_metadata p)) ∧
           media_type (message_metadata p) = (detectMessageType (Some mc)).2 ∧
           media_url (message_metadata p) = None) ∧
     ((∃ b, download o = DlBuffer (Some b)) ∧ storage o = FetchResponse true →
      ∃ p url, In (Webhook p) (relay msg o) ∧
           is_Some (media_type (message_metadata p)) ∧
           media_type (message_metadata p) = (detectMessageType (Some mc)).2 ∧
           media_url (message_metadata p) = Some url ∧ url ≠ "") ∧
     (download o = DlBuffer None →
      ∃ p, In (Webhook p) (relay msg o) ∧
           media_type (message_metadata p) = (detectMessageType (Some mc)).2 ∧
           media_url (message_metadata p) = None)).
Proof.
  split.
  - intros e Hin Hk.
    destruct (relay_transfer_inv msg o e Hin Hk) as (mc & Hmc & Hfx).
    exists mc. split; [exact Hmc|].
    unfold mediaBranch in Hfx.
    destruct (isMediaClass _) eqn:Hc; [|simpl in Hfx; tauto].
    destruct (Js.truthy_bool _) eqn:Hf; [simpl in Hfx; tauto|]. auto.
  - intros rj mc Hrj Hne Hst Hmc Hc Hf.
    pose proof (detect_media_subtype mc Hc) as Hsub.
    rewrite (relay_shape msg o rj mc Hrj Hne Hst Hmc).
    unfold mediaBranch. rewrite Hc, Hf. cbn [negb andb].
    unfold downloadAndUpload. split; [|split].
    + intros [Hd|[[b Hd] Hs]]; rewrite Hd.
      * split; [left; simpl; auto|].
        eexists. split; [simpl; right; right; left; reflexivity|].
        cbn [message_metadata payloadOf]. unfold metadataOf.
        destruct (detectMessageType (Some mc)) as [t bt]. cbn [fst snd] in *.
        rewrite Hc. cbn [media_type media_url]. auto.
      * destruct (storage o) as [|[|]]; [|congruence|].
        -- split; [left; simpl; auto|].
           eexists. split; [simpl; do 3 right; left; reflexivity|].
           cbn [message_metadata payloadOf]. unfold metadataOf.
           destruct (detectMessageType (Some mc)) as [t bt]. cbn [fst snd] in *.
           rewrite Hc. cbn [media_type media_url]. auto.
        -- split; [right; simpl; auto|].
           eexists. split; [simpl; do 3 right; left; reflexivity|].
           cbn [message_metadata payloadOf]. unfold metadataOf.
           destruct (detectMessageType (Some mc)) as [t bt]. cbn [fst snd] in *.
           rewrite Hc. cbn [media_type media_url]. auto.
    + intros [[b Hd] Hs]. rewrite Hd, Hs.
      do 2 eexists. split; [simpl; do 2 right; left; reflexivity|].
      cbn [message_metadata payloadOf]. unfold metadataOf.
      destruct (detectMessageType (Some mc)) as [t bt]. cbn [fst snd] in *.
      rewrite Hc. cbn [media_type media_url fst snd andb].
      assert (Hurl : ∀ f, supabaseUrl WEBHOOK_URL
                ++ "/storage/v1/object/public/whatsapp-media/" ++ f ≠ "").
      { intros f. apply append_nonempty. discriminate. }
      unfold Js.truthy. specialize (Hurl (mediaFileNameOf msg mc o)).
      apply String.eqb_neq in Hurl as Hb. rewrite Hb. cbn [negb].
      auto.
    + intros Hd. rewrite Hd.
      eexists. split; [simpl; right; left; reflexivity|].
      cbn [message_metadata payloadOf]. unfold metadataOf.
      destruct (detectMessageType (Some mc)) as [t bt]. cbn [fst snd] in *.
      rewrite Hc. cbn [media_type media_url]. auto.
Qed.

End Handler.


(** A received picture: it is downloaded because it is a received
    media message; with the upload accepted the record names the stored
    asset, with the upload refused or no buffer returned it is relayed
    without one. *)
Lemma media_side_channel_witness :
  let relay := relayMessage Examples.webhookUrl "agent-1" ∅ None Examples.imageMessageIn in
  (In (Download Examples.imageMessageIn) (relay Examples.uploaded) ∧
   ∃ mc, message Examples.imageMessageIn = Some mc ∧
         isMediaClass (detectMessageType (Some mc)).1 = true ∧
         Js.truthy_bool (fromMe (key Examples.imageMessageIn)) = false) ∧
  (∃ p url, In (Webhook p) (relay Examples.uploaded) ∧
      is_Some (media_type (message_metadata p)) ∧
      media_type (message_metadata p) = Some bt_image ∧
      media_url (message_metadata p) = Some url ∧ url ≠ "") ∧
  ((In (ConsoleError "❌ Error downloading/uploading media:") (relay Examples.uploadRefused) ∨
    In (ConsoleError "❌ Failed to upload media:") (relay Examples.uploadRefused)) ∧
   ∃ p, In (Webhook p) (relay Examples.uploadRefused) ∧
      is_Some (media_type (message_metadata p)) ∧
      media_type (message_metadata p) = Some bt_image ∧
      media_url (message_metadata p) = None) ∧
  (∃ p, In (Webhook p) (relay Examples.noBuffer) ∧
      media_type (message_metadata p) = Some bt_image ∧
      media_url (message_metadata p) = None).
Proof.
  intros relay.
  assert (Hin : In (Download Examples.imageMessageIn) (relay Examples.uploaded))
    by (simpl; left; reflexivity).
  assert (Hrj : "5491100@s.whatsapp.net" ≠ "") by discriminate.
  assert (Hst : "5491100@s.whatsapp.net" ≠ "status@broadcast") by discriminate.
  split; [|split; [|split]].
  - split; [exact Hin|].
    exact (proj1 (media_side_channel Examples.webhookUrl "agent-1" ∅ None
                    Examples.imageMessageIn Examples.uploaded)
             _ Hin (or_introl (ex_intro _ _ eq_refl))).
  - exact (proj1 (proj2 (proj2 (media_side_channel Examples.webhookUrl "agent-1" ∅ None
                    Examples.imageMessageIn Examples.uploaded)
                  "5491100@s.whatsapp.net" Examples.imageContent
                  eq_refl Hrj Hst eq_refl eq_refl eq_refl))
             (conj (ex_intro _ "bytes" eq_refl) eq_refl)).
  - refine (proj1 (proj2 (media_side_channel Examples.webhookUrl "agent-1" ∅ None
                    Examples.imageMessageIn Examples.uploadRefused)
                  "5491100@s.whatsapp.net" Examples.imageContent
                  eq_refl Hrj Hst eq_refl eq_refl eq_refl) _).
    right. split; [exists "bytes"; reflexivity | discriminate].
  - exact (proj2 (proj2 (proj2 (media_side_channel Examples.webhookUrl "agent-1" ∅ None
                    Examples.imageMessageIn Examples.noBuffer)
                  "5491100@s.whatsapp.net" Examples.imageContent
                  eq_refl Hrj Hst eq_refl eq_refl eq_refl))
             eq_refl).
Defined.

End RelayFacts.

Module LifecycleFacts.
Import Lifecycle.
Local Open Scope Z_scope.

(** [settle] touches the sockets only. *)
Lemma settle_frame s v σ :
  clients (settle s v σ) = clients σ ∧ qrCodes (settle s v σ) = qrCodes σ ∧
  qrTimeouts (settle s v σ) = qrTimeouts σ ∧ clientStates (settle s v σ) = clientStates σ ∧
  reconnectAttempts (settle s v σ) = reconnectAttempts σ ∧
  authStore (settle s v σ) = authStore σ ∧ tasks (settle s v σ) = tasks σ ∧
  trace (settle s v σ) = trace σ ∧ timerCount (settle s v σ) = timerCount σ.
Proof.
  unfold settle. destruct (socks σ !! s) as [k|]; [|tauto].
  destruct (qrResolved k); simpl; tauto.
Qed.

(** [clearQrTimeout] touches the timers and the trace only. *)
Lemma clearQrTimeout_frame a σ :
  clients (clearQrTimeout a σ) = clients σ ∧ qrCodes (clearQrTimeout a σ) = qrCodes σ ∧
  clientStates (clearQrTimeout a σ) = clientStates σ ∧
  reconnectAttempts (clearQrTimeout a σ) = reconnectAttempts σ ∧
  authStore (clearQrTimeout a σ) = authStore σ ∧ tasks (clearQrTimeout a σ) = tasks σ ∧
  socks (clearQrTimeout a σ) = socks σ ∧ timerCount (clearQrTimeout a σ) = timerCount σ ∧
  qrTimeouts (clearQrTimeout a σ) = delete a (qrTimeouts σ).
Proof.
  unfold clearQrTimeout. destruct (qrTimeouts σ !! a) as [h|] eqn:E; simpl.
  - tauto.
  - rewrite delete_id by exact E. tauto.
Qed.

(** The same facts, one field at a time, as rewriting rules. *)
Lemma settle_clients s v σ : clients (settle s v σ) = clients σ.
Proof. pose proof (settle_frame s v σ); tauto. Qed.
Lemma settle_qrCodes s v σ : qrCodes (settle s v σ) = qrCodes σ.
Proof. pose proof (settle_frame s v σ); tauto. Qed.
Lemma settle_qrTimeouts s v σ : qrTimeouts (settle s v σ) = qrTimeouts σ.
Proof. pose proof (settle_frame s v σ); tauto. Qed.
Lemma settle_clientStates s v σ : clientStates (settle s v σ) = clientStates σ.
Proof. pose proof (settle_frame s v σ); tauto. Qed.
Lemma settle_reconnectAttempts s v σ :
  reconnectAttempts (settle s v σ) = reconnectAttempts σ.
Proof. pose proof (settle_frame s v σ); tauto. Qed.
Lemma settle_authStore s v σ : authStore (settle s v σ) = authStore σ.
Proof. pose proof (settle_frame s v σ); tauto. Qed.
Lemma settle_tasks s v σ : tasks (settle s v σ) = tasks σ.
Proof. pose proof (settle_frame s v σ); tauto. Qed.
Lemma settle_trace s v σ : trace (settle s v σ) = trace σ.
Proof. pose proof (settle_frame s v σ); tauto. Qed.
Lemma settle_timerCount s v σ : timerCount (settle s v σ) = timerCount σ.
Proof. pose proof (settle_frame s v σ); tauto. Qed.
Lemma clearQrTimeout_clients a σ : clients (clearQrTimeout a σ) = clients σ.
Proof. pose proof (clearQrTimeout_frame a σ); tauto. Qed.
Lemma clearQrTimeout_qrCodes a σ : qrCodes (clearQrTimeout a σ) = qrCodes σ.
Proof. pose proof (clearQrTimeout_frame a σ); tauto. Qed.
Lemma clearQrTimeout_clientStates a σ : clientStates (clearQrTimeout a σ) = clientStates σ.
Proof. pose proof (clearQrTimeout_frame a σ); tauto. Qed.
Lemma clearQrTimeout_reconnectAttempts a σ :
  reconnectAttempts (clearQrTimeout a σ) = reconnectAttempts σ.
Proof. pose proof (clearQrTimeout_frame a σ); tauto. Qed.
Lemma clearQrTimeout_authStore a σ : authStore (clearQrTimeout a σ) = authStore σ.
Proof. pose proof (clearQrTimeout_frame a σ); tauto. Qed.
Lemma clearQrTimeout_tasks a σ : tasks (clearQrTimeout a σ) = tasks σ.
Proof. pose proof (clearQrTimeout_frame a σ); tauto. Qed.
Lemma clearQrTimeout_socks a σ : socks (clearQrTimeout a σ) = socks σ.
Proof. pose proof (clearQrTimeout_frame a σ); tauto. Qed.
Lemma clearQrTimeout_timerCount a σ : timerCount (clearQrTimeout a σ) = timerCount σ.
Proof. pose proof (clearQrTimeout_frame a σ); tauto. Qed.
Lemma clearQrTimeout_qrTimeouts a σ :
  qrTimeouts (clearQrTimeout a σ) = delete a (qrTimeouts σ).
Proof. pose proof (clearQrTimeout_frame a σ); tauto. Qed.

Create Rewrite HintDb frame.

#[local] Hint Rewrite settle_clients settle_qrCodes settle_qrTimeouts
  settle_clientStates settle_reconnectAttempts settle_authStore settle_tasks
  settle_trace settle_timerCount
  clearQrTimeout_clients clearQrTimeout_qrCodes clearQrTimeout_clientStates
  clearQrTimeout_reconnectAttempts clearQrTimeout_authStore clearQrTimeout_tasks
  clearQrTimeout_socks clearQrTimeout_timerCount clearQrTimeout_qrTimeouts : frame.

(** Projections through the pieces of a handler. *)
Ltac frame := repeat (progress (cbn [clients qrCodes qrTimeouts clientStates reconnectAttempts
                 authStore socks timerCount tasks trace
                 with_clients with_qrCodes with_qrTimeouts with_clientStates
                 with_reconnectAttempts with_authStore with_socks with_timerCount
                 with_tasks with_trace emit park respond removeAuth];
               autorewrite with frame)).

(** The pieces that leave the reconnect counters, or the sockets, alone. *)
Ltac same :=
  intros;
  unfold destroyClient_end, post_init, post_init_settled, destroyClient_begin,
    destroyClient_cleanup, initializeClient_socket, initializeClient_begin,
    qr_rendered, reconnect_settled;
  repeat case_match; frame; reflexivity.

Lemma destroyClient_cleanup_reconnectAttempts c a σ :
  reconnectAttempts (destroyClient_cleanup c a σ) = reconnectAttempts σ.
Proof. same. Qed.
Lemma destroyClient_begin_reconnectAttempts c a σ :
  reconnectAttempts (destroyClient_begin c a σ) = reconnectAttempts σ.
Proof. same. Qed.
Lemma destroyClient_end_reconnectAttempts c a σ :
  reconnectAttempts (destroyClient_end c a σ) = reconnectAttempts σ.
Proof. same. Qed.
Lemma initializeClient_begin_reconnectAttempts a r σ :
  reconnectAttempts (initializeClient_begin a r σ) = reconnectAttempts σ.
Proof. same. Qed.
Lemma initializeClient_socket_reconnectAttempts w a r c σ :
  reconnectAttempts (initializeClient_socket w a r c σ) = reconnectAttempts σ.
Proof. same. Qed.
Lemma post_init_reconnectAttempts a σ :
  reconnectAttempts (post_init a σ) = reconnectAttempts σ.
Proof. same. Qed.
Lemma post_init_settled_reconnectAttempts a s v σ :
  reconnectAttempts (post_init_settled a s v σ) = reconnectAttempts σ.
Proof. same. Qed.
Lemma qr_rendered_reconnectAttempts s a q σ :
  reconnectAttempts (qr_rendered s a q σ) = reconnectAttempts σ.
Proof. same. Qed.
Lemma reconnect_settled_reconnectAttempts s r a x σ :
  reconnectAttempts (reconnect_settled s r a x σ) = reconnectAttempts σ.
Proof. same. Qed.
Lemma destroyClient_cleanup_socks c a σ : socks (destroyClient_cleanup c a σ) = socks σ.
Proof. same. Qed.
Lemma destroyClient_begin_socks c a σ : socks (destroyClient_begin c a σ) = socks σ.
Proof. same. Qed.
Lemma destroyClient_end_socks c a σ : socks (destroyClient_end c a σ) = socks σ.
Proof. same. Qed.
Lemma initializeClient_begin_socks a r σ : socks (initializeClient_begin a r σ) = socks σ.
Proof. same. Qed.
Lemma post_init_socks a σ : socks (post_init a σ) = socks σ.
Proof. same. Qed.
Lemma post_init_settled_socks a s v σ : socks (post_init_settled a s v σ) = socks σ.
Proof. same. Qed.

#[local] Hint Rewrite destroyClient_cleanup_reconnectAttempts
  destroyClient_begin_reconnectAttempts
  destroyClient_end_reconnectAttempts
  initializeClient_begin_reconnectAttempts
  initializeClient_socket_reconnectAttempts
  post_init_reconnectAttempts
  post_init_settled_reconnectAttempts
  qr_rendered_reconnectAttempts
  reconnect_settled_reconnectAttempts
  destroyClient_cleanup_socks
  destroyClient_begin_socks
  destroyClient_end_socks
  initializeClient_begin_socks
  post_init_socks
  post_init_settled_socks : frame.

Section Facts.
Variable loggedOut : Z.
Local Abbreviation exec := (Lifecycle.exec loggedOut).
Local Abbreviation run := (Lifecycle.run loggedOut).
Local Abbreviation continue := (Lifecycle.continue loggedOut).

(** A close event without pairing code reaches the close branch. *)
Lemma exec_close σ s k u :
  socks σ !! s = Some k → Js.truthy (qr u) = false → connection u = Some st_close →
  exec (ConnectionUpdate s u) σ = on_close loggedOut s (sock_agent k) u σ.
Proof.
  intros Hk Hq Hc. simpl. unfold connection_update. rewrite Hk, Hq.
  unfold after_qr. rewrite Hc. reflexivity.
Qed.

(** The three ways out of the close branch. *)
Lemma on_close_retry s a u σ :
  shouldReconnect loggedOut u = true → nextAttempt a σ ≤ MAX_RECONNECT_ATTEMPTS →
  on_close loggedOut s a u σ =
    park (ReconnectDelay s (reconnectDelay (nextAttempt a σ)) (closeReason u))
      (with_reconnectAttempts <[a := nextAttempt a σ]>
        (with_clientStates <[a := st_close]> σ)).
Proof.
  intros Hr Hn. unfold on_close. rewrite Hr.
  change (nextAttempt a (with_clientStates <[a:=st_close]> σ)) with (nextAttempt a σ).
  apply Z.leb_le in Hn. rewrite Hn. reflexivity.
Qed.

Lemma on_close_exhausted s a u σ :
  shouldReconnect loggedOut u = true → MAX_RECONNECT_ATTEMPTS < nextAttempt a σ →
  on_close loggedOut s a u σ =
    settle s (Rejected (closeReason u))
      (with_clientStates (delete a)
        (with_qrCodes (delete a)
          (with_clients (delete a)
            (with_reconnectAttempts (delete a)
              (with_reconnectAttempts <[a := nextAttempt a σ]>
                (with_clientStates <[a := st_close]> σ)))))).
Proof.
  intros Hr Hn. unfold on_close. rewrite Hr.
  change (nextAttempt a (with_clientStates <[a:=st_close]> σ)) with (nextAttempt a σ).
  apply Z.leb_gt in Hn. rewrite Hn. reflexivity.
Qed.

Lemma on_close_logged_out s a u σ :
  shouldReconnect loggedOut u = false →
  on_close loggedOut s a u σ =
    settle s (Rejected (closeReason u))
      (removeAuth a
        (with_reconnectAttempts (delete a)
          (with_clientStates (delete a)
            (with_qrCodes (delete a)
              (with_clients (delete a)
                (clearQrTimeout a (with_clientStates <[a := st_close]> σ))))))).
Proof. intros Hr. unfold on_close. rewrite Hr. reflexivity. Qed.




(** C3. A close event is a terminal logout exactly when its status code
    is the logged-out code of the transport.  On a terminal logout the
    client, QR, state and counter entries of the account (and its QR
    timer) are removed and the stored credentials are deleted, and no
    reconnect is scheduled.  Every other close takes the reconnect path:
    the credentials stay, the counter is incremented, and the handler
    either waits for the reconnect delay or, with the attempts exhausted,
    drops the session. *)
Theorem close_classification :
  (∀ u, shouldReconnect loggedOut u = false ↔ statusCodeOf u = Some loggedOut) ∧
  (∀ σ s k u,
     socks σ !! s = Some k → Js.truthy (qr u) = false → connection u = Some st_close →
     let a := sock_agent k in
     let σ' := exec (ConnectionUpdate s u) σ in
     (statusCodeOf u = Some loggedOut →
        clients σ' !! a = None ∧ qrCodes σ' !! a = None ∧ clientStates σ' !! a = None ∧
        reconnectAttempts σ' !! a = None ∧ qrTimeouts σ' !! a = None ∧
        authStore σ' !! a = None ∧ tasks σ' = tasks σ) ∧
     (statusCodeOf u ≠ Some loggedOut →
        authStore σ' = authStore σ ∧
        (nextAttempt a σ ≤ MAX_RECONNECT_ATTEMPTS →
           reconnectAttempts σ' !! a = Some (nextAttempt a σ) ∧
           clientStates σ' !! a = Some st_close ∧
           tasks σ' = (tasks σ ++ [ReconnectDelay s (reconnectDelay (nextAttempt a σ))
                                                 (closeReason u)])%list) ∧
        (MAX_RECONNECT_ATTEMPTS < nextAttempt a σ →
           clients σ' !! a = None ∧ qrCodes σ' !! a = None ∧ clientStates σ' !! a = None ∧
           reconnectAttempts σ' !! a = None ∧ tasks σ' = tasks σ))).
Proof.
  assert (Hcls : ∀ u, shouldReconnect loggedOut u = false ↔ statusCodeOf u = Some loggedOut).
  { intros u. unfold shouldReconnect. rewrite negb_false_iff, bool_decide_eq_true. tauto. }
  split; [exact Hcls|].
  intros σ s k u Hk Hq Hc a σ'. subst σ'.
  rewrite (exec_close σ s k u Hk Hq Hc). fold a. split.
  - intros Hlo. apply Hcls in Hlo.
    rewrite (on_close_logged_out _ _ _ _ Hlo). frame.
    rewrite !lookup_delete_eq. repeat split; reflexivity.
  - intros Hlo.
    assert (Hr : shouldReconnect loggedOut u = true).
    { destruct (shouldReconnect loggedOut u) eqn:E; [reflexivity|]. apply Hcls in E. tauto. }
    split; [|split].
    + destruct (Z_le_gt_dec (nextAttempt a σ) MAX_RECONNECT_ATTEMPTS) as [Hn|Hn].
      * rewrite (on_close_retry _ _ _ _ Hr Hn). reflexivity.
      * apply Z.gt_lt in Hn. rewrite (on_close_exhausted _ _ _ _ Hr Hn). frame. reflexivity.
    + intros Hn. rewrite (on_close_retry _ _ _ _ Hr Hn). frame.
      rewrite !lookup_insert_eq. repeat split; reflexivity.
    + intros Hn. rewrite (on_close_exhausted _ _ _ _ Hr Hn). frame.
      rewrite !lookup_delete_eq. repeat split; reflexivity.
Qed.

(** *** The reconnect counters stay bounded *)











(** *** The promise of [initializeClient] is settled at most once *)

Lemma single_same σ σ' :
  socks σ' = socks σ → promises_single_fire σ → promises_single_fire σ'.
Proof. unfold promises_single_fire. intros ->. tauto. Qed.

Lemma settle_single_fire s v σ :
  promises_single_fire σ → promises_single_fire (settle s v σ).
Proof.
  unfold promises_single_fire, settle. intros H.
  destruct (socks σ !! s) as [k|] eqn:Hk; [|exact H].
  destruct (qrResolved k) eqn:Hq; [exact H|]. simpl.
  apply Forall_insert; [exact H|].
  pose proof (Forall_lookup_1 _ _ _ _ H Hk) as [_ Hnil].
  split; simpl; [|discriminate]. rewrite (Hnil Hq). simpl. lia.
Qed.

Lemma settle_over_single_fire s v σ σ' :
  socks σ' = socks σ → promises_single_fire σ → promises_single_fire (settle s v σ').
Proof. intros E H. apply settle_single_fire. exact (single_same _ _ E H). Qed.

Lemma on_close_single_fire s a u σ :
  promises_single_fire σ → promises_single_fire (on_close loggedOut s a u σ).
Proof.
  intros H. destruct (shouldReconnect loggedOut u) eqn:Hr.
  - destruct (Z_le_gt_dec (nextAttempt a σ) MAX_RECONNECT_ATTEMPTS) as [Hn|Hn].
    + rewrite (on_close_retry _ _ _ _ Hr Hn). exact H.
    + apply Z.gt_lt in Hn. rewrite (on_close_exhausted _ _ _ _ Hr Hn).
      apply settle_over_single_fire with σ; [reflexivity | exact H].
  - rewrite (on_close_logged_out _ _ _ _ Hr).
    apply settle_over_single_fire with σ; [frame; reflexivity | exact H].
Qed.

Lemma after_qr_single_fire s a u σ :
  promises_single_fire σ → promises_single_fire (after_qr loggedOut s a u σ).
Proof.
  intros H. unfold after_qr. destruct (connection u) as [[| |]|]; try exact H.
  - unfold on_open. eapply single_same; [|exact H]. frame. reflexivity.
  - apply on_close_single_fire, H.
Qed.

Lemma qr_rendered_single_fire s a q σ :
  promises_single_fire σ → promises_single_fire (qr_rendered s a q σ).
Proof.
  intros H. unfold qr_rendered. destruct q.
  - apply settle_over_single_fire with σ; [frame; reflexivity | exact H].
  - apply settle_single_fire, H.
Qed.

Lemma initialize_settled_single_fire w a s' v σ :
  promises_single_fire σ → promises_single_fire (initialize_settled w a s' v σ).
Proof.
  intros H. unfold initialize_settled. destruct w.
  - eapply single_same; [|exact H]. frame. reflexivity.
  - unfold reconnect_settled.
    apply settle_over_single_fire with σ; [|exact H]. destruct v; reflexivity.
Qed.

Lemma continue_single_fire t answer σ σ' :
  continue t answer σ = Some σ' → promises_single_fire σ → promises_single_fire σ'.
Proof.
  intros E H. destruct t; simpl in E.
  - destruct (socks σ !! s) as [k|]; [|discriminate]. simpl in E.
    injection E as <-. apply after_qr_single_fire, qr_rendered_single_fire, H.
  - destruct (socks σ !! s) as [k|]; [|discriminate]. simpl in E.
    injection E as <-. apply settle_over_single_fire with σ; [reflexivity | exact H].
  - destruct (socks σ !! s) as [k|]; [|discriminate]. simpl in E.
    injection E as <-. eapply single_same; [|exact H]. frame. reflexivity.
  - destruct answer; injection E as <-.
    + exact H.
    + apply initialize_settled_single_fire, H.
  - injection E as <-. unfold promises_single_fire, initializeClient_socket. frame.
    apply Forall_app. split; [exact H|].
    apply Forall_singleton. split; simpl; [lia | reflexivity].
  - destruct (socks σ !! s') as [k|]; [|discriminate]. simpl in E.
    destruct (head (settled k)) as [v|]; [|discriminate]. simpl in E.
    injection E as <-. apply initialize_settled_single_fire, H.
  - injection E as <-. eapply single_same; [|exact H].
    destruct answer; frame; reflexivity.
  - injection E as <-. eapply single_same; [|exact H]. frame. reflexivity.
Qed.

Lemma exec_single_fire e σ : promises_single_fire σ → promises_single_fire (exec e σ).
Proof.
  intros H. destruct e; simpl.
  - eapply single_same; [|exact H]. frame. reflexivity.
  - eapply single_same; [|exact H]. frame. reflexivity.
  - unfold connection_update. destruct (socks σ !! s) as [k|]; [|exact H].
    destruct (Js.truthy (qr u)); [exact H|]. apply after_qr_single_fire, H.
  - destruct (socks σ !! s); exact H.
  - destruct (socks σ !! s) as [k|] eqn:Hk; [|exact H].
    unfold promises_single_fire. simpl. apply Forall_insert; [exact H|].
    exact (Forall_lookup_1 _ _ _ _ H Hk).
  - destruct (qrTimeouts σ !! agentId); [|exact H].
    eapply single_same; [|exact H]. frame. reflexivity.
  - destruct (clients σ !! agentId); [|exact H].
    destruct (_ && _); [|exact H].
    eapply single_same; [|exact H]. frame. reflexivity.
  - destruct (tasks σ !! i) as [t|]; [|exact H].
    destruct (continue t answer (with_tasks (delete i) σ)) as [σ'|] eqn:E; [|exact H].
    simpl. eapply continue_single_fire; [exact E|]. exact H.
Qed.

Lemma run_single_fire es σ : promises_single_fire σ → promises_single_fire (run es σ).
Proof.
  revert σ. induction es as [|e es IH]; intros σ H; [exact H|].
  simpl. apply IH, exec_single_fire, H.
Qed.

Lemma boot_single_fire disk : promises_single_fire (boot disk).
Proof. apply Forall_nil_2. Qed.

(** C6. After the start of the server, whatever the credential directory
    holds and whatever the order of requests, transport events, timers
    and resumptions, the promise of every call of [initializeClient] is
    resolved or rejected at most once.  A pairing-code event whose image
    is rendered stores the image in [qrCodes]; it resolves the promise
    when the promise is still pending and leaves every socket as it is
    when the promise is already settled.  The [/init] request waiting on
    a promise resolved that way answers with the stored image and the
    timeout of 180 seconds. *)
Theorem init_promise_single_fire :
  (∀ disk es s k, socks (run es (boot disk)) !! s = Some k →
                  (length (settled k) ≤ 1)%nat) ∧
  (∀ σ s k u qrImage,
     socks σ !! s = Some k → connection u = None →
     ∃ σ', continue (RenderQr s u) (Some qrImage) σ = Some σ' ∧
       qrCodes σ' !! sock_agent k = Some qrImage ∧
       (qrResolved k = false →
          socks σ' !! s =
            Some {| sock_agent := sock_agent k; sock_isReconnect := sock_isReconnect k;
                    sock_auth := sock_auth k; sock_user := sock_user k;
                    qrResolved := true; settled := (settled k ++ [Resolved])%list |}) ∧
       (qrResolved k = true → socks σ' = socks σ)) ∧
  (∀ σ a s k qrImage answer,
     socks σ !! s = Some k → head (settled k) = Some Resolved →
     qrCodes σ !! a = Some qrImage → qrImage ≠ "" →
     ∃ σ', continue (AwaitSocket for_init a s) answer σ = Some σ' ∧
       trace σ' = (trace σ ++ [Respond (Pairing qrImage a 180)])%list).
Proof.
  split; [|split].
  - intros disk es s k Hk.
    pose proof (run_single_fire es (boot disk) (boot_single_fire disk)) as H.
    exact (proj1 (Forall_lookup_1 _ _ _ _ H Hk)).
  - intros σ s k u qrImage Hk Hc. simpl. rewrite Hk. simpl.
    eexists. split; [reflexivity|].
    unfold after_qr. rewrite Hc. unfold qr_rendered. frame.
    split; [apply lookup_insert_eq|].
    unfold settle. frame. rewrite Hk. split; intros Hq; rewrite Hq.
    + simpl. frame. apply list_lookup_insert_eq. eapply lookup_lt_Some, Hk.
    + frame. reflexivity.
  - intros σ a s k qrImage answer Hk Hv Hqr Hne. simpl. rewrite Hk. simpl.
    rewrite Hv. simpl. eexists. split; [reflexivity|].
    unfold post_init_settled. frame. rewrite Hqr.
    apply String.eqb_neq in Hne. simpl. rewrite Hne. simpl. reflexivity.
Qed.

(** *** Admission of [/init] requests *)

(** [countConnectedClients] is the number of client records whose state
    is ['open']. *)
Lemma countConnectedClients_size σ :
  countConnectedClients σ =
    Z.of_nat (size (filter (λ kv, clientStates σ !! kv.1 = Some st_open) (clients σ))).
Proof.
  unfold countConnectedClients.
  apply (map_fold_weak_ind
           (λ r m, r = Z.of_nat (size (filter (λ kv : string * nat,
                                     clientStates σ !! kv.1 = Some st_open) m)))).
  - rewrite map_filter_empty, map_size_empty. reflexivity.
  - intros i x m r Hi ->. case_bool_decide as Hopen.
    + rewrite map_filter_insert_True by exact Hopen.
      rewrite map_size_insert_None by (apply map_lookup_filter_None; auto). lia.
    + rewrite map_filter_insert_not by (intros y; exact Hopen). reflexivity.
Qed.

(** An account that is not open does not count. *)
Lemma countConnectedClients_excludes σ a :
  clientStates σ !! a ≠ Some st_open →
  countConnectedClients σ = countConnectedClients (with_clients (delete a) σ).
Proof.
  intros Hno. unfold countConnectedClients. simpl.
  destruct (clients σ !! a) as [s|] eqn:Ha.
  - rewrite (map_fold_delete_L _ _ a s (clients σ)); [|intros; repeat case_bool_decide; lia|exact Ha].
    rewrite bool_decide_eq_false_2 by exact Hno. reflexivity.
  - rewrite delete_id by exact Ha. reflexivity.
Qed.

(** The task parked last is the one at index [length (tasks σ)]. *)
Lemma exec_resume_parked t answer σ :
  exec (Resume (length (tasks σ)) answer) (park t σ) =
    default (park t σ) (continue t answer σ).
Proof.
  simpl. rewrite lookup_app_r by lia. rewrite Nat.sub_diag. simpl.
  replace (with_tasks (delete (length (tasks σ))) (park t σ)) with σ; [reflexivity|].
  destruct σ. unfold park, with_tasks. simpl. f_equal.
  rewrite delete_middle. rewrite app_nil_r. reflexivity.
Qed.

(** An admitted [/init] goes on to make the socket of the session,
    with no credentials. *)
Lemma admitted_socket a x y σ :
  let σ1 := park (LoadAuth for_init a false) (removeAuth a σ) in
  let σ2 := run [Resume (length (tasks σ)) (Some x); Resume (length (tasks σ)) y] σ1 in
  authStore σ2 = delete a (authStore σ) ∧
  socks σ2 = (socks σ ++ [{| sock_agent := a; sock_isReconnect := false;
                             sock_auth := None; sock_user := None;
                             qrResolved := false; settled := [] |}])%list.
Proof.
  intros σ1 σ2. subst σ1 σ2. cbn [Lifecycle.run fold_left].
  change (tasks σ) with (tasks (removeAuth a σ)).
  rewrite exec_resume_parked. cbn [Lifecycle.continue default from_option id].
  rewrite exec_resume_parked. simpl. rewrite lookup_delete_eq. auto.
Qed.

(** C1. With the number of open accounts at the limit of 5, an [/init]
    request for an account without client record is answered 503 and
    changes nothing else: no socket, no map entry, no pending work.
    Below the limit such a request is admitted: nothing is answered yet,
    the handler waits for the credentials and the version and then makes
    the socket of the new session.  An account that owns a record is never
    answered 503: it is reported connected when open, and otherwise its
    old session is torn down to be replaced.  The count is the number of
    client records in state open, and an account that is not open does
    not contribute to it. *)
Theorem init_admission σ a :
  a ≠ "" →
  let σ' := exec (PostInit (Some a)) σ in
  (MAX_CONCURRENT_SESSIONS ≤ countConnectedClients σ → clients σ !! a = None →
     σ' = respond (LimitReached (countConnectedClients σ) MAX_CONCURRENT_SESSIONS) σ) ∧
  (countConnectedClients σ < MAX_CONCURRENT_SESSIONS → clients σ !! a = None →
     trace σ' = trace σ ∧
     tasks σ' = (tasks σ ++ [LoadAuth for_init a false])%list ∧
     ∀ x y, socks (run [Resume (length (tasks σ)) (Some x);
                        Resume (length (tasks σ)) y] σ') =
            (socks σ ++ [{| sock_agent := a; sock_isReconnect := false;
                            sock_auth := None; sock_user := None;
                            qrResolved := false; settled := [] |}])%list) ∧
  (∀ s, clients σ !! a = Some s →
     (clientStates σ !! a = Some st_open →
        ∃ phone, σ' = respond (Connected phone) σ) ∧
     (clientStates σ !! a ≠ Some st_open →
        σ' = destroyClient_begin by_init_replace a σ ∧
        tasks σ' = (tasks σ ++ [LogoutPending by_init_replace a s])%list ∧
        ∃ fx, trace σ' = (trace σ ++ fx ++ [Logout s])%list ∧
              ∀ e, In e fx → ∃ h, e = ClearTimeout h)) ∧
  countConnectedClients σ =
    Z.of_nat (size (filter (λ kv, clientStates σ !! kv.1 = Some st_open) (clients σ))) ∧
  (clientStates σ !! a ≠ Some st_open →
     countConnectedClients σ = countConnectedClients (with_clients (delete a) σ)).
Proof.
  intros Ha σ'. subst σ'.
  change (exec (PostInit (Some a)) σ) with (post_init (Some a) σ). unfold post_init.
  assert (Ht : Js.truthy (Some a) = true).
  { simpl. apply String.eqb_neq in Ha. rewrite Ha. reflexivity. }
  rewrite Ht. cbn [negb default from_option id].
  split; [|split; [|split; [|split]]].
  - intros Hn Hc. rewrite Hc. cbn [Js.present negb andb].
    apply Z.leb_le in Hn. rewrite Hn. reflexivity.
  - intros Hn Hc. rewrite Hc. cbn [Js.present negb andb].
    apply Z.leb_gt in Hn. rewrite Hn. cbn [andb].
    unfold initializeClient_begin. rewrite Hc. cbn [Js.present negb andb].
    split; [reflexivity|]. split; [reflexivity|].
    intros x y. apply admitted_socket.
  - intros s Hc. rewrite Hc. split.
    + intros Ho. rewrite bool_decide_eq_true_2 by exact Ho. eauto.
    + intros Ho. rewrite bool_decide_eq_false_2 by exact Ho.
      cbn [Js.present negb andb]. rewrite andb_false_r.
      split; [reflexivity|].
      unfold destroyClient_begin. frame. rewrite Hc. frame.
      split; [reflexivity|].
      unfold clearQrTimeout. destruct (qrTimeouts σ !! a) as [h|]; simpl.
      * exists [ClearTimeout h]. rewrite <- app_assoc. split; [reflexivity|].
        intros e [<-|[]]. eauto.
      * exists []. split; [reflexivity|]. intros e [].
  - apply countConnectedClients_size.
  - apply countConnectedClients_excludes.
Qed.

(** *** Disconnect *)

(** What [destroyClient] removes once the logout is over. *)
Lemma destroyClient_cleanup_lookup c a σ :
  let σ' := destroyClient_cleanup c a σ in
  clients σ' = delete a (clients σ) ∧ qrCodes σ' = delete a (qrCodes σ) ∧
  clientStates σ' = delete a (clientStates σ) ∧ authStore σ' = delete a (authStore σ) ∧
  qrTimeouts σ' = qrTimeouts σ ∧ reconnectAttempts σ' = reconnectAttempts σ ∧
  socks σ' = socks σ ∧ trace σ' = trace σ ∧
  tasks σ' = (tasks σ ++ [CleanupPause c a])%list.
Proof. unfold destroyClient_cleanup. frame. repeat split; reflexivity. Qed.








(** *** Stored credentials: fresh init against reconnect *)

(** C4, as the code has it.  An [/init] request that is admitted for an
    account without client record removes the stored credentials of the
    account before the socket is made, so the new session starts without
    them.  Stored credentials are used by the automatic reconnect only:
    it leaves them on disk, reads them and hands them to the new socket.  On a
    session whose promise is still pending, a connection-opened event
    that comes without pairing code marks the account open, leaves the
    credentials alone and, once the edge function is notified, resolves
    the promise with no pairing image stored. *)
Theorem fresh_init_discards_credentials :
  (∀ σ a,
     a ≠ "" → clients σ !! a = None →
     countConnectedClients σ < MAX_CONCURRENT_SESSIONS →
     let σ1 := exec (PostInit (Some a)) σ in
     authStore σ1 = delete a (authStore σ) ∧
     ∀ x y, let σ2 := run [Resume (length (tasks σ)) (Some x);
                           Resume (length (tasks σ)) y] σ1 in
          authStore σ2 !! a = None ∧
          socks σ2 = (socks σ ++ [{| sock_agent := a; sock_isReconnect := false;
                                     sock_auth := None; sock_user := None;
                                     qrResolved := false; settled := [] |}])%list) ∧
  (∀ σ s k delay reason answer x y,
     socks σ !! s = Some k →
     ∃ σ1 σ2 σ3,
       continue (ReconnectDelay s delay reason) answer σ = Some σ1 ∧
       continue (LoadAuth (for_reconnect s reason) (sock_agent k) true) (Some x) σ1
         = Some σ2 ∧
       continue (FetchVersion (for_reconnect s reason) (sock_agent k) true
                   (authStore σ !! sock_agent k)) y σ2 = Some σ3 ∧
       authStore σ3 = authStore σ ∧
       socks σ3 = (socks σ ++ [{| sock_agent := sock_agent k; sock_isReconnect := true;
                                  sock_auth := authStore σ !! sock_agent k;
                                  sock_user := None;
                                  qrResolved := false; settled := [] |}])%list) ∧
  (∀ σ s k u answer,
     socks σ !! s = Some k → qrResolved k = false →
     Js.truthy (qr u) = false → connection u = Some st_open →
     let a := sock_agent k in
     let σ1 := exec (ConnectionUpdate s u) σ in
     clientStates σ1 !! a = Some st_open ∧ authStore σ1 = authStore σ ∧
     ∃ σ2, continue (NotifyOpen s) answer σ1 = Some σ2 ∧
       qrCodes σ2 !! a = None ∧ authStore σ2 = authStore σ ∧
       socks σ2 !! s =
         Some {| sock_agent := sock_agent k; sock_isReconnect := sock_isReconnect k;
                 sock_auth := sock_auth k; sock_user := sock_user k;
                 qrResolved := true; settled := (settled k ++ [Resolved])%list |}).
Proof.
  split; [|split].
  - intros σ a Ha Hc Hn σ1.
    assert (E : σ1 = park (LoadAuth for_init a false) (removeAuth a σ)).
    { subst σ1. change (exec (PostInit (Some a)) σ) with (post_init (Some a) σ).
      unfold post_init. apply String.eqb_neq in Ha. simpl. rewrite Ha. simpl.
      rewrite Hc. simpl. apply Z.leb_gt in Hn. rewrite Hn. simpl.
      unfold initializeClient_begin. rewrite Hc. reflexivity. }
    rewrite E. split; [reflexivity|]. intros x y σ2. subst σ2.
    destruct (admitted_socket a x y σ) as [Hauth Hsocks].
    split; [rewrite Hauth; apply lookup_delete_eq | exact Hsocks].
  - intros σ s k delay reason answer x y Hk. simpl. rewrite Hk. simpl.
    do 3 eexists. split; [reflexivity|]. split; [reflexivity|].
    split; [reflexivity|]. simpl. auto.
  - intros σ s k u answer Hk Hq Hqr Hc a σ1.
    assert (E : σ1 = on_open s a σ).
    { subst σ1. simpl. unfold connection_update. rewrite Hk, Hqr.
      unfold after_qr. rewrite Hc. reflexivity. }
    rewrite E. unfold on_open. frame.
    split; [apply lookup_insert_eq|]. split; [reflexivity|].
    simpl. frame. rewrite Hk. simpl. eexists. split; [reflexivity|].
    frame. split; [apply lookup_delete_eq|]. split; [reflexivity|].
    unfold settle. frame. rewrite Hk, Hq. simpl. frame.
    apply list_lookup_insert_eq. eapply lookup_lt_Some, Hk.
Qed.

(** *** Teardown by the QR timer *)


End Facts.

(** *** The properties on the runs of [Examples] *)

Local Abbreviation exec := (Lifecycle.exec Examples.loggedOut).
Local Abbreviation run := (Lifecycle.run Examples.loggedOut).
Local Abbreviation continue := (Lifecycle.continue Examples.loggedOut).

Lemma full_count : countConnectedClients Examples.full = 5.
Proof. vm_compute. reflexivity. Qed.

Lemma paired_count : countConnectedClients Examples.paired = 1.
Proof. vm_compute. reflexivity. Qed.

Lemma paired_socket :
  socks Examples.paired !! 1%nat =
    Some {| sock_agent := "acct1"; sock_isReconnect := true;
            sock_auth := Some "creds-1";
            sock_user := Some "5491100:7@s.whatsapp.net";
            qrResolved := true; settled := [Resolved] |}.
Proof. vm_compute. reflexivity. Qed.

Lemma last_attempt_socket :
  socks Examples.last_attempt !! 6%nat =
    Some {| sock_agent := "acct1"; sock_isReconnect := true;
            sock_auth := Some "creds-1"; sock_user := None;
            qrResolved := false; settled := [] |}.
Proof. vm_compute. reflexivity. Qed.

(** With five accounts open a sixth is refused; with one account open a
    second is admitted, and the open account is reported connected; an
    account whose session is closed is torn down to be replaced and does
    not count. *)
Lemma init_admission_witness :
  (MAX_CONCURRENT_SESSIONS ≤ countConnectedClients Examples.full ∧
   clients Examples.full !! "acct6" = None ∧
   exec (PostInit (Some "acct6")) Examples.full =
     respond (LimitReached (countConnectedClients Examples.full) MAX_CONCURRENT_SESSIONS)
       Examples.full) ∧
  (countConnectedClients Examples.paired < MAX_CONCURRENT_SESSIONS ∧
   clients Examples.paired !! "acct2" = None ∧
   trace (exec (PostInit (Some "acct2")) Examples.paired) = trace Examples.paired ∧
   tasks (exec (PostInit (Some "acct2")) Examples.paired) =
     (tasks Examples.paired ++ [LoadAuth for_init "acct2" false])%list) ∧
  (clients Examples.paired !! "acct1" = Some 1%nat ∧
   clientStates Examples.paired !! "acct1" = Some st_open ∧
   ∃ phone, exec (PostInit (Some "acct1")) Examples.paired =
              respond (Connected phone) Examples.paired) ∧
  (clients Examples.last_attempt !! "acct1" = Some 1%nat ∧
   clientStates Examples.last_attempt !! "acct1" ≠ Some st_open ∧
   exec (PostInit (Some "acct1")) Examples.last_attempt =
     destroyClient_begin by_init_replace "acct1" Examples.last_attempt ∧
   countConnectedClients Examples.last_attempt =
     countConnectedClients (with_clients (delete "acct1") Examples.last_attempt)).
Proof.
  assert (H6 : "acct6" ≠ "") by discriminate.
  assert (H2 : "acct2" ≠ "") by discriminate.
  assert (H1 : "acct1" ≠ "") by discriminate.
  assert (Hfull : MAX_CONCURRENT_SESSIONS ≤ countConnectedClients Examples.full)
    by (rewrite full_count; unfold MAX_CONCURRENT_SESSIONS; lia).
  assert (Hone : countConnectedClients Examples.paired < MAX_CONCURRENT_SESSIONS)
    by (rewrite paired_count; unfold MAX_CONCURRENT_SESSIONS; lia).
  assert (Hc6 : clients Examples.full !! "acct6" = None) by (vm_compute; reflexivity).
  assert (Hc2 : clients Examples.paired !! "acct2" = None) by (vm_compute; reflexivity).
  assert (Hc1 : clients Examples.paired !! "acct1" = Some 1%nat) by (vm_compute; reflexivity).
  assert (Ho1 : clientStates Examples.paired !! "acct1" = Some st_open)
    by (vm_compute; reflexivity).
  assert (Hcl : clients Examples.last_attempt !! "acct1" = Some 1%nat)
    by (vm_compute; reflexivity).
  assert (Hol : clientStates Examples.last_attempt !! "acct1" ≠ Some st_open)
    by (vm_compute; discriminate).
  split; [|split; [|split]].
  - split; [exact Hfull|]. split; [exact Hc6|].
    exact (proj1 (init_admission Examples.loggedOut Examples.full "acct6" H6) Hfull Hc6).
  - split; [exact Hone|]. split; [exact Hc2|].
    destruct (proj1 (proj2 (init_admission Examples.loggedOut Examples.paired "acct2" H2))
                Hone Hc2) as (Ht & Hk & _).
    split; [exact Ht | exact Hk].
  - split; [exact Hc1|]. split; [exact Ho1|].
    exact (proj1 (proj1 (proj2 (proj2
                    (init_admission Examples.loggedOut Examples.paired "acct1" H1)))
                  1%nat Hc1) Ho1).
  - split; [exact Hcl|]. split; [exact Hol|].
    pose proof (init_admission Examples.loggedOut Examples.last_attempt "acct1" H1)
      as (_ & _ & Hrec & _ & Hex).
    split; [exact (proj1 (proj2 (Hrec 1%nat Hcl) Hol)) | exact (Hex Hol)].
Defined.


(** On the open account a close with code 401 removes everything, a
    close with code 408 schedules the first reconnect after 2000 ms; on
    the account with five attempts used a close with code 408 drops the
    session. *)
Lemma close_classification_witness :
  (let σ' := exec (ConnectionUpdate 1 (Examples.closeUpdate 401 "Logged out")) Examples.paired in
   clients σ' !! "acct1" = None ∧ qrCodes σ' !! "acct1" = None ∧
   clientStates σ' !! "acct1" = None ∧ reconnectAttempts σ' !! "acct1" = None ∧
   qrTimeouts σ' !! "acct1" = None ∧ authStore σ' !! "acct1" = None ∧
   tasks σ' = tasks Examples.paired) ∧
  (let σ' := exec (ConnectionUpdate 1 (Examples.closeUpdate 408 "Connection was lost"))
               Examples.paired in
   reconnectAttempts σ' !! "acct1" = Some (nextAttempt "acct1" Examples.paired) ∧
   clientStates σ' !! "acct1" = Some st_close ∧
   tasks σ' = (tasks Examples.paired ++
                 [ReconnectDelay 1 (reconnectDelay (nextAttempt "acct1" Examples.paired))
                    (closeReason (Examples.closeUpdate 408 "Connection was lost"))])%list) ∧
  (let σ' := exec (ConnectionUpdate 6 (Examples.closeUpdate 408 "Connection was lost"))
               Examples.last_attempt in
   clients σ' !! "acct1" = None ∧ qrCodes σ' !! "acct1" = None ∧
   clientStates σ' !! "acct1" = None ∧ reconnectAttempts σ' !! "acct1" = None ∧
   tasks σ' = tasks Examples.last_attempt).
Proof.
  assert (Hne : statusCodeOf (Examples.closeUpdate 408 "Connection was lost")
                  ≠ Some Examples.loggedOut) by discriminate.
  split; [|split].
  - exact (proj1 (proj2 (close_classification Examples.loggedOut) Examples.paired 1%nat _
                   (Examples.closeUpdate 401 "Logged out") paired_socket eq_refl eq_refl)
             eq_refl).
  - assert (Hn : nextAttempt "acct1" Examples.paired ≤ MAX_RECONNECT_ATTEMPTS)
      by (vm_compute; discriminate).
    exact (proj1 (proj2 (proj2 (proj2 (close_classification Examples.loggedOut)
                   Examples.paired 1%nat _
                   (Examples.closeUpdate 408 "Connection was lost")
                   paired_socket eq_refl eq_refl)
                   Hne)) Hn).
  - assert (Hn : MAX_RECONNECT_ATTEMPTS < nextAttempt "acct1" Examples.last_attempt)
      by (vm_compute; reflexivity).
    exact (proj2 (proj2 (proj2 (proj2 (close_classification Examples.loggedOut)
                   Examples.last_attempt 6%nat _
                   (Examples.closeUpdate 408 "Connection was lost")
                   last_attempt_socket eq_refl eq_refl)
                   Hne)) Hn).
Defined.

(** In the run where the pairing expires two promises are resolved, each
    once.  The first pairing code resolves the pending promise of the
    first socket, a later one only replaces the image, and [/init]
    answers with the image. *)
Lemma init_promise_single_fire_witness :
  (socks (run Examples.pairing_expires initial) !! 0%nat =
     Some {| sock_agent := "acct1"; sock_isReconnect := false; sock_auth := None;
             sock_user := None; qrResolved := true; settled := [Resolved] |} ∧
   (length [Resolved] ≤ 1)%nat) ∧
  (∃ σ', continue (RenderQr 0 (Examples.qrUpdate "2@ref1")) (Some "data:image/png;base64,AAA")
           Examples.awaiting_code = Some σ' ∧
         qrCodes σ' !! "acct1" = Some "data:image/png;base64,AAA" ∧
         socks σ' !! 0%nat =
           Some {| sock_agent := "acct1"; sock_isReconnect := false; sock_auth := None;
                   sock_user := None; qrResolved := true; settled := [Resolved] |}) ∧
  (∃ σ', continue (RenderQr 0 (Examples.qrUpdate "2@ref9")) (Some "data:image/png;base64,CCC")
           (run Examples.pairing initial) = Some σ' ∧
         qrCodes σ' !! "acct1" = Some "data:image/png;base64,CCC" ∧
         socks σ' = socks (run Examples.pairing initial)) ∧
  (∃ σ', continue (AwaitSocket for_init "acct1" 0) (Some "") Examples.code_shown = Some σ' ∧
         trace σ' = (trace Examples.code_shown
                       ++ [Respond (Pairing "data:image/png;base64,AAA" "acct1" 180)])%list).
Proof.
  assert (H0 : socks (run Examples.pairing_expires initial) !! 0%nat =
     Some {| sock_agent := "acct1"; sock_isReconnect := false; sock_auth := None;
             sock_user := None; qrResolved := true; settled := [Resolved] |})
    by (vm_compute; reflexivity).
  assert (Hp : socks Examples.awaiting_code !! 0%nat =
     Some {| sock_agent := "acct1"; sock_isReconnect := false; sock_auth := None;
             sock_user := None; qrResolved := false; settled := [] |})
    by (vm_compute; reflexivity).
  assert (Hk : socks (run Examples.pairing initial) !! 0%nat =
     Some {| sock_agent := "acct1"; sock_isReconnect := false; sock_auth := None;
             sock_user := None; qrResolved := true; settled := [Resolved] |})
    by (vm_compute; reflexivity).
  assert (Hs : socks Examples.code_shown !! 0%nat =
     Some {| sock_agent := "acct1"; sock_isReconnect := false; sock_auth := None;
             sock_user := None; qrResolved := true; settled := [Resolved] |})
    by (vm_compute; reflexivity).
  assert (Hq : qrCodes Examples.code_shown !! "acct1" = Some "data:image/png;base64,AAA")
    by (vm_compute; reflexivity).
  assert (Hne : "data:image/png;base64,AAA" ≠ "") by discriminate.
  destruct (init_promise_single_fire Examples.loggedOut) as (Hone & Hqr & Hinit).
  split; [|split; [|split]].
  - split; [exact H0|]. exact (Hone ∅ _ _ _ H0).
  - destruct (Hqr Examples.awaiting_code 0%nat _ (Examples.qrUpdate "2@ref1")
                "data:image/png;base64,AAA" Hp eq_refl) as (σ' & E & Hc & Hres & _).
    exists σ'. split; [exact E|]. split; [exact Hc|]. exact (Hres eq_refl).
  - destruct (Hqr (run Examples.pairing initial) 0%nat _ (Examples.qrUpdate "2@ref9")
                "data:image/png;base64,CCC" Hk eq_refl) as (σ' & E & Hc & _ & Hsame).
    exists σ'. split; [exact E|]. split; [exact Hc|]. exact (Hsame eq_refl).
  - exact (Hinit Examples.code_shown "acct1" 0%nat _ "data:image/png;base64,AAA" (Some "")
             Hs eq_refl Hq Hne).
Defined.


(** The account whose reconnects are used up has no client record and
    still has its credentials: an [/init] for it removes them and makes
    the socket without them.  The reconnect of the open account makes
    its socket with the credentials on disk; the socket made by the
    reconnect after the scan opens with no pairing code and resolves its
    promise. *)
Lemma fresh_init_discards_credentials_witness :
  (authStore Examples.exhausted !! "acct1" = Some "creds-1" ∧
   clients Examples.exhausted !! "acct1" = None ∧
   countConnectedClients Examples.exhausted < MAX_CONCURRENT_SESSIONS ∧
   let σ1 := exec (PostInit (Some "acct1")) Examples.exhausted in
   authStore σ1 = delete "acct1" (authStore Examples.exhausted) ∧
   let σ2 := run [Resume (length (tasks Examples.exhausted)) (Some "");
                  Resume (length (tasks Examples.exhausted)) (Some "")] σ1 in
   authStore σ2 !! "acct1" = None ∧
   socks σ2 = (socks Examples.exhausted ++
                 [{| sock_agent := "acct1"; sock_isReconnect := false;
                     sock_auth := None; sock_user := None;
                     qrResolved := false; settled := [] |}])%list) ∧
  (∃ σ1 σ2 σ3,
     continue (ReconnectDelay 1 2000 "lost") (Some "") Examples.paired = Some σ1 ∧
     continue (LoadAuth (for_reconnect 1 "lost") "acct1" true) (Some "") σ1 = Some σ2 ∧
     continue (FetchVersion (for_reconnect 1 "lost") "acct1" true
                 (authStore Examples.paired !! "acct1")) (Some "") σ2 = Some σ3 ∧
     authStore σ3 = authStore Examples.paired ∧
     socks σ3 = (socks Examples.paired ++
                   [{| sock_agent := "acct1"; sock_isReconnect := true;
                       sock_auth := authStore Examples.paired !! "acct1";
                       sock_user := None; qrResolved := false; settled := [] |}])%list) ∧
  (let σ1 := exec (ConnectionUpdate 1 Examples.openUpdate) Examples.reconnecting in
   clientStates σ1 !! "acct1" = Some st_open ∧
   authStore σ1 = authStore Examples.reconnecting ∧
   ∃ σ2, continue (NotifyOpen 1) (Some "") σ1 = Some σ2 ∧
     qrCodes σ2 !! "acct1" = None ∧ authStore σ2 = authStore Examples.reconnecting ∧
     socks σ2 !! 1%nat =
       Some {| sock_agent := "acct1"; sock_isReconnect := true;
               sock_auth := Some "creds-1"; sock_user := None;
               qrResolved := true; settled := [Resolved] |}).
Proof.
  assert (Ha : "acct1" ≠ "") by discriminate.
  assert (Hc : clients Examples.exhausted !! "acct1" = None) by (vm_compute; reflexivity).
  assert (Hn : countConnectedClients Examples.exhausted < MAX_CONCURRENT_SESSIONS)
    by (vm_compute; reflexivity).
  assert (Hr : socks Examples.reconnecting !! 1%nat =
     Some {| sock_agent := "acct1"; sock_isReconnect := true;
             sock_auth := Some "creds-1"; sock_user := None;
             qrResolved := false; settled := [] |})
    by (vm_compute; reflexivity).
  destruct (fresh_init_discards_credentials Examples.loggedOut) as (Hfresh & Hrec & Hopen).
  split; [|split].
  - split; [vm_compute; reflexivity|]. split; [exact Hc|]. split; [exact Hn|].
    destruct (Hfresh Examples.exhausted "acct1" Ha Hc Hn) as [H1 H2].
    intros σ1. split; [exact H1|]. exact (H2 "" (Some "")).
  - exact (Hrec Examples.paired 1%nat _ 2000 "lost" (Some "") "" (Some "") paired_socket).
  - exact (Hopen Examples.reconnecting 1%nat _ Examples.openUpdate (Some "")
             Hr eq_refl eq_refl eq_refl).
Defined.

(** C4 as stated fails on the account whose reconnects are used up (a
    state the server reaches from its first start): it has stored
    credentials and no live session, yet [/init] deletes the
    credentials and makes the socket without them; and were the
    transport to open with no pairing code all the same, the request
    would be answered with an error, not with the connected identity. *)
Lemma init_resume_counterexample :
  let σ0 := Examples.exhausted in
  let σ1 := run Examples.reinit σ0 in
  let σ2 := run Examples.opens_unpaired σ1 in
  feasible Examples.loggedOut
    (Examples.pairing ++ Examples.restart_after_scan ++ Examples.six_drops
       ++ Examples.reinit ++ Examples.opens_unpaired) initial = true ∧
  (authStore σ0 !! "acct1" = Some "creds-1" ∧ clients σ0 !! "acct1" = None ∧
   tasks σ0 = []) ∧
  (authStore σ1 !! "acct1" = None ∧
   sock_auth <$> (socks σ1 !! 7%nat) = Some None) ∧
  (last (trace σ2) =
     Some (Respond (ServerError "QR code not generated after initialization")) ∧
   ∀ phone, ¬ In (Respond (Connected phone)) (trace σ2)).
Proof.
  vm_compute. repeat split; try reflexivity.
  intros phone H. repeat (destruct H as [H|H]; [discriminate|]). exact H.
Qed.




End LifecycleFacts.

(** * Properties of the helpers *)

Module HelperFacts.

Import Relay.

(** [s.includes(c)] for a single code unit. *)
Lemma includes_has c s : Js.includes (String c "") s = Text.has c s.
Proof.
  induction s as [|x s IH]; [reflexivity|].
  cbn [Js.includes Text.has String.prefix]. rewrite IH.
  destruct (ascii_dec c x) as [->|Hne].
  - rewrite Ascii.eqb_refl. destruct s; reflexivity.
  - apply not_eq_sym in Hne. apply Ascii.eqb_neq in Hne. rewrite Hne. reflexivity.
Qed.

Lemma append_cons x s t : String x s ++ t = String x (s ++ t).
Proof. reflexivity. Qed.

Lemma split0_has c s : Text.has c (Js.split0 c s) = false.
Proof.
  induction s as [|x s IH]; [reflexivity|]. simpl.
  destruct (Ascii.eqb x c) eqn:E; [reflexivity|]. simpl. rewrite E. exact IH.
Qed.

Lemma split0_keeps c d s : Text.has d s = false → Text.has d (Js.split0 c s) = false.
Proof.
  induction s as [|x s IH]; [reflexivity|]. simpl. intros H.
  apply orb_false_iff in H as [Hx Hs].
  destruct (Ascii.eqb x c); [reflexivity|]. simpl. rewrite Hx. auto.
Qed.

Lemma split0_id c s : Text.has c s = false → Js.split0 c s = s.
Proof.
  induction s as [|x s IH]; [reflexivity|]. simpl. intros H.
  apply orb_false_iff in H as [Hx Hs]. rewrite Hx, IH by exact Hs. reflexivity.
Qed.

Lemma split0_app c s t : Text.has c s = false → Js.split0 c (s ++ String c t) = s.
Proof.
  induction s as [|x s IH]; simpl; intros H.
  - rewrite Ascii.eqb_refl. reflexivity.
  - apply orb_false_iff in H as [Hx Hs]. rewrite Hx, IH by exact Hs. reflexivity.
Qed.

Lemma jidToPhone_split j : jidToPhone (Some j) = Js.split0 ":" (Js.split0 "@" j).
Proof. unfold jidToPhone. destruct j; reflexivity. Qed.

(** X1. The phone number [jidToPhone] gives holds neither [@] nor [:],
    so that [jidToPhone] applied to its own result changes nothing. *)
Theorem jidToPhone_plain (jid : option string) :
  Js.includes "@" (jidToPhone jid) = false ∧
  Js.includes ":" (jidToPhone jid) = false ∧
  jidToPhone (Some (jidToPhone jid)) = jidToPhone jid.
Proof.
  assert (H : Text.has "@" (jidToPhone jid) = false ∧ Text.has ":" (jidToPhone jid) = false).
  { destruct jid as [j|]; [|split; reflexivity]. rewrite jidToPhone_split.
    split; [apply split0_keeps, split0_has | apply split0_has]. }
  destruct H as [Hat Hcolon]. rewrite !includes_has.
  split; [exact Hat|]. split; [exact Hcolon|].
  rewrite (jidToPhone_split (jidToPhone jid)).
  rewrite (split0_id "@") by exact Hat. apply split0_id, Hcolon.
Qed.

(** X2. For a JID [user@server] or [user:device@server] whose user part
    holds neither [@] nor [:], [jidToPhone] gives the user part. *)
Theorem jidToPhone_user (user device server : string) :
  Js.includes "@" user = false → Js.includes ":" user = false →
  jidToPhone (Some (user ++ "@" ++ server)) = user ∧
  jidToPhone (Some (user ++ ":" ++ device ++ "@" ++ server)) = user.
Proof.
  rewrite !includes_has. intros Hat Hcolon. rewrite !jidToPhone_split. split.
  - change ("@" ++ server) with (String "@" server).
    rewrite split0_app by exact Hat. apply split0_id, Hcolon.
  - change (":" ++ device ++ "@" ++ server) with (String ":" (device ++ String "@" server)).
    destruct (Text.has "@" device) eqn:Hd.
    + assert (E : Js.split0 "@" (user ++ String ":" (device ++ String "@" server))
                  = user ++ String ":" (Js.split0 "@" (device ++ String "@" server))).
      { clear Hcolon. induction user as [|x u IH].
        - reflexivity.
        - rewrite !append_cons. cbn [Js.split0]. cbn [Text.has] in Hat.
          apply orb_false_iff in Hat as [Hx Hu]. rewrite Hx. f_equal. exact (IH Hu). }
      rewrite E. apply split0_app, Hcolon.
    + assert (E : user ++ String ":" (device ++ String "@" server)
                  = (user ++ String ":" device) ++ String "@" server).
      { clear. induction user as [|x u IH]; [reflexivity|].
        rewrite !append_cons. f_equal. exact IH. }
      rewrite E, split0_app.
      * apply split0_app, Hcolon.
      * clear E Hcolon. induction user as [|x u IH]; [exact Hd|].
        rewrite append_cons. cbn [Text.has] in *.
        apply orb_false_iff in Hat as [Hx Hu]. rewrite Hx. auto.
Qed.


Lemma or_else_empty a b : Js.or_else a b = "" → Js.truthy a = false ∧ b = "".
Proof.
  unfold Js.or_else, Js.truthy. destruct a as [s|]; [|auto].
  destruct (s =? "") eqn:E; simpl; [auto|].
  intros ->. discriminate.
Qed.

Lemma or_else_falsy a b : Js.truthy a = false → Js.or_else a b = b.
Proof.
  unfold Js.or_else, Js.truthy. destruct a as [s|]; [|reflexivity].
  destruct (s =? ""); simpl; [reflexivity|discriminate].
Qed.

Lemma or_else_truthy a b : Js.truthy a = true → Some (Js.or_else a b) = a.
Proof.
  unfold Js.or_else, Js.truthy. destruct a as [s|]; [|discriminate].
  destruct (s =? ""); simpl; [discriminate|reflexivity].
Qed.

(** X4. The name [getContactName] gives is empty only when the push
    name is missing or empty and the user part of the JID is empty.  A
    stored contact whose [name], [notify] and [verifiedName] are all
    missing or empty gives the same name as no stored contact; a stored
    non-empty [name] wins over everything else. *)
Theorem getContactName_fallback (jid : string) (contacts : gmap string Contact)
    (pushName : option string) :
  (getContactName jid contacts pushName = "" →
     Js.truthy pushName = false ∧ jidToPhone (Some jid) = "") ∧
  (∀ c, contacts !! jid = Some c →
     Js.truthy (name c) = false → Js.truthy (notify c) = false →
     Js.truthy (verifiedName c) = false →
     getContactName jid contacts pushName = getContactName jid ∅ pushName) ∧
  (∀ c, contacts !! jid = Some c → Js.truthy (name c) = true →
     Some (getContactName jid contacts pushName) = name c).
Proof.
  unfold getContactName. split; [|split].
  - destruct (contacts !! jid) as [c|]; intros H.
    + do 3 (apply or_else_empty in H as [_ H]). apply or_else_empty in H. exact H.
    + apply or_else_empty in H. exact H.
  - intros c -> Hn Hy Hv. rewrite lookup_empty.
    rewrite (or_else_falsy (name c)), (or_else_falsy (notify c)),
      (or_else_falsy (verifiedName c)) by assumption.
    reflexivity.
  - intros c -> Hn. apply or_else_truthy, Hn.
Qed.

Lemma or_else_empty_iff a b : Js.or_else a b = "" ↔ Js.truthy a = false ∧ b = "".
Proof.
  split; [apply or_else_empty|]. intros [Ha ->]. apply or_else_falsy, Ha.
Qed.

(** X5. The text of a message is empty exactly when its conversation
    text, its extended text and the captions of its image, video and
    document are all missing or empty; otherwise it is the first of
    these, in that order, that is not.  An audio or a sticker part never
    contributes. *)
Theorem extractMessageText_sources (m : Message) :
  (extractMessageText (Some m) = "" ↔
     Js.truthy (conversation m) = false ∧
     Js.truthy (extendedTextMessage m ≫= text) = false ∧
     Js.truthy (imageMessage m ≫= caption) = false ∧
     Js.truthy (videoMessage m ≫= caption) = false ∧
     Js.truthy (documentMessage m ≫= caption) = false) ∧
  (∀ t, extractMessageText (Some m) = t → t ≠ "" →
     ∃ src, In src [conversation m; extendedTextMessage m ≫= text;
                    imageMessage m ≫= caption; videoMessage m ≫= caption;
                    documentMessage m ≫= caption] ∧ src = Some t) ∧
  (∀ a s, extractMessageText
            (Some (MkMessage (conversation m) (extendedTextMessage m) (imageMessage m)
                     (videoMessage m) a (documentMessage m) s))
          = extractMessageText (Some m)).
Proof.
  split; [|split].
  - unfold extractMessageText. rewrite !or_else_empty_iff. tauto.
  - unfold extractMessageText. intros t Ht Hne.
    repeat match type of Ht with
    | Js.or_else ?a ?b = _ =>
        destruct (Js.truthy a) eqn:?;
        [ exists a; split; [simpl; tauto|];
          rewrite <- Ht; symmetry; apply or_else_truthy; assumption
        | rewrite (or_else_falsy a) in Ht by assumption ]
    end.
    congruence.
  - intros a s. destruct m. reflexivity.
Qed.

(** The subtype of a media message is one of four. *)
Lemma detectMessageType_table (mc : Message) :
  (detectMessageType (Some mc)).1 = ty_media →
  (detectMessageType (Some mc)).2 = Some bt_image ∨
  (detectMessageType (Some mc)).2 = Some bt_video ∨
  (detectMessageType (Some mc)).2 = Some bt_audio ∨
  (detectMessageType (Some mc)).2 = Some bt_document.
Proof.
  unfold detectMessageType.
  destruct (imageMessage mc); cbn [Js.present fst snd]; [tauto|].
  destruct (videoMessage mc); cbn [Js.present fst snd]; [tauto|].
  destruct (audioMessage mc) as [a|]; cbn [fst snd];
    [destruct (Js.truthy_bool (ptt a)); cbn [fst snd]; [discriminate|tauto]|].
  destruct (documentMessage mc); cbn [Js.present fst snd]; [tauto|].
  destruct (stickerMessage mc); cbn [Js.present fst snd]; [discriminate|].
  destruct (Js.present _); cbn [fst snd]; discriminate.
Qed.

Ltac pairs_done :=
  repeat split; intros; try discriminate; try tauto; try (intuition discriminate).

(** X6. The type and the subtype [detectMessageType] gives go together:
    there is no subtype only for a missing message, [voice] comes with
    [ptt], [sticker] with [sticker], [media] with one of [image],
    [video], [audio] and [document], [reply] and [text] with [text].  A
    message with a media part is never a reply. *)
Theorem detectMessageType_pairs (message : option Message) :
  let t := (detectMessageType message).1 in
  let b := (detectMessageType message).2 in
  (b = None ↔ message = None) ∧
  (t = ty_voice ↔ b = Some bt_ptt) ∧
  (t = ty_sticker ↔ b = Some bt_sticker) ∧
  (t = ty_media ↔ b = Some bt_image ∨ b = Some bt_video ∨ b = Some bt_audio
                  ∨ b = Some bt_document) ∧
  (t = ty_reply ∨ t = ty_text ↔ b = None ∨ b = Some bt_text) ∧
  (t = ty_reply →
     ∃ m, message = Some m ∧ imageMessage m = None ∧ videoMessage m = None ∧
          audioMessage m = None ∧ documentMessage m = None ∧ stickerMessage m = None).
Proof.
  destruct message as [m|]; cbn zeta.
  - unfold detectMessageType.
    destruct (imageMessage m) eqn:Hi; cbn [Js.present fst snd]; [pairs_done|].
    destruct (videoMessage m) eqn:Hv; cbn [Js.present fst snd]; [pairs_done|].
    destruct (audioMessage m) as [a|] eqn:Ha; cbn [fst snd];
      [destruct (Js.truthy_bool (ptt a)); cbn [fst snd]; pairs_done|].
    destruct (documentMessage m) eqn:Hd; cbn [Js.present fst snd]; [pairs_done|].
    destruct (stickerMessage m) eqn:Hs; cbn [Js.present fst snd]; [pairs_done|].
    destruct (Js.present _); cbn [fst snd]; pairs_done; exists m; auto 10.
  - cbn [detectMessageType fst snd]. pairs_done.
Qed.

(** X7. The body relayed for a voice note and for a sticker is a fixed
    text; for a media message it is the label of its subtype, followed
    by [": "] and the caption when there is one, and the label is always
    one of the four of the table, never the fallback; for a text or a
    reply it is the text of the message. *)
Theorem messageBody_shape (mc : Message) :
  let t := (detectMessageType (Some mc)).1 in
  let b := (detectMessageType (Some mc)).2 in
  let caption := extractMessageText (Some mc) in
  (t = ty_voice → messageBodyOf mc = "🎤 Nota de voz") ∧
  (t = ty_sticker → messageBodyOf mc = "🎨 Sticker") ∧
  (t = ty_media →
     ∃ label, mediaTypeLabel b = Some label ∧
       In label ["📷 Imagen"; "🎥 Video"; "🎵 Audio"; "📄 Documento"] ∧
       messageBodyOf mc = (if String.eqb caption "" then label
                           else label ++ ": " ++ caption)) ∧
  (t = ty_text ∨ t = ty_reply → messageBodyOf mc = caption).
Proof.
  cbn zeta. unfold messageBodyOf.
  pose proof (detectMessageType_table mc) as H.
  destruct (detectMessageType (Some mc)) as [t b]. cbn [fst snd] in *.
  repeat split.
  - intros ->. reflexivity.
  - intros ->. reflexivity.
  - intros ->. destruct (H eq_refl) as [-> | [-> | [-> | ->]]]; eexists;
      (split; [reflexivity|]); (split; [simpl; tauto|]); reflexivity.
  - intros [->| ->]; reflexivity.
Qed.

(** The JID of a phone, without and with a device number. *)
Lemma jidToPhone_user_witness :
  Js.includes "@" "5491100" = false ∧ Js.includes ":" "5491100" = false ∧
  jidToPhone (Some "5491100@s.whatsapp.net") = "5491100" ∧
  jidToPhone (Some "5491100:7@s.whatsapp.net") = "5491100".
Proof.
  split; [reflexivity|]. split; [reflexivity|].
  exact (jidToPhone_user "5491100" "7" "s.whatsapp.net" eq_refl eq_refl).
Defined.


(** A JID without user part and no push name give an empty name; a
    contact without names counts as no contact; a stored name wins. *)
Lemma getContactName_fallback_witness :
  (getContactName "@s.whatsapp.net" ∅ None = "" ∧
   Js.truthy None = false ∧ jidToPhone (Some "@s.whatsapp.net") = "") ∧
  (getContactName "5491100@s.whatsapp.net"
     {[ "5491100@s.whatsapp.net" := Samples.nameless ]} (Some "Pushy")
   = getContactName "5491100@s.whatsapp.net" ∅ (Some "Pushy")) ∧
  (Some (getContactName "5491100@s.whatsapp.net"
           {[ "5491100@s.whatsapp.net" := Samples.ana ]} (Some "Pushy"))
   = name Samples.ana).
Proof.
  split; [|split].
  - split; [reflexivity|].
    exact (proj1 (getContactName_fallback "@s.whatsapp.net" ∅ None) eq_refl).
  - exact (proj1 (proj2 (getContactName_fallback "5491100@s.whatsapp.net"
                           {[ "5491100@s.whatsapp.net" := Samples.nameless ]}
                           (Some "Pushy")))
             Samples.nameless (lookup_singleton_eq _ _) eq_refl eq_refl eq_refl).
  - exact (proj2 (proj2 (getContactName_fallback "5491100@s.whatsapp.net"
                           {[ "5491100@s.whatsapp.net" := Samples.ana ]}
                           (Some "Pushy")))
             Samples.ana (lookup_singleton_eq _ _) eq_refl).
Defined.

(** The caption of a picture is its text; a sticker has none. *)
Lemma extractMessageText_sources_witness :
  (extractMessageText (Some Samples.stickerContent) = "" ∧
   Js.truthy (conversation Samples.stickerContent) = false) ∧
  (extractMessageText (Some Examples.imageContent) = "hola" ∧
   ∃ src, In src [conversation Examples.imageContent;
                  extendedTextMessage Examples.imageContent ≫= text;
                  imageMessage Examples.imageContent ≫= caption;
                  videoMessage Examples.imageContent ≫= caption;
                  documentMessage Examples.imageContent ≫= caption] ∧
          src = Some "hola").
Proof.
  split.
  - split; [reflexivity|].
    exact (proj1 (proj1 (proj1 (extractMessageText_sources Samples.stickerContent))
                    eq_refl)).
  - split; [reflexivity|].
    refine (proj1 (proj2 (extractMessageText_sources Examples.imageContent))
              "hola" eq_refl _).
    discriminate.
Defined.

(** A reply has no media part. *)
Lemma detectMessageType_pairs_witness :
  (detectMessageType (Some Examples.replyContent)).1 = ty_reply ∧
  ∃ m, Some Examples.replyContent = Some m ∧ imageMessage m = None ∧
       videoMessage m = None ∧ audioMessage m = None ∧ documentMessage m = None ∧
       stickerMessage m = None.
Proof.
  split; [reflexivity|].
  exact (proj2 (proj2 (proj2 (proj2 (proj2
           (detectMessageType_pairs (Some Examples.replyContent)))))) eq_refl).
Defined.

(** A voice note with a text, a sticker, a picture with a caption, a
    plain text. *)
Lemma messageBody_shape_witness :
  messageBodyOf Samples.voiceContent = "🎤 Nota de voz" ∧
  messageBodyOf Samples.stickerContent = "🎨 Sticker" ∧
  (∃ label, mediaTypeLabel (detectMessageType (Some Examples.imageContent)).2 = Some label ∧
     In label ["📷 Imagen"; "🎥 Video"; "🎵 Audio"; "📄 Documento"] ∧
     messageBodyOf Examples.imageContent =
       (if String.eqb (extractMessageText (Some Examples.imageContent)) "" then label
        else label ++ ": " ++ extractMessageText (Some Examples.imageContent))) ∧
  messageBodyOf Samples.textContent = extractMessageText (Some Samples.textContent).
Proof.
  split; [|split; [|split]].
  - exact (proj1 (messageBody_shape Samples.voiceContent) eq_refl).
  - exact (proj1 (proj2 (messageBody_shape Samples.stickerContent)) eq_refl).
  - exact (proj1 (proj2 (proj2 (messageBody_shape Examples.imageContent))) eq_refl).
  - exact (proj2 (proj2 (proj2 (messageBody_shape Samples.textContent)))
             (or_introl eq_refl)).
Defined.

End HelperFacts.

(** * Properties of the contact store *)

Module StoreFacts.

Import Relay Store.

Lemma contacts_upsert_keyed cs m : keyed m → keyed (contacts_upsert cs m).
Proof.
  unfold contacts_upsert. revert m.
  induction cs as [|c cs IH]; intros m Hm; [exact Hm|].
  cbn [fold_left]. apply IH. intros k c' Hk.
  destruct (decide (keyOf (contact_id c) = k)) as [<-|Hne].
  - rewrite lookup_insert_eq in Hk. congruence.
  - rewrite lookup_insert_ne in Hk by exact Hne. eauto.
Qed.

Lemma assign_keyOf c u :
  keyOf (contact_id c) = keyOf (mjoin (patch_id u)) →
  keyOf (contact_id (assign c u)) = keyOf (mjoin (patch_id u)).
Proof.
  unfold assign. cbn [contact_id]. destruct (patch_id u) as [i|]; simpl; auto.
Qed.

Lemma contacts_update_keyed us m : keyed m → keyed (contacts_update us m).
Proof.
  unfold contacts_update. revert m.
  induction us as [|u us IH]; intros m Hm; [exact Hm|].
  cbn [fold_left]. apply IH. cbn zeta.
  destruct (m !! keyOf (mjoin (patch_id u))) as [c|] eqn:Hc; [|exact Hm].
  intros k c' Hk.
  destruct (decide (keyOf (mjoin (patch_id u)) = k)) as [<-|Hne].
  - rewrite lookup_insert_eq in Hk. inversion Hk; subst c'.
    apply assign_keyOf, (Hm _ _ Hc).
  - rewrite lookup_insert_ne in Hk by exact Hne. eauto.
Qed.

Lemma fold_on_event_keyed evs st :
  keyed (contacts st) → keyed (contacts (fold_left on_event evs st)).
Proof.
  revert st. induction evs as [|e evs IH]; intros st Hst; [exact Hst|].
  cbn [fold_left]. apply IH. destruct e; cbn [on_event contacts].
  - apply contacts_upsert_keyed, Hst.
  - apply contacts_update_keyed, Hst.
Qed.

(** The store of a socket keeps every contact under its own id. *)
Lemma after_keyed evs : keyed (contacts (after evs)).
Proof.
  apply fold_on_event_keyed. intros k c Hk. cbn in Hk.
  rewrite lookup_empty in Hk. discriminate.
Qed.

Lemma resolveContactId_keyed jid pushName m :
  keyed m → resolveContactId jid pushName m = jid.
Proof.
  intros Hm. unfold resolveContactId.
  destruct (negb (jid =? "") && Js.includes "@lid" jid) eqn:Hl; [|reflexivity].
  apply andb_true_iff in Hl as [_ Hl].
  destruct (m !! jid) as [c|] eqn:Hc; [|reflexivity].
  specialize (Hm _ _ Hc).
  destruct (contact_id c) as [i|]; [|reflexivity].
  cbn in Hm. subst i. rewrite Hl, andb_false_r. reflexivity.
Qed.

(** X8. Whatever contacts the socket has announced, the store keeps
    each contact under the key of its own id, so that the lookup of
    [resolveContactId] under a JID with [@lid] can only find a contact
    whose id is that JID: [resolveContactId] gives back the JID it is
    given, and the record posted to the webhook names [remoteJid] as
    [from], at the top level and in the metadata. *)
Theorem store_resolves_nothing (evs : list StoreEvent) :
  keyed (contacts (after evs)) ∧
  (∀ jid pushName, resolveContactId jid pushName (contacts (after evs)) = jid) ∧
  (∀ agentId sock_user_id msg rj mc mediaUrl mediaFileName,
     let p := payloadOf agentId (contacts (after evs)) sock_user_id msg rj mc
                mediaUrl mediaFileName in
     from p = rj ∧ md_from (message_metadata p) = rj).
Proof.
  pose proof (after_keyed evs) as Hk.
  split; [exact Hk|]. split.
  - intros jid pushName. apply resolveContactId_keyed, Hk.
  - intros agentId uid msg rj mc u f. cbn zeta. cbn [from payloadOf message_metadata].
    unfold metadataOf. destruct (detectMessageType (Some mc)) as [t b].
    cbn [md_from]. split; apply resolveContactId_keyed, Hk.
Qed.





(** A contact announced under its LID is kept under the LID, and the
    LID is what [resolveContactId] gives. *)
Lemma store_resolves_nothing_witness :
  contacts (after [ContactsUpsert [Samples.lidContact]]) !! "77@lid"
    = Some Samples.lidContact ∧
  resolveContactId "77@lid" (Some "Ana")
    (contacts (after [ContactsUpsert [Samples.lidContact]])) = "77@lid".
Proof.
  split; [vm_compute; reflexivity|].
  exact (proj1 (proj2 (store_resolves_nothing [ContactsUpsert [Samples.lidContact]]))
           "77@lid" (Some "Ana")).
Defined.


End StoreFacts.

(** * More properties of the message relay *)

Module BatchFacts.

Import Relay Batch.

Lemma has_split1 c s : Text.has c s = false → Js.after c s = None.
Proof.
  induction s as [|x s IH]; [reflexivity|]. cbn [Text.has Js.after]. intros H.
  apply orb_false_iff in H as [Hx Hs]. rewrite Hx. auto.
Qed.

Lemma after_app c s t : Text.has c s = false → Js.after c (s ++ String c t) = Some t.
Proof.
  induction s as [|x s IH]; intros H.
  - change ("" ++ String c t) with (String c t). cbn [Js.after].
    rewrite Ascii.eqb_refl. reflexivity.
  - rewrite HelperFacts.append_cons. cbn [Js.after]. cbn [Text.has] in H.
    apply orb_false_iff in H as [Hx Hs]. rewrite Hx. auto.
Qed.

Lemma split0_twice c d s t :
  Text.has c s = false → Text.has d s = false →
  Js.split0 c (Js.split0 d (s ++ String c t)) = s.
Proof.
  induction s as [|x s IH]; intros Hc Hd.
  - change ("" ++ String c t) with (String c t). cbn [Js.split0].
    destruct (Ascii.eqb c d); [reflexivity|]. cbn [Js.split0].
    rewrite Ascii.eqb_refl. reflexivity.
  - rewrite HelperFacts.append_cons. cbn [Text.has] in Hc, Hd.
    apply orb_false_iff in Hc as [Hxc Hc]. apply orb_false_iff in Hd as [Hxd Hd].
    cbn [Js.split0]. rewrite Hxd. cbn [Js.split0]. rewrite Hxc. f_equal. auto.
Qed.

(** X14. The extension given to a stored asset is never empty and holds
    neither [/] nor [;]: it is the subtype of the MIME type, up to its
    parameters, and [bin] when the MIME type has no [/] or an empty
    subtype.  The MIME type itself is never empty. *)
Theorem extensionOf_safe (mimeType : string) :
  extensionOf mimeType ≠ "" ∧
  Js.includes "/" (extensionOf mimeType) = false ∧
  Js.includes ";" (extensionOf mimeType) = false ∧
  (Js.includes "/" mimeType = false → extensionOf mimeType = "bin") ∧
  (∀ type subtype params,
     Js.includes "/" type = false → Js.includes "/" subtype = false →
     Js.includes ";" subtype = false → subtype ≠ "" →
     (mimeType = type ++ "/" ++ subtype → extensionOf mimeType = subtype) ∧
     (mimeType = type ++ "/" ++ subtype ++ ";" ++ params → extensionOf mimeType = subtype)) ∧
  (∀ m, mimeTypeOf m ≠ "").
Proof.
  rewrite !HelperFacts.includes_has. unfold extensionOf, Js.split1.
  split; [|split; [|split; [|split; [|split]]]].
  - destruct (Js.after "/" mimeType) as [r|]; cbn [fmap option_fmap option_map]; [|discriminate].
    unfold Js.or_else. destruct (String.eqb _ "") eqn:E; [discriminate|].
    apply String.eqb_neq in E. exact E.
  - destruct (Js.after "/" mimeType) as [r|]; cbn [fmap option_fmap option_map]; [|reflexivity].
    unfold Js.or_else. destruct (String.eqb _ ""); [reflexivity|].
    apply HelperFacts.split0_keeps, HelperFacts.split0_has.
  - destruct (Js.after "/" mimeType) as [r|]; cbn [fmap option_fmap option_map]; [|reflexivity].
    unfold Js.or_else. destruct (String.eqb _ ""); [reflexivity|].
    apply HelperFacts.split0_has.
  - intros H. rewrite has_split1 by exact H. reflexivity.
  - intros type subtype params. rewrite !HelperFacts.includes_has.
    intros Ht Hs Hp Hne. split; intros ->.
    + change ("/" ++ subtype) with (String "/" subtype).
      rewrite after_app by exact Ht. cbn [fmap option_fmap option_map].
      rewrite (HelperFacts.split0_id "/") by exact Hs.
      rewrite (HelperFacts.split0_id ";") by exact Hp.
      unfold Js.or_else. apply String.eqb_neq in Hne. rewrite Hne. reflexivity.
    + change ("/" ++ subtype ++ ";" ++ params)
        with (String "/" (subtype ++ String ";" params)).
      rewrite after_app by exact Ht. cbn [fmap option_fmap option_map].
      rewrite split0_twice by assumption.
      unfold Js.or_else. apply String.eqb_neq in Hne. rewrite Hne. reflexivity.
  - intros m. unfold mimeTypeOf. intros H.
    do 5 (apply HelperFacts.or_else_empty in H as [_ H]). discriminate.
Qed.

(** The path removed from the webhook address. *)
Local Abbreviation functionPath := "/functions/v1/webhook-whatsapp-personal".

Lemma prefix_app p s t :
  String.prefix p (s ++ t) = true →
  String.prefix p s = true ∨
  ((String.length s < String.length p)%nat ∧
   String.prefix (substring (String.length s) (String.length p - String.length s) p) t = true).
Proof.
  revert p. induction s as [|x s IH]; intros p H.
  - destruct p as [|a p]; [left; reflexivity|]. right.
    change ("" ++ t) with t in H. split; [cbn [String.length]; lia|].
    change (String.length "") with 0%nat. rewrite Nat.sub_0_r.
    assert (E : ∀ q, substring 0 (String.length q) q = q)
      by (induction q; cbn; congruence).
    rewrite E. exact H.
  - destruct p as [|a p]; [left; reflexivity|].
    rewrite HelperFacts.append_cons in H. cbn [String.prefix] in *.
    destruct (ascii_dec a x); [|discriminate].
    apply IH in H as [H|[Hl H]]; [left; exact H|right].
    cbn [String.length]. split; [lia|]. exact H.
Qed.

Lemma prefix_includes p s : String.prefix p s = true → Js.includes p s = true.
Proof. intros H. destruct s; cbn [Js.includes]; rewrite H; reflexivity. Qed.

Lemma includes_tail p x s : Js.includes p (String x s) = false → Js.includes p s = false.
Proof. cbn [Js.includes]. intros H. apply orb_false_iff in H as [_ H]. exact H. Qed.

(** No proper suffix of the path is a prefix of it. *)
Lemma functionPath_unbordered k :
  (1 ≤ k < String.length functionPath)%nat →
  String.prefix (substring k (String.length functionPath - k) functionPath) functionPath
  = false.
Proof.
  intros Hk.
  assert (H : forallb (λ k, negb (String.prefix
                (substring k (String.length functionPath - k) functionPath) functionPath))
              (seq 1 (String.length functionPath - 1)) = true) by (vm_compute; reflexivity).
  rewrite forallb_forall in H. specialize (H k).
  apply negb_true_iff, H, in_seq. lia.
Qed.

Lemma remove_first_absent p s : Js.includes p s = false → remove_first p s = s.
Proof.
  induction s as [|x s IH]; intros H.
  - cbn [Js.includes] in H. apply orb_false_iff in H as [H _].
    cbn [remove_first]. rewrite H. reflexivity.
  - pose proof (includes_tail _ _ _ H) as Ht. cbn [Js.includes] in H.
    apply orb_false_iff in H as [H _]. cbn [remove_first]. rewrite H, IH by exact Ht.
    reflexivity.
Qed.

(** X15. The storage address is the webhook address without its
    function path: for a webhook address that is a base followed by
    [/functions/v1/webhook-whatsapp-personal], the base not holding that
    path, [supabaseUrl] is the base; a webhook address that does not
    hold the path is used as it is; with [WEBHOOK_URL] unset or empty
    it is the host of the default address. *)
Theorem supabaseUrl_base (base : string) :
  (Js.includes functionPath base = false →
     supabaseUrl (base ++ functionPath) = base) ∧
  (Js.includes functionPath base = false → supabaseUrl base = base) ∧
  (∀ env, Js.truthy env = false →
     supabaseUrl (Config.WEBHOOK_URL env) = "https://wmzbqsegsyagcjgxefqs.supabase.co").
Proof.
  unfold supabaseUrl. split; [|split; [apply remove_first_absent|]];
    [|intros env H; unfold Config.WEBHOOK_URL;
      rewrite HelperFacts.or_else_falsy by exact H; vm_compute; reflexivity].
  induction base as [|x b IH]; intros H; [vm_compute; reflexivity|].
  assert (Hp : String.prefix functionPath (String x b ++ functionPath) = false).
  { destruct (String.prefix functionPath (String x b ++ functionPath)) eqn:E; [|reflexivity].
    apply prefix_app in E as [E|[Hl E]].
    - apply prefix_includes in E. congruence.
    - rewrite functionPath_unbordered in E; [discriminate|].
      cbn [String.length] in *. lia. }
  rewrite HelperFacts.append_cons in *. cbn [remove_first]. rewrite Hp.
  f_equal. apply IH, (includes_tail _ _ _ H).
Qed.

Section Handler.

Variable WEBHOOK_URL : string.
Variable agentId : string.
Variable contacts : gmap string Contact.
Variable sock_user_id : option string.

Local Abbreviation relay := (relayMessage WEBHOOK_URL agentId contacts sock_user_id).
Local Abbreviation upsert := (messagesUpsert WEBHOOK_URL agentId contacts sock_user_id).
Local Abbreviation payload_of := (payloadOf agentId contacts sock_user_id).

Lemma afterWebhook_no_webhook o : List.filter isWebhook (afterWebhook o) = [].
Proof. unfold afterWebhook. destruct (webhook o) as [|[|]]; reflexivity. Qed.

Lemma mediaBranch_no_webhooks msg mc o :
  List.filter isWebhook (mediaBranch WEBHOOK_URL msg mc o).1.1 = [].
Proof.
  unfold mediaBranch, downloadAndUpload. destruct (_ && _); [|reflexivity].
  destruct (download o) as [|[b|]]; try reflexivity.
  destruct (storage o) as [|[|]]; reflexivity.
Qed.

Lemma relay_webhook_count msg o :
  length (List.filter isWebhook (relay msg o)) = if relayable msg then 1%nat else 0%nat.
Proof.
  unfold relayMessage, relayable.
  destruct (remoteJid (key msg)) as [rj|]; [|reflexivity].
  destruct (String.eqb rj ""); [reflexivity|].
  destruct (String.eqb rj "status@broadcast"); [reflexivity|].
  destruct (message msg) as [mc|]; [|reflexivity].
  pose proof (mediaBranch_no_webhooks msg mc o) as Hm.
  destruct (mediaBranch WEBHOOK_URL msg mc o) as [[fx u] f]. cbn [fst] in Hm.
  rewrite !List.filter_app, Hm, afterWebhook_no_webhook. reflexivity.
Qed.

(** X10. A batch whose type is not [notify] has no effect at all.  In a
    [notify] batch every message that passes the filters (a recipient
    that is not empty and not [status@broadcast], a content) is posted
    to the webhook exactly once and the others are not posted, whatever
    the downloads, the uploads and the earlier webhook calls of the
    batch answered; the effects of a batch are those of its messages,
    in their order. *)
Theorem batch_one_webhook_each (messages : list (WAMessage * Outcome)) :
  (∀ type, type ≠ "notify" → upsert type messages = []) ∧
  length (List.filter isWebhook (upsert "notify" messages))
    = length (List.filter (λ mo, relayable mo.1) messages) ∧
  (∀ more, upsert "notify" (messages ++ more)%list
           = (upsert "notify" messages ++ upsert "notify" more)%list) ∧
  (∀ msg o, relayable msg = false → relay msg o = []).
Proof.
  split; [|split; [|split]].
  - intros type H. unfold messagesUpsert. apply String.eqb_neq in H. rewrite H. reflexivity.
  - unfold messagesUpsert. cbn [String.eqb Ascii.eqb Bool.eqb].
    induction messages as [|[msg o] l IH]; [reflexivity|].
    cbn [flat_map List.filter fst snd]. rewrite List.filter_app, length_app, IH.
    rewrite relay_webhook_count. destruct (relayable msg); reflexivity.
  - intros more. unfold messagesUpsert. cbn [String.eqb Ascii.eqb Bool.eqb].
    apply flat_map_app.
  - intros msg o. unfold relayable, relayMessage.
    destruct (remoteJid (key msg)) as [rj|]; [|reflexivity].
    destruct (String.eqb rj ""); [reflexivity|].
    destruct (String.eqb rj "status@broadcast"); [reflexivity|].
    destruct (message msg); [discriminate|reflexivity].
Qed.

(** X11. A message the account sent itself is never downloaded or
    uploaded: the webhook call is the first effect, its record is marked
    [from_me], is addressed to the conversation, names no sender, and
    carries no asset reference, though it still says whether the message
    has media and of which subtype. *)
Theorem outgoing_not_downloaded msg o rj mc :
  remoteJid (key msg) = Some rj → rj ≠ "" → rj ≠ "status@broadcast" →
  message msg = Some mc → Js.truthy_bool (fromMe (key msg)) = true →
  ∃ p, relay msg o = Webhook p :: afterWebhook o ∧
       from_me p = true ∧ to p = Some rj ∧ sender_name p = None ∧
       has_media p = isMediaClass (detectMessageType (Some mc)).1 ∧
       media_url (message_metadata p) = None ∧
       media_filename (message_metadata p) = None ∧
       (has_media p = true →
          media_type (message_metadata p) = (detectMessageType (Some mc)).2).
Proof.
  intros Hrj Hne Hst Hmc Hf.
  rewrite (RelayFacts.relay_shape WEBHOOK_URL agentId contacts sock_user_id
             msg o rj mc Hrj Hne Hst Hmc).
  unfold mediaBranch. rewrite Hf, andb_false_r. cbn [fst snd app].
  eexists. split; [reflexivity|].
  cbn [from_me to sender_name has_media message_metadata payloadOf].
  rewrite Hf. split; [reflexivity|]. split; [reflexivity|].
  split.
  { unfold senderNameOf. destruct (Js.endsWith "@g.us" rj); [|reflexivity].
    destruct (participantOf msg rj); [|reflexivity]. rewrite Hf. reflexivity. }
  split; [reflexivity|].
  unfold metadataOf. destruct (detectMessageType (Some mc)) as [t b].
  cbn [fst snd media_url media_filename media_type Js.truthy].
  rewrite !andb_false_r. split; [reflexivity|]. split; [reflexivity|].
  intros ->. reflexivity.
Qed.

Lemma eqb_reply t : MessageType_eqb t ty_reply = true ↔ t = ty_reply.
Proof. destruct t; cbn; split; congruence. Qed.

Lemma eqb_voice t : MessageType_eqb t ty_voice = true ↔ t = ty_voice.
Proof. destruct t; cbn; split; congruence. Qed.

(** X12. In every record posted to the webhook the copies kept in the
    metadata agree with the top level ([from], [participant], [from_me]
    and the timestamp); [is_group] tells whether the conversation ends
    in [@g.us]; outside a group there is no participant and no sender
    name; a sender name is given only for a message received in a group
    from a known participant; the metadata carry a media subtype exactly
    when [has_media] is set, a quoted message exactly for a reply and a
    voice duration exactly for a voice note. *)
Theorem payload_fields_agree msg o p :
  In (Webhook p) (relay msg o) →
  ∃ rj, remoteJid (key msg) = Some rj ∧
    agent_id p = agentId ∧
    is_group p = Js.endsWith "@g.us" rj ∧
    md_from (message_metadata p) = from p ∧
    md_participant (message_metadata p) = wb_participant p ∧
    md_from_me (message_metadata p) = from_me p ∧
    md_timestamp (message_metadata p) = timestamp p ∧
    to p = (if from_me p then Some rj else sock_user_id) ∧
    (is_group p = false → wb_participant p = None ∧ sender_name p = None) ∧
    (is_Some (sender_name p) →
       is_group p = true ∧ from_me p = false ∧ is_Some (wb_participant p)) ∧
    (has_media p = true ↔ is_Some (media_type (message_metadata p))) ∧
    (message_type p = ty_reply ↔ is_Some (quoted_message (message_metadata p))) ∧
    (message_type p = ty_voice ↔ is_Some (voice_duration (message_metadata p))).
Proof.
  intros Hin.
  apply (RelayFacts.relay_webhook_inv WEBHOOK_URL agentId contacts sock_user_id)
    in Hin as (rj & mc & Hrj & Hmc & ->).
  exists rj. split; [exact Hrj|].
  cbn [agent_id is_group from wb_participant from_me timestamp to sender_name has_media
       message_type message_metadata payloadOf].
  pose proof (RelayFacts.detect_media_subtype mc) as Hsub.
  pose proof (RelayFacts.detect_reply mc) as Hrep.
  unfold metadataOf. destruct (detectMessageType (Some mc)) as [t b]. cbn [fst snd] in *.
  cbn [md_from md_participant md_from_me md_timestamp media_type quoted_message
       voice_duration].
  do 7 (split; [reflexivity|]).
  split.
  { unfold participantOf, senderNameOf, participantOf.
    intros ->. auto. }
  split.
  { unfold senderNameOf, participantOf.
    destruct (Js.endsWith "@g.us" rj); [|intros [? ?]; discriminate].
    unfold Js.or_opt.
    destruct (Js.truthy (key_participant (key msg))) eqn:Hp; [|intros [? ?]; discriminate].
    destruct (key_participant (key msg)) as [pp|]; [|discriminate].
    destruct (Js.truthy_bool (fromMe (key msg))); cbn [negb]; [intros [? ?]; discriminate|].
    intros _. eauto. }
  split.
  { destruct (isMediaClass t); [|split; [discriminate|intros [? ?]; discriminate]].
    split; auto. }
  split.
  { destruct (MessageType_eqb t ty_reply) eqn:E.
    - apply eqb_reply in E. subst t. destruct (Hrep eq_refl) as (ci & q & -> & ->).
      split; eauto.
    - split; [|intros [? ?]; discriminate].
      intros ->. discriminate. }
  destruct (MessageType_eqb t ty_voice) eqn:E.
  - apply eqb_voice in E. split; eauto.
  - split; [|intros [? ?]; discriminate]. intros ->. discriminate.
Qed.

(** X13. A received media message whose download gives a buffer and
    whose upload is accepted is downloaded, then uploaded, then posted:
    the asset is uploaded under the name
    [whatsapp-<message id>-<time>.<extension>] with the MIME type of the
    message, and the record names the same file, under the public
    address of the same bucket. *)
Theorem media_asset_names msg o rj mc buffer :
  remoteJid (key msg) = Some rj → rj ≠ "" → rj ≠ "status@broadcast" →
  message msg = Some mc →
  isMediaClass (detectMessageType (Some mc)).1 = true →
  Js.truthy_bool (fromMe (key msg)) = false →
  download o = DlBuffer (Some buffer) → storage o = FetchResponse true →
  let file := "whatsapp-" ++ Js.render (id (key msg)) ++ "-" ++ pretty (now o) ++ "."
                ++ extensionOf (mimeTypeOf mc) in
  ∃ p, relay msg o =
         ([Download msg;
           Upload (supabaseUrl WEBHOOK_URL ++ "/storage/v1/object/whatsapp-media/" ++ file)
                  (mimeTypeOf mc);
           Webhook p] ++ afterWebhook o)%list ∧
       media_url (message_metadata p) =
         Some (supabaseUrl WEBHOOK_URL ++ "/storage/v1/object/public/whatsapp-media/" ++ file) ∧
       media_filename (message_metadata p) = Some file ∧
       has_media p = true.
Proof.
  intros Hrj Hne Hst Hmc Hc Hf Hd Hs file.
  rewrite (RelayFacts.relay_shape WEBHOOK_URL agentId contacts sock_user_id
             msg o rj mc Hrj Hne Hst Hmc).
  unfold mediaBranch. rewrite Hc, Hf. cbn [negb andb].
  unfold downloadAndUpload. rewrite Hd, Hs. cbn [fst snd app].
  eexists. split; [reflexivity|].
  cbn [message_metadata has_media payloadOf]. unfold metadataOf.
  destruct (detectMessageType (Some mc)) as [t b]. cbn [fst snd] in *.
  rewrite Hc. cbn [media_url media_filename andb].
  assert (Hurl : Js.truthy (Some (supabaseUrl WEBHOOK_URL
             ++ "/storage/v1/object/public/whatsapp-media/" ++ mediaFileNameOf msg mc o))
           = true).
  { unfold Js.truthy. apply negb_true_iff, String.eqb_neq, RelayFacts.append_nonempty.
    discriminate. }
  rewrite Hurl. auto.
Qed.

End Handler.

(** The MIME type of a voice note, and a type without subtype. *)
Lemma extensionOf_safe_witness :
  extensionOf "audio/ogg; codecs=opus" = "ogg" ∧
  extensionOf "image/jpeg" = "jpeg" ∧
  extensionOf "octet-stream" = "bin".
Proof.
  split; [|split].
  - exact (proj2 (proj1 (proj2 (proj2 (proj2 (proj2
             (extensionOf_safe "audio/ogg; codecs=opus")))))
             "audio" "ogg" " codecs=opus" eq_refl eq_refl eq_refl
             ltac:(discriminate)) eq_refl).
  - exact (proj1 (proj1 (proj2 (proj2 (proj2 (proj2
             (extensionOf_safe "image/jpeg")))))
             "image" "jpeg" "" eq_refl eq_refl eq_refl ltac:(discriminate)) eq_refl).
  - exact (proj1 (proj2 (proj2 (proj2 (extensionOf_safe "octet-stream")))) eq_refl).
Defined.

(** The address of the examples, and an address without the path. *)
Lemma supabaseUrl_base_witness :
  supabaseUrl Examples.webhookUrl = "https://example.supabase.co" ∧
  supabaseUrl "https://example.supabase.co" = "https://example.supabase.co".
Proof.
  split.
  - exact (proj1 (supabaseUrl_base "https://example.supabase.co") eq_refl).
  - exact (proj1 (proj2 (supabaseUrl_base "https://example.supabase.co")) eq_refl).
Defined.

(** A batch of four messages of which two pass the filters; the same
    batch under another type. *)
Lemma batch_one_webhook_each_witness :
  messagesUpsert Examples.webhookUrl "agent-1" ∅ None "append" Samples.batch = [] ∧
  length (List.filter isWebhook
            (messagesUpsert Examples.webhookUrl "agent-1" ∅ None "notify" Samples.batch))
    = 2%nat ∧
  relayMessage Examples.webhookUrl "agent-1" ∅ None Samples.statusMessage Examples.uploaded
    = [].
Proof.
  pose proof (batch_one_webhook_each Examples.webhookUrl "agent-1" ∅ None Samples.batch)
    as (H1 & H2 & _ & H4).
  split; [apply H1; discriminate|]. split; [exact H2|].
  exact (H4 Samples.statusMessage Examples.uploaded eq_refl).
Defined.

(** A picture the account sent. *)
Lemma outgoing_not_downloaded_witness :
  ∃ p, relayMessage Examples.webhookUrl "agent-1" ∅ (Some "5491199:1@s.whatsapp.net")
         Samples.imageMessageOut Examples.uploaded
       = Webhook p :: afterWebhook Examples.uploaded ∧
       from_me p = true ∧ to p = Some "5491100@s.whatsapp.net" ∧ sender_name p = None ∧
       has_media p = true ∧
       media_url (message_metadata p) = None ∧
       media_filename (message_metadata p) = None ∧
       media_type (message_metadata p) = Some bt_image.
Proof.
  destruct (outgoing_not_downloaded Examples.webhookUrl "agent-1" ∅
              (Some "5491199:1@s.whatsapp.net") Samples.imageMessageOut Examples.uploaded
              "5491100@s.whatsapp.net" Examples.imageContent
              eq_refl ltac:(discriminate) ltac:(discriminate) eq_refl eq_refl)
    as (p & H1 & H2 & H3 & H4 & H5 & H6 & H7 & H8).
  exists p. repeat (split; [assumption|]). exact (H8 H5).
Defined.

(** A text received in a group. *)
Lemma payload_fields_agree_witness :
  let p := payloadOf "agent-1" ∅ None Samples.groupMessage "120363@g.us"
             Samples.textContent None None in
  In (Webhook p)
     (relayMessage Examples.webhookUrl "agent-1" ∅ None Samples.groupMessage
        Examples.uploaded) ∧
  is_group p = true ∧ is_Some (sender_name p) ∧ is_Some (wb_participant p) ∧
  from_me p = false ∧ md_from (message_metadata p) = from p.
Proof.
  intros p.
  assert (Hin : In (Webhook p)
                  (relayMessage Examples.webhookUrl "agent-1" ∅ None Samples.groupMessage
                     Examples.uploaded))
    by (simpl; left; reflexivity).
  split; [exact Hin|].
  destruct (payload_fields_agree Examples.webhookUrl "agent-1" ∅ None
              Samples.groupMessage Examples.uploaded p Hin)
    as (rj & _ & _ & _ & Hf & _ & _ & _ & _ & _ & Hs & _).
  assert (Hsn : is_Some (sender_name p)) by (vm_compute; eauto).
  destruct (Hs Hsn) as (Hg & Hm & Hp). auto.
Defined.

(** The received picture of the examples, stored. *)
Lemma media_asset_names_witness :
  ∃ p, relayMessage Examples.webhookUrl "agent-1" ∅ None Examples.imageMessageIn
         Examples.uploaded
       = [Download Examples.imageMessageIn;
          Upload (supabaseUrl Examples.webhookUrl ++ "/storage/v1/object/whatsapp-media/"
                    ++ "whatsapp-MSG2-" ++ pretty 1700000001234%Z ++ ".jpeg")
                 "image/jpeg";
          Webhook p] ∧
       media_url (message_metadata p) =
         Some (supabaseUrl Examples.webhookUrl
                 ++ "/storage/v1/object/public/whatsapp-media/"
                 ++ "whatsapp-MSG2-" ++ pretty 1700000001234%Z ++ ".jpeg") ∧
       media_filename (message_metadata p)
         = Some ("whatsapp-MSG2-" ++ pretty 1700000001234%Z ++ ".jpeg") ∧
       has_media p = true.
Proof.
  exact (media_asset_names Examples.webhookUrl "agent-1" ∅ None
           Examples.imageMessageIn Examples.uploaded "5491100@s.whatsapp.net"
           Examples.imageContent "bytes"
           eq_refl ltac:(discriminate) ltac:(discriminate) eq_refl eq_refl eq_refl
           eq_refl eq_refl).
Defined.

End BatchFacts.

(** * Properties of the middleware and of the reading routes *)

Module RouteFacts.

Import Lifecycle Config Routes.

(** X16. A request passes [authMiddleware] exactly when its
    [Authorization] header is [Bearer ] followed by the secret; a
    missing or empty header never passes.  The secret is never empty:
    with [MICROSERVICE_SECRET] unset or empty it is the default written
    in the source, and the header made of that default passes. *)
Theorem authMiddleware_exact (secret : string) (authorization : option string) :
  (authMiddleware secret authorization = Next ↔
     authorization = Some ("Bearer " ++ secret)) ∧
  (Js.truthy authorization = false → authMiddleware secret authorization = Unauthorized) ∧
  (∀ env, MICROSERVICE_SECRET env ≠ "") ∧
  (∀ env, Js.truthy env = false →
     authMiddleware (MICROSERVICE_SECRET env) (Some "Bearer your-secret-key-here") = Next).
Proof.
  unfold authMiddleware. split; [|split; [|split]].
  - split.
    + destruct (negb (Js.truthy authorization)); [discriminate|]. cbn [orb].
      case_bool_decide as H; [auto|discriminate].
    + intros ->. rewrite bool_decide_eq_true_2 by reflexivity. reflexivity.
  - intros ->. reflexivity.
  - intros env H. unfold MICROSERVICE_SECRET in H.
    apply HelperFacts.or_else_empty in H as [_ H]. discriminate.
  - intros env H. unfold MICROSERVICE_SECRET. rewrite HelperFacts.or_else_falsy by exact H.
    reflexivity.
Qed.

Lemma digits_app a b : Text.digits (a ++ b) = Text.digits a ++ Text.digits b.
Proof.
  induction a as [|x a IH]; [reflexivity|].
  rewrite HelperFacts.append_cons. cbn [Text.digits].
  destruct (Text.isDigit x); [rewrite HelperFacts.append_cons|]; rewrite IH; reflexivity.
Qed.

Lemma digits_idem s : Text.digits (Text.digits s) = Text.digits s.
Proof.
  induction s as [|x s IH]; [reflexivity|]. cbn [Text.digits].
  destruct (Text.isDigit x) eqn:E; [|exact IH].
  cbn [Text.digits]. rewrite E, IH. reflexivity.
Qed.

Lemma append_empty_r s : s ++ "" = s.
Proof.
  induction s as [|x s IH]; [reflexivity|]. rewrite HelperFacts.append_cons, IH. reflexivity.
Qed.

(** A pattern that starts with [@] is not found among digits. *)
Lemma includes_digits pat s suffix :
  Js.includes (String "@" pat) suffix = false →
  Js.includes (String "@" pat) (Text.digits s ++ suffix) = false.
Proof.
  intros Hs. induction s as [|x s IH]; [exact Hs|]. cbn [Text.digits].
  destruct (Text.isDigit x) eqn:E; [|exact IH].
  rewrite HelperFacts.append_cons. cbn [Js.includes String.prefix].
  destruct (ascii_dec "@" x) as [<-|_]; [discriminate|]. exact IH.
Qed.

Lemma digits_length s : (String.length (Text.digits s) ≤ String.length s)%nat.
Proof.
  induction s as [|x s IH]; [reflexivity|]. cbn [Text.digits].
  destruct (Text.isDigit x); cbn [String.length]; lia.
Qed.

(** A string of digits followed by a pattern: the first occurrence of
    the pattern is the one at the end. *)
Lemma replace_after_digits pat rep user :
  Text.digits user = user →
  Text.replace (String "@" pat) rep (user ++ String "@" pat) = user ++ rep.
Proof.
  induction user as [|x u IH]; intros H.
  - change ("" ++ String "@" pat) with (String "@" pat). change ("" ++ rep) with rep.
    assert (Hp : ∀ q, String.prefix q q = true).
    { induction q as [|a q IHq]; [reflexivity|]. cbn [String.prefix].
      destruct (ascii_dec a a); [exact IHq|congruence]. }
    assert (Hsub : ∀ q m, substring (String.length q) m q = "").
    { induction q as [|a q IHq]; intros m; [destruct m; reflexivity|].
      cbn [String.length substring]. apply IHq. }
    cbn [Text.replace]. rewrite Hp, Hsub. apply append_empty_r.
  - cbn [Text.digits] in H. destruct (Text.isDigit x) eqn:E.
    + inversion H as [Hu]. rewrite Hu. rewrite !HelperFacts.append_cons.
      cbn [Text.replace String.prefix].
      destruct (ascii_dec "@" x) as [<-|_]; [discriminate|].
      f_equal. apply IH, Hu.
    + pose proof (digits_length u) as Hl. rewrite H in Hl. cbn [String.length] in Hl. lia.
Qed.

Lemma includes_app_r p s t : Js.includes p t = true → Js.includes p (s ++ t) = true.
Proof.
  intros H. induction s as [|x s IH]; [exact H|].
  rewrite HelperFacts.append_cons. cbn [Js.includes]. rewrite IH. apply orb_true_r.
Qed.

(** X17. The recipient [/send] passes to the transport.  A [to] that
    names neither a group ([@g.us]) nor a contact ([@c.us]) is reduced
    to its digits and given the domain [@s.whatsapp.net], and formatting
    the result again changes nothing; a group address is passed as it
    is; a contact address made of digits and [@c.us] gets the domain
    [@s.whatsapp.net] instead. *)
Theorem formatNumber_shape (to : string) :
  (Js.includes "@g.us" to = false → Js.includes "@c.us" to = false →
     formatNumber to = Text.digits to ++ "@s.whatsapp.net" ∧
     formatNumber (formatNumber to) = formatNumber to) ∧
  (Js.includes "@g.us" to = true → Js.includes "@c.us" to = false →
     formatNumber to = to) ∧
  (∀ user, Text.digits user = user → to = user ++ "@c.us" →
     formatNumber to = user ++ "@s.whatsapp.net" ∧
     formatNumber (formatNumber to) = formatNumber to).
Proof.
  assert (Hplain : ∀ s, formatNumber (Text.digits s ++ "@s.whatsapp.net")
                        = Text.digits s ++ "@s.whatsapp.net").
  { intros s. unfold formatNumber.
    rewrite (includes_digits "g.us" s) by reflexivity.
    rewrite (includes_digits "c.us" s) by reflexivity. cbn [negb andb].
    rewrite digits_app, digits_idem.
    change (Text.digits "@s.whatsapp.net") with "". rewrite append_empty_r. reflexivity. }
  split; [|split].
  - intros Hg Hc.
    assert (E : formatNumber to = Text.digits to ++ "@s.whatsapp.net")
      by (unfold formatNumber; rewrite Hg, Hc; reflexivity).
    split; [exact E|]. rewrite E. apply Hplain.
  - intros Hg Hc. unfold formatNumber. rewrite Hg, Hc. reflexivity.
  - intros user Hu ->.
    assert (E : formatNumber (user ++ "@c.us") = user ++ "@s.whatsapp.net").
    { unfold formatNumber.
      rewrite (includes_app_r "@c.us" user "@c.us") by reflexivity.
      rewrite andb_false_r. apply (replace_after_digits "c.us"), Hu. }
    split; [exact E|]. rewrite E, <- Hu. apply Hplain.
Qed.

(** X18. [/send] asks the transport to send exactly for the accounts
    [/status] reports connected: with the three fields given, it answers
    404 where [/status] answers a bare [connected: false], 400 where
    [/status] reports another state, and otherwise calls [sendMessage]
    on the socket of the account with the formatted recipient and the
    content unchanged.  With a field missing or empty it answers 400
    whatever the account.  Once the transport has answered, the request
    is answered 200 exactly when [sendMessage] returned a message. *)
Theorem send_follows_status (a t c : string) (σ : Server) :
  (a ≠ "" → t ≠ "" → c ≠ "" →
     match get_status a σ with
     | StatusNone => post_send (Some a) (Some t) (Some c) σ = inl SendNoClient
     | StatusOther _ _ => post_send (Some a) (Some t) (Some c) σ = inl SendNotOpen
     | StatusConnected _ =>
         ∃ s, clients σ !! a = Some s ∧
              post_send (Some a) (Some t) (Some c) σ =
                inr {| via := s; recipient := formatNumber t; content_text := c |}
     end) ∧
  (∀ agent_id to content,
     Js.truthy agent_id && Js.truthy to && Js.truthy content = false →
     post_send agent_id to content σ = inl SendMissing) ∧
  (∀ r message_id,
     post_send_settled r = SendDone message_id ↔ r = SendReturns (Some message_id)).
Proof.
  split; [|split].
  3: { intros r message_id. destruct r as [m|[i|]]; cbn; split; congruence. }
  - intros Ha Ht Hc. unfold post_send, get_status.
    apply String.eqb_neq in Ha, Ht, Hc. cbn [Js.truthy]. rewrite Ha, Ht, Hc.
    cbn [negb orb default from_option id].
    destruct (clients σ !! a) as [s|]; [|reflexivity].
    case_bool_decide; cbn [negb]; [|reflexivity]. eauto.
  - intros agent_id to content H. unfold post_send.
    destruct (Js.truthy agent_id); [|reflexivity].
    destruct (Js.truthy to); [|reflexivity].
    destruct (Js.truthy content); [discriminate|reflexivity].
Qed.

Lemma after_no_collections evs :
  Store.chats (Store.after evs) = None ∧ Store.messages (Store.after evs) = None.
Proof.
  unfold Store.after.
  assert (H : ∀ st, Store.chats (fold_left Store.on_event evs st) = Store.chats st ∧
                    Store.messages (fold_left Store.on_event evs st) = Store.messages st).
  { induction evs as [|e evs IH]; intros st; [auto|].
    cbn [fold_left]. destruct (IH (Store.on_event st e)) as [-> ->]. auto. }
  apply H.
Qed.

(** X19. The store of a session is created with its contacts only and
    nothing ever gives it chats or messages: [/chats] and [/messages]
    never answer with a list.  They answer 404 for an account that has
    no client record or is not open, and 500 for every other. *)
Theorem chats_and_messages_never_listed (evs : list Store.StoreEvent)
    (parseInt : string → option Z) (agent_id chat_id : string) (limit : option string)
    (σ : Server) :
  let store := Store.after evs in
  get_chats agent_id store σ =
    (if notConnected agent_id σ then ChatsNotConnected
     else ChatsFailed (UndefinedRead "all")) ∧
  get_messages parseInt agent_id chat_id limit store σ =
    (if notConnected agent_id σ then MessagesNotConnected
     else MessagesFailed (UndefinedRead chat_id)) ∧
  (∀ l, get_chats agent_id store σ ≠ ChatsList l) ∧
  (∀ l, get_messages parseInt agent_id chat_id limit store σ ≠ MessagesList l) ∧
  (notConnected agent_id σ = false ↔
     ∃ phone, get_status agent_id σ = StatusConnected phone).
Proof.
  cbn zeta. destruct (after_no_collections evs) as [Hc Hm].
  unfold get_chats, get_messages. rewrite Hc, Hm.
  split; [reflexivity|]. split; [reflexivity|].
  split; [destruct (notConnected agent_id σ); discriminate|].
  split; [destruct (notConnected agent_id σ); discriminate|].
  unfold notConnected, get_status.
  destruct (clients σ !! agent_id) as [s|]; cbn [Js.present negb orb].
  - case_bool_decide; cbn [negb].
    + split; eauto.
    + split; [discriminate|]. intros [? ?]. discriminate.
  - split; [discriminate|]. intros [? ?]. discriminate.
Qed.

Lemma respond_inj r r' σ : respond r σ = respond r' σ → r = r'.
Proof.
  intros H. apply (f_equal trace) in H. cbn in H.
  apply app_inv_head in H. congruence.
Qed.

Lemma park_not_respond t r σ σ' : tasks σ' = tasks σ → park t σ' ≠ respond r σ.
Proof.
  intros Ht H. apply (f_equal tasks) in H. cbn in H. rewrite Ht in H.
  apply (f_equal length) in H. rewrite length_app in H. cbn in H. lia.
Qed.

Lemma destroyClient_begin_not_respond c a r σ : destroyClient_begin c a σ ≠ respond r σ.
Proof.
  unfold destroyClient_begin, destroyClient_cleanup.
  destruct (clients (clearQrTimeout a σ) !! a); apply park_not_respond;
    cbn; apply LifecycleFacts.clearQrTimeout_tasks.
Qed.

(** X20. [/status] and [/init] agree on who is connected: [/status]
    reports an account connected with a phone number exactly when
    [/init] for that account answers [already_connected] with the same
    number, and [/init] then changes nothing. *)
Theorem status_agrees_with_init (a : string) (σ : Server) :
  a ≠ "" →
  ∀ phone, get_status a σ = StatusConnected phone ↔
           post_init (Some a) σ = respond (Connected phone) σ.
Proof.
  intros Ha phone. unfold get_status, post_init.
  apply String.eqb_neq in Ha. cbn [Js.truthy]. rewrite Ha. cbn [negb default from_option id].
  destruct (clients σ !! a) as [s|] eqn:Hc.
  - case_bool_decide as Ho.
    + split; [intros H; inversion H; reflexivity|].
      intros H. apply respond_inj in H. congruence.
    + split; [discriminate|]. cbn [Js.present negb andb].
      rewrite andb_false_r. intros H. apply destroyClient_begin_not_respond in H. tauto.
  - split; [discriminate|]. cbn [Js.present negb andb]. rewrite andb_true_r.
    destruct (MAX_CONCURRENT_SESSIONS <=? countConnectedClients σ)%Z.
    + intros H. apply respond_inj in H. discriminate.
    + intros H. apply park_not_respond in H; [tauto|].
      unfold initializeClient_begin. destruct (_ && _); reflexivity.
Qed.

(** X21. [/] and [/health] report as [activeClients] the number of
    client records, whatever their state, while the session limit of
    [/init] counts the open ones only: the count of [/init] never
    exceeds [activeClients], equals it when every record is open, and
    is below it as soon as one record is not open. *)
Theorem health_counts_every_record (now : string) (σ : Server) :
  activeClients (get_health now σ) = root_activeClients (get_root σ) ∧
  (countConnectedClients σ ≤ Z.of_nat (activeClients (get_health now σ)))%Z ∧
  ((∀ a s, clients σ !! a = Some s → clientStates σ !! a = Some st_open) →
     countConnectedClients σ = Z.of_nat (activeClients (get_health now σ))) ∧
  (∀ a s, clients σ !! a = Some s → clientStates σ !! a ≠ Some st_open →
     (countConnectedClients σ < Z.of_nat (activeClients (get_health now σ)))%Z).
Proof.
  cbn [activeClients get_health root_activeClients get_root].
  split; [reflexivity|]. split; [|split].
  - rewrite LifecycleFacts.countConnectedClients_size.
    apply inj_le, map_size_filter.
  - intros H. rewrite LifecycleFacts.countConnectedClients_size.
    rewrite map_filter_id; [reflexivity|]. intros i x Hi. exact (H i x Hi).
  - intros a s Ha Hno.
    rewrite (LifecycleFacts.countConnectedClients_excludes σ a Hno).
    rewrite LifecycleFacts.countConnectedClients_size. cbn [clients with_clients].
    pose proof (map_size_filter
                  (λ kv : string * nat, clientStates (with_clients (delete a) σ) !! kv.1
                                        = Some st_open) (delete a (clients σ))) as Hle.
    rewrite map_size_delete_Some in Hle by eauto.
    assert (size (clients σ) ≠ 0%nat).
    { intros Hz. apply map_size_empty_inv in Hz. rewrite Hz, lookup_empty in Ha.
      discriminate. }
    cbn [clientStates with_clients] in *. lia.
Qed.

Lemma digits_has c s : Text.isDigit c = false → Text.has c (Text.digits s) = false.
Proof.
  intros Hc. induction s as [|x s IH]; [reflexivity|]. cbn [Text.digits].
  destruct (Text.isDigit x) eqn:E; [|exact IH].
  cbn [Text.has]. rewrite IH, orb_false_r. apply Ascii.eqb_neq. congruence.
Qed.

(** X30. The recipient [/send] makes of a plain number is a JID whose
    phone number, as [jidToPhone] reads it, is the digits of what was
    given: formatting and reading back lose nothing but the
    punctuation. *)
Theorem formatNumber_phone (to : string) :
  Js.includes "@g.us" to = false → Js.includes "@c.us" to = false →
  jidToPhone (Some (formatNumber to)) = Text.digits to.
Proof.
  intros Hg Hc. unfold formatNumber. rewrite Hg, Hc. cbn [negb andb].
  rewrite HelperFacts.jidToPhone_split.
  change "@s.whatsapp.net" with (String "@" "s.whatsapp.net").
  rewrite HelperFacts.split0_app by (apply digits_has; reflexivity).
  apply HelperFacts.split0_id, digits_has. reflexivity.
Qed.

(** A number as a person writes it. *)
Lemma formatNumber_phone_witness :
  Js.includes "@g.us" "+54 9 11 2233-4455" = false ∧
  Js.includes "@c.us" "+54 9 11 2233-4455" = false ∧
  jidToPhone (Some (formatNumber "+54 9 11 2233-4455")) = "5491122334455".
Proof.
  split; [reflexivity|]. split; [reflexivity|].
  exact (formatNumber_phone "+54 9 11 2233-4455" eq_refl eq_refl).
Defined.

(** A header with the secret, a header without [Bearer ], no header, and
    the default secret. *)
Lemma authMiddleware_exact_witness :
  authMiddleware "s3cret" (Some "Bearer s3cret") = Next ∧
  authMiddleware "s3cret" (Some "s3cret") ≠ Next ∧
  authMiddleware "s3cret" None = Unauthorized ∧
  authMiddleware (MICROSERVICE_SECRET (Some "")) (Some "Bearer your-secret-key-here") = Next.
Proof.
  split; [|split; [|split]].
  - exact (proj2 (proj1 (authMiddleware_exact "s3cret" (Some "Bearer s3cret"))) eq_refl).
  - intros H.
    pose proof (proj1 (proj1 (authMiddleware_exact "s3cret" (Some "s3cret"))) H) as E.
    discriminate E.
  - exact (proj1 (proj2 (authMiddleware_exact "s3cret" None)) eq_refl).
  - exact (proj2 (proj2 (proj2 (authMiddleware_exact "s3cret" None))) (Some "") eq_refl).
Defined.

(** A number as a person writes it, a group, a contact address. *)
Lemma formatNumber_shape_witness :
  formatNumber "+54 9 11 2233-4455" = "5491122334455@s.whatsapp.net" ∧
  formatNumber (formatNumber "+54 9 11 2233-4455") = formatNumber "+54 9 11 2233-4455" ∧
  formatNumber "120363@g.us" = "120363@g.us" ∧
  formatNumber "5491100@c.us" = "5491100@s.whatsapp.net".
Proof.
  destruct (proj1 (formatNumber_shape "+54 9 11 2233-4455") eq_refl eq_refl) as [H1 H2].
  split; [exact H1|]. split; [exact H2|]. split.
  - exact (proj1 (proj2 (formatNumber_shape "120363@g.us")) eq_refl eq_refl).
  - exact (proj1 (proj2 (proj2 (formatNumber_shape "5491100@c.us"))
                    "5491100" eq_refl eq_refl)).
Defined.

(** The paired account, an account that is showing its code, an unknown
    account. *)
Lemma send_follows_status_witness :
  post_send (Some "acct1") (Some "+54 9 11") (Some "hola") Examples.paired
    = inr {| via := 1; recipient := formatNumber "+54 9 11"; content_text := "hola" |} ∧
  post_send (Some "acct1") (Some "+54 9 11") (Some "hola") Samples.answered
    = inl SendNotOpen ∧
  post_send (Some "acct9") (Some "+54 9 11") (Some "hola") Examples.paired
    = inl SendNoClient ∧
  post_send (Some "acct1") (Some "") (Some "hola") Examples.paired = inl SendMissing.
Proof.
  assert (Ha : "acct1" ≠ "") by discriminate.
  assert (Ha9 : "acct9" ≠ "") by discriminate.
  assert (Ht : "+54 9 11" ≠ "") by discriminate.
  assert (Hc : "hola" ≠ "") by discriminate.
  split; [|split; [|split]].
  - pose proof (proj1 (send_follows_status "acct1" "+54 9 11" "hola" Examples.paired)
                  Ha Ht Hc) as H.
    assert (E : get_status "acct1" Examples.paired = StatusConnected "5491100")
      by (vm_compute; reflexivity).
    rewrite E in H. destruct H as (s & Hs & H).
    assert (Es : clients Examples.paired !! "acct1" = Some 1%nat)
      by (vm_compute; reflexivity).
    rewrite Es in Hs. inversion Hs; subst s. exact H.
  - pose proof (proj1 (send_follows_status "acct1" "+54 9 11" "hola" Samples.answered)
                  Ha Ht Hc) as H.
    assert (E : get_status "acct1" Samples.answered
                = StatusOther "connecting" (Some "data:image/png;base64,AAA"))
      by (vm_compute; reflexivity).
    rewrite E in H. exact H.
  - pose proof (proj1 (send_follows_status "acct9" "+54 9 11" "hola" Examples.paired)
                  Ha9 Ht Hc) as H.
    assert (E : get_status "acct9" Examples.paired = StatusNone)
      by (vm_compute; reflexivity).
    rewrite E in H. exact H.
  - exact (proj1 (proj2 (send_follows_status "acct1" "+54 9 11" "hola" Examples.paired))
             (Some "acct1") (Some "") (Some "hola") eq_refl).
Defined.

(** The paired account is reported connected by both routes. *)
Lemma status_agrees_with_init_witness :
  "acct1" ≠ "" ∧
  get_status "acct1" Examples.paired = StatusConnected "5491100" ∧
  post_init (Some "acct1") Examples.paired = respond (Connected "5491100") Examples.paired.
Proof.
  assert (Ha : "acct1" ≠ "") by discriminate.
  assert (E : get_status "acct1" Examples.paired = StatusConnected "5491100")
    by (vm_compute; reflexivity).
  split; [exact Ha|]. split; [exact E|].
  exact (proj1 (status_agrees_with_init "acct1" Examples.paired Ha "5491100") E).
Defined.

(** One open account counts for [/init] and for [/health]; an account
    that shows its code counts for [/health] only. *)
Lemma health_counts_every_record_witness :
  countConnectedClients Examples.paired
    = Z.of_nat (activeClients (get_health "2026-01-01T00:00:00.000Z" Examples.paired)) ∧
  (countConnectedClients Samples.answered
     < Z.of_nat (activeClients (get_health "2026-01-01T00:00:00.000Z" Samples.answered)))%Z.
Proof.
  split.
  - refine (proj1 (proj2 (proj2 (health_counts_every_record _ Examples.paired))) _).
    intros a s Ha.
    destruct (decide (a = "acct1")) as [->|Hne]; [vm_compute; reflexivity|].
    exfalso. revert Ha.
    assert (E : clients Examples.paired = {[ "acct1" := 1%nat ]})
      by (vm_compute; reflexivity).
    rewrite E, lookup_singleton_ne by congruence. discriminate.
  - refine (proj2 (proj2 (proj2 (health_counts_every_record _ Samples.answered)))
              "acct1" 0%nat _ _).
    + vm_compute; reflexivity.
    + vm_compute; discriminate.
Defined.

End RouteFacts.

(** * More properties of the session lifecycle *)

Module SessionFacts.

Import Lifecycle Accounts.
Local Open Scope Z_scope.

#[local] Hint Rewrite LifecycleFacts.settle_clients LifecycleFacts.settle_qrCodes
  LifecycleFacts.settle_qrTimeouts LifecycleFacts.settle_clientStates
  LifecycleFacts.settle_reconnectAttempts LifecycleFacts.settle_authStore
  LifecycleFacts.settle_tasks LifecycleFacts.settle_trace LifecycleFacts.settle_timerCount
  LifecycleFacts.clearQrTimeout_clients LifecycleFacts.clearQrTimeout_qrCodes
  LifecycleFacts.clearQrTimeout_clientStates
  LifecycleFacts.clearQrTimeout_reconnectAttempts LifecycleFacts.clearQrTimeout_authStore
  LifecycleFacts.clearQrTimeout_tasks LifecycleFacts.clearQrTimeout_socks
  LifecycleFacts.clearQrTimeout_timerCount LifecycleFacts.clearQrTimeout_qrTimeouts
  : frame.

Ltac pieces :=
  unfold initialize_settled, destroyClient_end, post_init, post_init_settled,
    destroyClient_begin, destroyClient_cleanup, initializeClient_socket,
    initializeClient_begin, connection_update, after_qr, on_open, on_close,
    qr_rendered, reconnect_settled.

(** ** One account at a time *)


Section Isolation.

Variable loggedOut : Z.
Local Abbreviation exec := (Lifecycle.exec loggedOut).
Local Abbreviation run := (Lifecycle.run loggedOut).
Local Abbreviation continue := (Lifecycle.continue loggedOut).









End Isolation.

(** ** The QR timers *)

Lemma pending_snoc h t e :
  pending h (t ++ [e])%list =
    match e with
    | SetTimeout h' _ _ => if (h' =? h)%nat then true else pending h t
    | ClearTimeout h' => if (h' =? h)%nat then false else pending h t
    | _ => pending h t
    end.
Proof. unfold pending. rewrite fold_left_app. reflexivity. Qed.

(** A piece that sets and clears no timer. *)
Lemma timers_same σ σ' :
  trace σ' = trace σ → qrTimeouts σ' = qrTimeouts σ → timerCount σ' = timerCount σ →
  timers_recorded σ → timers_recorded σ'.
Proof. unfold timers_recorded. intros -> -> ->. tauto. Qed.

Lemma timers_emit e σ : quiet e → timers_recorded σ → timers_recorded (emit e σ).
Proof.
  unfold timers_recorded. cbn [emit with_trace trace qrTimeouts timerCount].
  intros He H.
  assert (E : ∀ h, pending h (trace σ ++ [e])%list = pending h (trace σ))
    by (intros h; rewrite pending_snoc; destruct e; cbn in He; tauto).
  setoid_rewrite E. exact H.
Qed.

Lemma timers_settle s v σ : timers_recorded σ → timers_recorded (settle s v σ).
Proof.
  apply timers_same; [apply LifecycleFacts.settle_trace
    | apply LifecycleFacts.settle_qrTimeouts | apply LifecycleFacts.settle_timerCount].
Qed.

Lemma timers_clear a σ : timers_recorded σ → timers_recorded (clearQrTimeout a σ).
Proof.
  unfold clearQrTimeout. destruct (qrTimeouts σ !! a) as [h0|] eqn:Ha; [|tauto].
  unfold timers_recorded.
  cbn [emit with_trace with_qrTimeouts trace qrTimeouts timerCount].
  intros (Hrec & Hlt & Hinj). split; [|split].
  - intros h. rewrite pending_snoc.
    destruct (Nat.eqb_spec h0 h) as [->|Hne].
    + split; [discriminate|]. intros [b Hb].
      apply lookup_delete_Some in Hb as [Hab Hb]. destruct Hab. eauto.
    + rewrite Hrec. split; intros [b Hb]; exists b.
      * apply lookup_delete_Some. split; [congruence|exact Hb].
      * apply lookup_delete_Some in Hb. tauto.
  - intros h. rewrite pending_snoc.
    destruct (Nat.eqb_spec h0 h); [discriminate|]. apply Hlt.
  - intros b1 b2 h H1 H2. apply lookup_delete_Some in H1, H2. destruct H1, H2. eauto.
Qed.

(** A new timer is set for an account that owns none. *)
Lemma timers_arm a ms σ :
  qrTimeouts σ !! a = None → timers_recorded σ →
  timers_recorded (with_qrTimeouts <[a := timerCount σ]>
                     (emit (SetTimeout (timerCount σ) a ms) (with_timerCount S σ))).
Proof.
  unfold timers_recorded.
  cbn [emit with_trace with_qrTimeouts with_timerCount trace qrTimeouts timerCount].
  intros Ha (Hrec & Hlt & Hinj).
  assert (Hfresh : ∀ b, qrTimeouts σ !! b ≠ Some (timerCount σ)).
  { intros b Hb. assert (Hp : pending (timerCount σ) (trace σ) = true)
      by (apply Hrec; eauto). apply Hlt in Hp. lia. }
  split; [|split].
  - intros h. rewrite pending_snoc.
    destruct (Nat.eqb_spec (timerCount σ) h) as [<-|Hne].
    + split; [|reflexivity]. intros _. exists a. apply lookup_insert_eq.
    + rewrite Hrec. split; intros [b Hb]; exists b.
      * rewrite lookup_insert_ne; [exact Hb|]. congruence.
      * apply lookup_insert_Some in Hb as [[_ Hb]|[_ Hb]]; [congruence|exact Hb].
  - intros h. rewrite pending_snoc.
    destruct (Nat.eqb_spec (timerCount σ) h) as [<-|Hne]; [lia|].
    intros Hp. apply Hlt in Hp. lia.
  - intros b1 b2 h H1 H2.
    apply lookup_insert_Some in H1 as [[E1 H1]|[N1 H1]];
      apply lookup_insert_Some in H2 as [[E2 H2]|[N2 H2]].
    + congruence.
    + subst h. destruct (Hfresh _ H2).
    + subst h. destruct (Hfresh _ H1).
    + eauto.
Qed.

Lemma timers_park t σ : timers_recorded σ → timers_recorded (park t σ).
Proof. apply timers_same; reflexivity. Qed.
Lemma timers_removeAuth a σ : timers_recorded σ → timers_recorded (removeAuth a σ).
Proof. apply timers_same; reflexivity. Qed.
Lemma timers_with_clients f σ : timers_recorded σ → timers_recorded (with_clients f σ).
Proof. apply timers_same; reflexivity. Qed.
Lemma timers_with_qrCodes f σ : timers_recorded σ → timers_recorded (with_qrCodes f σ).
Proof. apply timers_same; reflexivity. Qed.
Lemma timers_with_clientStates f σ :
  timers_recorded σ → timers_recorded (with_clientStates f σ).
Proof. apply timers_same; reflexivity. Qed.
Lemma timers_with_reconnectAttempts f σ :
  timers_recorded σ → timers_recorded (with_reconnectAttempts f σ).
Proof. apply timers_same; reflexivity. Qed.
Lemma timers_with_authStore f σ : timers_recorded σ → timers_recorded (with_authStore f σ).
Proof. apply timers_same; reflexivity. Qed.
Lemma timers_with_socks f σ : timers_recorded σ → timers_recorded (with_socks f σ).
Proof. apply timers_same; reflexivity. Qed.
Lemma timers_with_tasks f σ : timers_recorded σ → timers_recorded (with_tasks f σ).
Proof. apply timers_same; reflexivity. Qed.

Ltac timers_step :=
  match goal with
  | |- timers_recorded (settle _ _ _) => apply timers_settle
  | |- timers_recorded (clearQrTimeout _ _) => apply timers_clear
  | |- timers_recorded (with_qrTimeouts _ _) =>
      apply timers_arm;
      [rewrite LifecycleFacts.clearQrTimeout_qrTimeouts; apply lookup_delete_eq|]
  | |- timers_recorded (emit _ _) => apply timers_emit; [exact I|]
  | |- timers_recorded (respond _ _) => apply timers_emit; [exact I|]
  | |- timers_recorded (park _ _) => apply timers_park
  | |- timers_recorded (removeAuth _ _) => apply timers_removeAuth
  | |- timers_recorded (with_clients _ _) => apply timers_with_clients
  | |- timers_recorded (with_qrCodes _ _) => apply timers_with_qrCodes
  | |- timers_recorded (with_clientStates _ _) => apply timers_with_clientStates
  | |- timers_recorded (with_reconnectAttempts _ _) => apply timers_with_reconnectAttempts
  | |- timers_recorded (with_authStore _ _) => apply timers_with_authStore
  | |- timers_recorded (with_socks _ _) => apply timers_with_socks
  | |- timers_recorded (with_tasks _ _) => apply timers_with_tasks
  end.

Ltac timers := intros; pieces; repeat case_match; repeat timers_step; try assumption.

Section Timers.

Variable loggedOut : Z.
Local Abbreviation exec := (Lifecycle.exec loggedOut).
Local Abbreviation run := (Lifecycle.run loggedOut).
Local Abbreviation continue := (Lifecycle.continue loggedOut).

Lemma continue_timers t answer σ σ' :
  continue t answer σ = Some σ' → timers_recorded σ → timers_recorded σ'.
Proof.
  destruct t; cbn [Lifecycle.continue].
  - destruct (socks σ !! s) as [k|]; [|discriminate]. cbn [mbind option_bind].
    intros [= <-]. destruct answer; timers.
  - destruct (socks σ !! s) as [k|]; [|discriminate]. cbn [mbind option_bind].
    intros [= <-]. timers.
  - destruct (socks σ !! s) as [k|]; [|discriminate]. cbn [mbind option_bind].
    intros [= <-]. timers.
  - destruct answer; intros [= <-]; timers.
  - intros [= <-]. timers.
  - destruct (socks σ !! s') as [k|]; [|discriminate]. cbn [mbind option_bind].
    destruct (head (settled k)) as [v|]; [|discriminate]. cbn [mbind option_bind].
    intros [= <-]. timers.
  - intros [= <-]. destruct answer; timers.
  - intros [= <-]. timers.
Qed.

Lemma exec_timers e σ : timers_recorded σ → timers_recorded (exec e σ).
Proof.
  destruct e; cbn [Lifecycle.exec].
  - timers.
  - timers.
  - timers.
  - timers.
  - timers.
  - timers.
  - timers.
  - intros H. destruct (tasks σ !! i) as [t|]; [|exact H].
    destruct (continue t answer (with_tasks (delete i) σ)) as [σ'|] eqn:E; [|exact H].
    cbn [default from_option id].
    apply (continue_timers _ _ _ _ E). timers.
Qed.

(** X27. At every moment of every run the QR timers that have been set
    and not cleared are exactly the handles kept in [qrTimeouts]: a timer
    is never lost track of, an account has one running timer at most,
    and no handle is kept for two accounts. *)
Theorem timers_always_recorded (disk : gmap string Creds) (es : list Event) :
  timers_recorded (run es (boot disk)).
Proof.
  assert (H0 : timers_recorded (boot disk)).
  { unfold timers_recorded. cbn. split; [|split].
    - intros h. split; [discriminate|]. intros [a Ha]. rewrite lookup_empty in Ha.
      discriminate.
    - discriminate.
    - intros a b h Ha. rewrite lookup_empty in Ha. discriminate. }
  revert H0. generalize (boot disk).
  induction es as [|e es IH]; intros σ H; [exact H|].
  cbn [Lifecycle.run fold_left]. apply IH, exec_timers, H.
Qed.

End Timers.

(** ** Teardowns *)

Section Teardown.

Variable loggedOut : Z.
Local Abbreviation exec := (Lifecycle.exec loggedOut).
Local Abbreviation run := (Lifecycle.run loggedOut).
Local Abbreviation continue := (Lifecycle.continue loggedOut).

(** The suspended function at position [i] continues. *)
Lemma exec_resume_at i t answer σ ts ts' :
  tasks σ = (ts ++ t :: ts')%list → length ts = i →
  exec (Resume i answer) σ =
    default σ (continue t answer (with_tasks (λ _, (ts ++ ts')%list) σ)).
Proof.
  intros Ht <-. cbn [Lifecycle.exec]. rewrite Ht, lookup_app_r by lia.
  rewrite Nat.sub_diag. cbn [lookup list_lookup].
  replace (with_tasks (delete (length ts)) σ) with (with_tasks (λ _, (ts ++ ts')%list) σ);
    [reflexivity|].
  unfold with_tasks. rewrite Ht, delete_middle. reflexivity.
Qed.

(** What is left of the trace of a cleared timer. *)
Lemma clearQrTimeout_trace a σ :
  ∃ fx, trace (clearQrTimeout a σ) = (trace σ ++ fx)%list ∧
        ∀ e, In e fx → ∃ h, e = ClearTimeout h.
Proof.
  unfold clearQrTimeout. destruct (qrTimeouts σ !! a) as [h|].
  - exists [ClearTimeout h]. split; [reflexivity|].
    intros e [<-|He]; [eauto | destruct He].
  - exists []. split; [symmetry; apply app_nil_r|]. intros e He. destruct He.
Qed.

(** [destroyClient] from its start to its return, with nothing else
    happening in between. *)
Lemma destroy_run c a (ok : bool) σ :
  let i := length (tasks σ) in
  let answer := if ok then Some "" else None in
  let after σ0 :=
    destroyClient_end c a
      (with_clientStates (delete a) (with_qrCodes (delete a) (with_clients (delete a)
        (removeAuth a σ0)))) in
  (∀ s, clients σ !! a = Some s →
     run [Resume i answer; Resume i (Some "")] (destroyClient_begin c a σ) =
       after (if ok then emit (Logout s) (clearQrTimeout a σ)
              else emit (EndSocket s) (emit (Logout s) (clearQrTimeout a σ)))) ∧
  (clients σ !! a = None →
     run [Resume i (Some "")] (destroyClient_begin c a σ) = after (clearQrTimeout a σ)).
Proof.
  cbn zeta. split.
  - intros s Hc. cbn [Lifecycle.run fold_left].
    unfold destroyClient_begin. rewrite LifecycleFacts.clearQrTimeout_clients, Hc.
    rewrite <- (LifecycleFacts.clearQrTimeout_tasks a σ).
    match goal with |- exec _ (exec _ (park ?t ?σ0)) = _ =>
      change (tasks (clearQrTimeout a σ)) with (tasks σ0);
      rewrite (LifecycleFacts.exec_resume_parked loggedOut t _ σ0) end.
    cbn [Lifecycle.continue default from_option id].
    unfold destroyClient_cleanup.
    destruct ok;
      match goal with |- exec _ (park ?t ?σ0) = _ =>
        change (tasks (clearQrTimeout a σ)) with (tasks σ0);
        rewrite (LifecycleFacts.exec_resume_parked loggedOut t _ σ0) end;
      reflexivity.
  - intros Hc. cbn [Lifecycle.run fold_left].
    unfold destroyClient_begin. rewrite LifecycleFacts.clearQrTimeout_clients, Hc.
    unfold destroyClient_cleanup.
    rewrite <- (LifecycleFacts.clearQrTimeout_tasks a σ) at 1.
    match goal with |- exec _ (park ?t ?σ0) = _ =>
      change (tasks (clearQrTimeout a σ)) with (tasks σ0);
      rewrite (LifecycleFacts.exec_resume_parked loggedOut t _ σ0) end.
    reflexivity.
Qed.

(** X22. When the promise of [initializeClient] resolves and no QR
    image is stored, [/init] never answers that the account is
    connected, whatever the state of the account: it has written
    ['connecting'] over the state before it tests for ['open'].  The
    session is logged out, the client record, the state, the QR timer
    and the stored credentials of the account are removed, and the
    request is answered 500. *)
Theorem init_without_code_is_torn_down (a : string) (s : nat) (ok : bool) (σ : Server) :
  Js.truthy (qrCodes σ !! a) = false →
  let i := length (tasks σ) in
  let σ' := run [Resume i (if ok then Some "" else None); Resume i (Some "")]
                (post_init_settled a s Resolved σ) in
  clients σ' !! a = None ∧ clientStates σ' !! a = None ∧ qrTimeouts σ' !! a = None ∧
  authStore σ' !! a = None ∧ tasks σ' = tasks σ ∧
  ∃ fx, trace σ' =
          (trace σ ++ fx
             ++ [Respond (ServerError "QR code not generated after initialization")])%list ∧
        In (Logout s) fx ∧
        ∀ e, In e fx → e = Logout s ∨ e = EndSocket s ∨ ∃ h, e = ClearTimeout h.
Proof.
  intros Hq i σ'. subst i σ'. unfold post_init_settled.
  cbn [qrCodes clientStates with_clientStates with_clients]. rewrite Hq.
  rewrite lookup_insert_eq. rewrite bool_decide_eq_false_2 by discriminate.
  cbn [negb andb].
  set (σ1 := with_clientStates <[a := st_connecting]> (with_clients <[a := s]> σ)).
  change (tasks σ) with (tasks σ1).
  assert (Hc : clients σ1 !! a = Some s) by (cbn; apply lookup_insert_eq).
  rewrite (proj1 (destroy_run _ a ok σ1) s Hc).
  destruct (clearQrTimeout_trace a σ1) as (fx & Hfx & Hall).
  cbn [destroyClient_end].
  destruct ok; LifecycleFacts.frame; rewrite !lookup_delete_eq, Hfx;
    (do 5 (split; [reflexivity|])).
  - exists (fx ++ [Logout s])%list. rewrite <- !app_assoc. split; [reflexivity|].
    split; [apply in_app_iff; right; left; reflexivity|].
    intros e He. apply in_app_iff in He as [He|[<-|He]]; [auto | auto | destruct He].
  - exists (fx ++ [Logout s; EndSocket s])%list. rewrite <- !app_assoc.
    split; [reflexivity|].
    split; [apply in_app_iff; right; left; reflexivity|].
    intros e He.
    apply in_app_iff in He as [He|[<-|[<-|He]]]; [auto | auto | auto | destruct He].
Qed.


(** X26. A connection that opens resets the backoff: the reconnect
    counter of the account is removed, its QR timer is cleared and its
    state is ['open'], so that the next recoverable close is attempt 1
    and waits 2000 ms, however many attempts came before. *)
Theorem open_resets_backoff (s s' : nat) (a : string) (u : Update) (σ : Server) :
  shouldReconnect loggedOut u = true →
  let σ1 := on_open s a σ in
  reconnectAttempts σ1 !! a = None ∧ clientStates σ1 !! a = Some st_open ∧
  qrTimeouts σ1 !! a = None ∧ nextAttempt a σ1 = 1 ∧
  on_close loggedOut s' a u σ1 =
    park (ReconnectDelay s' 2000 (closeReason u))
      (with_reconnectAttempts <[a := 1]> (with_clientStates <[a := st_close]> σ1)).
Proof.
  intros Hr σ1.
  assert (Hcnt : reconnectAttempts σ1 !! a = None).
  { subst σ1. unfold on_open. LifecycleFacts.frame. apply lookup_delete_eq. }
  assert (Hn : nextAttempt a σ1 = 1) by (unfold nextAttempt; rewrite Hcnt; reflexivity).
  split; [exact Hcnt|]. split.
  { subst σ1. unfold on_open. LifecycleFacts.frame. apply lookup_insert_eq. }
  split.
  { subst σ1. unfold on_open. LifecycleFacts.frame. apply lookup_delete_eq. }
  split; [exact Hn|].
  rewrite (LifecycleFacts.on_close_retry loggedOut s' a u σ1 Hr)
    by (rewrite Hn; unfold MAX_RECONNECT_ATTEMPTS; lia).
  rewrite Hn. reflexivity.
Qed.

(** X28. The cleanup interval and the reconnect interfere.  After a
    recoverable close the state of the account is ['close'] and its
    client record is still there: a visit of the cleanup interval
    during the reconnect delay tears the account down, stored
    credentials included, and the reconnect that follows makes its
    socket without credentials. *)
Theorem sweep_during_backoff_drops_credentials
    (s c : nat) (k : Sock) (u : Update) (ok : bool) (x : string) (y : option string)
    (σ : Server) :
  let a := sock_agent k in
  let n := length (tasks σ) in
  let es := [ConnectionUpdate s u; Sweep a;
             Resume (S n) (if ok then Some "" else None); Resume (S n) (Some "");
             Resume n (Some ""); Resume n (Some x); Resume n y] in
  socks σ !! s = Some k → clients σ !! a = Some c →
  Js.truthy (qr u) = false → connection u = Some st_close →
  shouldReconnect loggedOut u = true → nextAttempt a σ ≤ MAX_RECONNECT_ATTEMPTS →
  feasible loggedOut es σ = true ∧
  authStore (run es σ) !! a = None ∧ clients (run es σ) !! a = None ∧
  socks (run es σ) =
    (socks σ ++ [{| sock_agent := a; sock_isReconnect := true; sock_auth := None;
                    sock_user := None; qrResolved := false; settled := [] |}])%list ∧
  tasks (run es σ) =
    (tasks σ ++ [AwaitSocket (for_reconnect s (closeReason u)) a (length (socks σ))])%list ∧
  In (Logout c) (trace (run es σ)).
Proof.
  intros a n es Hk Hc Hq Hcl Hr Hn.
  (* the close *)
  set (σ1 := exec (ConnectionUpdate s u) σ).
  assert (E1 : σ1 = park (ReconnectDelay s (reconnectDelay (nextAttempt a σ)) (closeReason u))
                      (with_reconnectAttempts <[a := nextAttempt a σ]>
                        (with_clientStates <[a := st_close]> σ))).
  { subst σ1. rewrite (LifecycleFacts.exec_close loggedOut σ s k u Hk Hq Hcl).
    apply LifecycleFacts.on_close_retry; assumption. }
  set (rd := ReconnectDelay s (reconnectDelay (nextAttempt a σ)) (closeReason u)) in *.
  (* the visit of the cleanup interval *)
  set (σ2 := exec (Sweep a) σ1).
  assert (E2 : σ2 = destroyClient_begin by_sweeper a σ1).
  { subst σ2. cbn [Lifecycle.exec]. rewrite E1. LifecycleFacts.frame. rewrite Hc.
    rewrite lookup_insert_eq. rewrite !bool_decide_eq_false_2 by discriminate.
    reflexivity. }
  assert (Hc1 : clients σ1 !! a = Some c) by (rewrite E1; LifecycleFacts.frame; exact Hc).
  assert (Ht1 : tasks σ1 = (tasks σ ++ [rd])%list) by (rewrite E1; reflexivity).
  assert (Hlen : length (tasks σ1) = S n)
    by (rewrite Ht1, length_app; cbn [length]; subst n; lia).
  (* its teardown *)
  set (σ4 := run [Resume (S n) (if ok then Some "" else None); Resume (S n) (Some "")] σ2).
  pose proof (proj1 (destroy_run by_sweeper a ok σ1) c Hc1) as E4.
  rewrite Hlen, <- E2 in E4. fold σ4 in E4. cbn [destroyClient_end] in E4.
  assert (Ht4 : tasks σ4 = (tasks σ ++ [rd])%list)
    by (rewrite E4; destruct ok; LifecycleFacts.frame; exact Ht1).
  assert (Hs4 : socks σ4 = socks σ)
    by (rewrite E4; destruct ok; LifecycleFacts.frame; rewrite E1; reflexivity).
  assert (Ha4 : authStore σ4 !! a = None)
    by (rewrite E4; destruct ok; LifecycleFacts.frame; apply lookup_delete_eq).
  assert (Hc4 : clients σ4 !! a = None)
    by (rewrite E4; destruct ok; LifecycleFacts.frame; apply lookup_delete_eq).
  assert (Hl4 : In (Logout c) (trace σ4)).
  { rewrite E4. destruct ok; LifecycleFacts.frame; apply in_app_iff.
    - right. left. reflexivity.
    - left. apply in_app_iff. right. left. reflexivity. }
  (* the delay is over *)
  set (σ5 := exec (Resume n (Some "")) σ4).
  assert (E5 : σ5 = park (LoadAuth (for_reconnect s (closeReason u)) a true)
                      (with_tasks (λ _, (tasks σ ++ [])%list) σ4)).
  { subst σ5. rewrite (exec_resume_at n rd _ σ4 (tasks σ) [] Ht4 eq_refl).
    subst rd. cbn [Lifecycle.continue]. cbn [socks with_tasks]. rewrite Hs4, Hk.
    reflexivity. }
  set (σ6 := exec (Resume n (Some x)) σ5).
  assert (E6 : σ6 = park (FetchVersion (for_reconnect s (closeReason u)) a true None)
                      (with_tasks (λ _, (tasks σ ++ [])%list) σ5)).
  { subst σ6.
    rewrite (exec_resume_at n (LoadAuth (for_reconnect s (closeReason u)) a true) _ σ5
               (tasks σ) []);
      [|rewrite E5; cbn; rewrite app_nil_r; reflexivity|reflexivity].
    cbn [Lifecycle.continue]. cbn [authStore with_tasks]. rewrite E5.
    cbn [authStore with_tasks park]. rewrite Ha4. reflexivity. }
  set (σ7 := exec (Resume n y) σ6).
  assert (E7 : σ7 = initializeClient_socket (for_reconnect s (closeReason u)) a true None
                      (with_tasks (λ _, (tasks σ ++ [])%list) σ6)).
  { subst σ7.
    rewrite (exec_resume_at n (FetchVersion (for_reconnect s (closeReason u)) a true None)
               _ σ6 (tasks σ) []);
      [|rewrite E6; cbn; rewrite app_nil_r; reflexivity|reflexivity].
    reflexivity. }
  assert (Erun : run es σ = σ7) by reflexivity.
  rewrite Erun.
  assert (Hs7 : socks σ7 = (socks σ ++ [{| sock_agent := a; sock_isReconnect := true;
                  sock_auth := None; sock_user := None; qrResolved := false;
                  settled := [] |}])%list).
  { rewrite E7, E6, E5. unfold initializeClient_socket. LifecycleFacts.frame.
    rewrite Hs4. reflexivity. }
  split.
  { subst es. cbn [feasible enabled].
    fold σ1. fold σ2. rewrite Hk, Hc1. cbn [Js.present andb].
    change (exec (Resume (S n) (Some "")) (exec (Resume (S n) (if ok then Some "" else None)) σ2))
      with σ4.
    fold σ5. fold σ6. fold σ7.
    assert (G3 : match tasks σ2 !! S n with
                 | Some t => Js.present (continue t (if ok then Some "" else None)
                                           (with_tasks (delete (S n)) σ2))
                 | None => false
                 end = true).
    { rewrite E2. unfold destroyClient_begin.
      rewrite LifecycleFacts.clearQrTimeout_clients, Hc1. LifecycleFacts.frame.
      rewrite Ht1, lookup_app_r by (rewrite length_app; cbn [length]; subst n; lia).
      rewrite length_app. cbn [length]. subst n.
      replace (S (length (tasks σ)) - (length (tasks σ) + 1))%nat with 0%nat by lia.
      reflexivity. }
    rewrite G3. cbn [andb].
    set (σ3 := exec (Resume (S n) (if ok then Some "" else None)) σ2).
    assert (G4 : match tasks σ3 !! S n with
                 | Some t => Js.present (continue t (Some "") (with_tasks (delete (S n)) σ3))
                 | None => false
                 end = true).
    { assert (E3 : tasks σ3 = ((tasks σ ++ [rd]) ++ [CleanupPause by_sweeper a])%list).
      { subst σ3. rewrite E2. unfold destroyClient_begin.
        rewrite LifecycleFacts.clearQrTimeout_clients, Hc1.
        rewrite <- Hlen, <- (LifecycleFacts.clearQrTimeout_tasks a σ1).
        match goal with |- tasks (exec _ (park ?t ?σ0)) = _ =>
          change (tasks (clearQrTimeout a σ1)) with (tasks σ0);
          rewrite (LifecycleFacts.exec_resume_parked loggedOut t _ σ0) end.
        cbn [Lifecycle.continue default from_option id]. unfold destroyClient_cleanup.
        destruct ok; LifecycleFacts.frame; rewrite Ht1; reflexivity. }
      rewrite E3, lookup_app_r by (rewrite length_app; cbn [length]; subst n; lia).
      rewrite length_app. cbn [length]. subst n.
      replace (S (length (tasks σ)) - (length (tasks σ) + 1))%nat with 0%nat by lia.
      reflexivity. }
    rewrite G4. cbn [andb].
    rewrite Ht4, lookup_app_r by (subst n; lia). subst n. rewrite Nat.sub_diag.
    cbn [lookup list_lookup]. subst rd. cbn [Lifecycle.continue].
    cbn [socks with_tasks]. rewrite Hs4, Hk. cbn [mbind option_bind Js.present andb].
    rewrite E5. cbn [tasks with_tasks park].
    rewrite app_nil_r, lookup_app_r by lia. rewrite Nat.sub_diag.
    cbn [lookup list_lookup Lifecycle.continue Js.present andb].
    rewrite E6. cbn [tasks with_tasks park].
    rewrite app_nil_r, lookup_app_r by lia. rewrite Nat.sub_diag.
    reflexivity. }
  split.
  { rewrite E7, E6, E5. unfold initializeClient_socket. LifecycleFacts.frame. exact Ha4. }
  split.
  { rewrite E7, E6, E5. unfold initializeClient_socket. LifecycleFacts.frame. exact Hc4. }
  split; [exact Hs7|]. split.
  { rewrite E7, E6, E5. unfold initializeClient_socket. LifecycleFacts.frame.
    rewrite Hs4, !app_nil_r. reflexivity. }
  rewrite E7, E6, E5. unfold initializeClient_socket. LifecycleFacts.frame. exact Hl4.
Qed.

End Teardown.

(** X29. The session limit is no bound on the sessions that are open.
    It is checked against the sessions that are open when [/init]
    arrives, and a session that is being paired does not count: there
    is a run from the start of the process in which no [/init] is
    answered 503 and which ends with more open sessions than
    [MAX_CONCURRENT_SESSIONS] (six accounts ask for a pairing code
    before any of them is open, and then scan their codes). *)
Theorem session_limit_can_be_exceeded :
  ∃ es, feasible Examples.loggedOut es initial = true ∧
        MAX_CONCURRENT_SESSIONS < countConnectedClients (run Examples.loggedOut es initial) ∧
        Forall (λ e, ∀ n m, e ≠ Respond (LimitReached n m))
               (trace (run Examples.loggedOut es initial)).
Proof.
  exists Samples.six_sessions.
  assert (Hc : countConnectedClients (run Examples.loggedOut Samples.six_sessions initial)
               = 6) by (vm_compute; reflexivity).
  split; [vm_compute; reflexivity|].
  split; [rewrite Hc; reflexivity|].
  match goal with |- Forall _ ?t => let v := eval vm_compute in t in change t with v end.
  repeat constructor; discriminate.
Qed.


(** [/init] continues for the open account with no QR image stored. *)
Lemma init_without_code_is_torn_down_witness :
  Js.truthy (qrCodes Examples.paired !! "acct1") = false ∧
  clientStates Examples.paired !! "acct1" = Some st_open ∧
  let σ' := run Examples.loggedOut [Resume 0 (Some ""); Resume 0 (Some "")]
              (post_init_settled "acct1" 1 Resolved Examples.paired) in
  clients σ' !! "acct1" = None ∧ authStore σ' !! "acct1" = None ∧
  In (Respond (ServerError "QR code not generated after initialization")) (trace σ').
Proof.
  assert (Hq : Js.truthy (qrCodes Examples.paired !! "acct1") = false)
    by (vm_compute; reflexivity).
  split; [exact Hq|]. split; [vm_compute; reflexivity|].
  destruct (init_without_code_is_torn_down Examples.loggedOut "acct1" 1 true
              Examples.paired Hq) as (H1 & _ & _ & H4 & _ & fx & Hfx & _).
  change (length (tasks Examples.paired)) with 0%nat in *.
  cbn zeta. split; [exact H1|]. split; [exact H4|].
  rewrite Hfx. apply in_app_iff. right. apply in_app_iff. right. left. reflexivity.
Defined.


(** The account that has used its five attempts opens, and is lost
    again. *)
Lemma open_resets_backoff_witness :
  shouldReconnect Examples.loggedOut Samples.lost = true ∧
  reconnectAttempts Examples.last_attempt !! "acct1" = Some 5%Z ∧
  let σ1 := on_open 6 "acct1" Examples.last_attempt in
  nextAttempt "acct1" σ1 = 1%Z ∧
  on_close Examples.loggedOut 6 "acct1" Samples.lost σ1 =
    park (ReconnectDelay 6 2000 (closeReason Samples.lost))
      (with_reconnectAttempts <[ "acct1" := 1%Z ]>
        (with_clientStates <[ "acct1" := st_close ]> σ1)).
Proof.
  assert (Hr : shouldReconnect Examples.loggedOut Samples.lost = true) by reflexivity.
  split; [exact Hr|]. split; [vm_compute; reflexivity|].
  destruct (open_resets_backoff Examples.loggedOut 6 6 "acct1" Samples.lost
              Examples.last_attempt Hr) as (_ & _ & _ & H4 & H5).
  cbn zeta. split; [exact H4 | exact H5].
Defined.

(** The open account loses its connection and is visited during the
    delay. *)
Lemma sweep_during_backoff_drops_credentials_witness :
  let es := [ConnectionUpdate 1 Samples.lost; Sweep "acct1";
             Resume 1 (Some ""); Resume 1 (Some "");
             Resume 0 (Some ""); Resume 0 (Some ""); Resume 0 (Some "")] in
  authStore Examples.paired !! "acct1" = Some "creds-1" ∧
  feasible Examples.loggedOut es Examples.paired = true ∧
  authStore (run Examples.loggedOut es Examples.paired) !! "acct1" = None ∧
  (∃ k, socks (run Examples.loggedOut es Examples.paired) !! 2%nat = Some k ∧
        sock_isReconnect k = true ∧ sock_auth k = None).
Proof.
  intros es.
  assert (Hk : socks Examples.paired !! 1%nat =
               Some {| sock_agent := "acct1"; sock_isReconnect := true;
                       sock_auth := Some "creds-1";
                       sock_user := Some "5491100:7@s.whatsapp.net";
                       qrResolved := true; settled := [Resolved] |})
    by (vm_compute; reflexivity).
  assert (Hc : clients Examples.paired !! "acct1" = Some 1%nat)
    by (vm_compute; reflexivity).
  assert (Hn : (nextAttempt "acct1" Examples.paired ≤ MAX_RECONNECT_ATTEMPTS)%Z)
    by (vm_compute; discriminate).
  destruct (sweep_during_backoff_drops_credentials Examples.loggedOut 1 1 _
              Samples.lost true "" (Some "") Examples.paired
              Hk Hc eq_refl eq_refl eq_refl Hn) as (H1 & H2 & _ & H4 & _).
  change (length (tasks Examples.paired)) with 0%nat in *.
  cbn [sock_agent] in *.
  split; [vm_compute; reflexivity|]. split; [exact H1|]. split; [exact H2|].
  eexists. split; [subst es; rewrite H4; vm_compute; reflexivity|]. auto.
Defined.

End SessionFacts.
